(** * Proof validation and result aggregation of lean_llm_test

    A shallow embedding of the validation and aggregation code of the
    repository:

    - [src/pass_at_k.py]: [compute_pass_at_k], [has_correct_proof],
      [analyze_results];
    - [scripts/find_longest.py]: the per-theorem longest-correct-proof scan;
    - [scripts/script2.py]: [extract_category];
    - [src/organzie.py]: [combine_files];
    - [src/validate.py], [src/revalidate.py]: [check_context_proofs], the
      retry loops, the selection and repair loops;
    - [src/generate.py]: [extract_proof_from_response], [generate];
    - [src/prepare/false_attempts.py]: [extract_unique_false_proofs].

    Conventions.  Python integers are [Z].  Python floats are modelled by
    the exact rationals [Q] they round: every float the code builds is a
    literal ([0.0], [1.0]), a measured duration, or one division followed
    by one subtraction.  A Python [str] is a [string] whose characters
    stand for code points below 256.  [None] is [option]'s [None]; a raised
    exception is the [Raise] constructor of [result]. *)

From Stdlib Require Import ZArith QArith Lia String Ascii List Sorted.
From stdpp Require Import base option list gmap strings.

Local Open Scope Z_scope.

(** ** Exceptions and fallible results *)

(** The subclasses of [Exception] the modelled code can meet. *)
Inductive py_exn : Type :=
  | TimeoutError
  | ConnectionAbortedError
  | JSONDecodeError
  | AssertionError
  | IndexError
  | TypeError
  | KeyError
  | ValueError
  | ZeroDivisionError
  | AttributeError
  | RuntimeError.

Inductive result (A : Type) : Type :=
  | Ok (a : A)
  | Raise (e : py_exn).
Arguments Ok {A} a.
Arguments Raise {A} e.

(** Sequencing: the first raised exception propagates.  With the instance
    below, [x ← m; k] is stdpp's notation for it. *)
Definition result_bind {A B} (f : A -> result B) (m : result A) : result B :=
  match m with
  | Ok a => f a
  | Raise e => Raise e
  end.

#[export] Instance result_mbind : MBind result := @result_bind.
#[export] Instance result_mret : MRet result := @Ok.

(** [l[i]] for [0 <= i]: an [IndexError] out of range. *)
Definition subscript {A} (l : list A) (i : nat) : result A :=
  match l !! i with
  | Some x => Ok x
  | None => Raise IndexError
  end.

(** [v[i]] where [v] may be [None]: subscripting [None] is a [TypeError]. *)
Definition subscript_opt {A} (v : option (list A)) (i : nat) : result A :=
  match v with
  | Some l => subscript l i
  | None => Raise TypeError
  end.

(** ** Canonical merged records *)

(** [{start_pos: (line, column), end_pos: (line, column)}] *)
Record position_pair := {
  start_pos : Z * Z;
  end_pos : Z * Z
}.

(** One entry of a theorem's [candidates] array.  [is_correct] is read with
    [c.get('is_correct', False)], so the key may be absent (outer [None]),
    [null] (inner [None]) or a boolean. *)
Record candidate := {
  proof : string;
  is_correct : option (option bool);
  duration : Q;
  prompt_tokens : Z;
  completion_tokens : Z;
  total_tokens : Z;
  compiled_lines : option Z;
  error_message : option string;
  error_position : option position_pair
}.

(** ** [src/pass_at_k.py] *)

Module PassAtK.

(** [math.comb] on naturals, by Pascal's rule. *)
Fixpoint binom (n k : nat) : nat :=
  match k, n with
  | O, _ => 1
  | S _, O => 0
  | S k', S n' => binom n' k' + binom n' k
  end.

(** [math.comb(n, k)]: a [ValueError] on a negative argument. *)
Definition math_comb (n k : Z) : result Z :=
  if (n <? 0) || (k <? 0) then Raise ValueError
  else Ok (Z.of_nat (binom (Z.to_nat n) (Z.to_nat k))).

(** [c.get('is_correct', False)] *)
Definition get_is_correct (c : candidate) : option bool :=
  match is_correct c with
  | Some v => v
  | None => Some false
  end.

(** Truth value of a JSON boolean or [null]. *)
Definition truthy (v : option bool) : bool :=
  match v with
  | Some true => true
  | _ => false
  end.

Definition marked_correct (c : candidate) : bool := truthy (get_is_correct c).

(** [sum(1 for c in candidates if c.get('is_correct', False))] *)
Fixpoint sum_correct (candidates : list candidate) : Z :=
  match candidates with
  | [] => 0
  | c :: rest => (if marked_correct c then 1 else 0) + sum_correct rest
  end.

(** [numerator / denominator] on integers. *)
Definition true_div (numerator denominator : Z) : result Q :=
  if denominator =? 0 then Raise ZeroDivisionError
  else Ok (inject_Z numerator / inject_Z denominator)%Q.

Definition compute_pass_at_k (candidates : list candidate) (k : Z) : Q :=
  match candidates with
  | [] => 0%Q
  | _ =>
    let correct_count := sum_correct candidates in
    let n := Z.of_nat (length candidates) in
    let k := if k >? n then n else k in
    if correct_count =? 0 then 0%Q
    else if correct_count >=? k then 1%Q
    else
      (* try: ... except: return 0.0 *)
      match (numerator ← math_comb (n - correct_count) k;
             denominator ← math_comb n k;
             ratio ← true_div numerator denominator;
             Ok (1 - ratio)%Q) with
      | Ok r => r
      | Raise _ => 0%Q
      end
  end.

(** [any(c.get('is_correct', False) for c in candidates)] *)
Definition has_correct_proof (candidates : list candidate) : bool :=
  existsb marked_correct candidates.

End PassAtK.

(** ** [scripts/find_longest.py] *)

Module FindLongest.

(** The three loop variables of the per-theorem scan. *)
Record scan_state := {
  longest_correct_proof : string;
  longest_proof_length : nat;
  longest_proof_info : option candidate
}.

Definition scan_init : scan_state :=
  {| longest_correct_proof := "";
     longest_proof_length := 0;
     longest_proof_info := None |}.

(** Body of [for candidate in candidates]. *)
Definition scan_step (st : scan_state) (c : candidate) : scan_state :=
  if PassAtK.truthy (PassAtK.get_is_correct c) then
    let proof_length := String.length (proof c) in
    if (longest_proof_length st <? proof_length)%nat then
      {| longest_correct_proof := proof c;
         longest_proof_length := proof_length;
         longest_proof_info := Some c |}
    else st
  else st.

Definition scan_candidates (candidates : list candidate) : scan_state :=
  fold_left scan_step candidates scan_init.

(** The proof selected for a theorem: one exists only when
    [longest_proof_length > 0]. *)
Definition longest_correct (candidates : list candidate) : option candidate :=
  let st := scan_candidates candidates in
  if (0 <? longest_proof_length st)%nat then longest_proof_info st else None.

End FindLongest.

(** ** Task, generation and validation records *)

(** One line of the task file. *)
Record task := {
  theoremStatement : string;
  srcContext : string;
  theoremName : string
}.

Record experiment_setting := {
  model : string;
  n_candidates : Z;
  temperature : Q;
  max_tokens : Z;
  timeout : Z;
  reasoning_effort : string;
  generation : string;
  used_context : string;
  used_hints : string;
  dataset : string;
  total_tasks : Z;
  timestamp : string
}.

(** One element of [generation_results]. *)
Module Gen.
Record record := {
  statement_idx : Z;
  candidates : list string;
  durations : list Q;
  prompt_tokens : list Z;
  completion_tokens : list Z;
  total_tokens : list Z
}.
End Gen.

(** One element of [validation_results]; each array may be [null]. *)
Module Val.
Record record := {
  statement_idx : Z;
  correctness : option (list (option bool));
  error_positions : option (list (option position_pair));
  error_messages : option (list (option string));
  compiled_line_counts : option (list (option Z))
}.
End Val.

(** ** [src/organzie.py] *)

Module Organize.

(** A parsed line of a generation or validation file: a JSON object that
    may carry the key [experiment_setting] and the results key. *)
Record line (R : Type) := {
  line_setting : option experiment_setting;
  line_results : option (list R)
}.
Arguments line_setting {R} _.
Arguments line_results {R} _.

(** [d[key]] on a JSON object: a [KeyError] when the key is absent. *)
Definition getitem {A} (v : option A) : result A :=
  match v with
  | Some a => Ok a
  | None => Raise KeyError
  end.

(** One value of [combined_data["results"]]. *)
Record entry := {
  entry_theoremStatement : string;
  entry_theoremName : string;
  entry_candidates : list candidate
}.

Record combined := {
  combined_setting : experiment_setting;
  results : gmap string entry
}.

(** The two loops filling [generation_results] and [validation_results]:
    [for item in data: if key in item: for result in item[key]:
       d[result["statement_idx"]] = result]. *)
Definition index_results {R} (statement_idx : R -> Z) (data : list (line R))
  : gmap Z R :=
  fold_left
    (fun d item =>
       match line_results item with
       | Some rs => fold_left (fun d result => <[statement_idx result := result]> d) rs d
       | None => d
       end)
    data ∅.

(** Body of [for i in range(n_candidates)]; the dictionary display is
    evaluated key by key, in the order written. *)
Definition make_candidate (gen_result : Gen.record) (val_result : Val.record)
    (i : nat) : result candidate :=
  match Val.correctness val_result with
  | None =>
    p ← subscript (Gen.candidates gen_result) i;
    d ← subscript (Gen.durations gen_result) i;
    pt ← subscript (Gen.prompt_tokens gen_result) i;
    ct ← subscript (Gen.completion_tokens gen_result) i;
    tt ← subscript (Gen.total_tokens gen_result) i;
    Ok {| proof := p; is_correct := Some None; duration := d;
          prompt_tokens := pt; completion_tokens := ct; total_tokens := tt;
          compiled_lines := None; error_message := None;
          error_position := None |}
  | Some correctness =>
    p ← subscript (Gen.candidates gen_result) i;
    ic ← subscript correctness i;
    d ← subscript (Gen.durations gen_result) i;
    pt ← subscript (Gen.prompt_tokens gen_result) i;
    ct ← subscript (Gen.completion_tokens gen_result) i;
    tt ← subscript (Gen.total_tokens gen_result) i;
    cl ← subscript_opt (Val.compiled_line_counts val_result) i;
    em ← subscript_opt (Val.error_messages val_result) i;
    ep ← subscript_opt (Val.error_positions val_result) i;
    Ok {| proof := p; is_correct := Some ic; duration := d;
          prompt_tokens := pt; completion_tokens := ct; total_tokens := tt;
          compiled_lines := cl; error_message := em;
          error_position := ep |}
  end.

(** [for x in xs: ys.append(f(x))], stopping at the first exception. *)
Fixpoint for_each {A B} (f : A -> result B) (xs : list A) : result (list B) :=
  match xs with
  | [] => Ok []
  | x :: rest =>
    y ← f x;
    ys ← for_each f rest;
    Ok (y :: ys)
  end.

(** The [candidates] list built for one task found in both dictionaries. *)
Definition merge_candidates (gen_result : Gen.record) (val_result : Val.record)
  : result (list candidate) :=
  let n_candidates := length (Gen.candidates gen_result) in
  for_each (make_candidate gen_result val_result) (seq 0 n_candidates).

(** Body of [for stmt_idx, problem in enumerate(problems_data)]; the
    [else] branch only prints a warning. *)
Definition merge_problem (generation_results : gmap Z Gen.record)
    (validation_results : gmap Z Val.record)
    (acc : gmap string entry) (stmt_idx : nat) (problem : task)
  : result (gmap string entry) :=
  match generation_results !! Z.of_nat stmt_idx,
        validation_results !! Z.of_nat stmt_idx with
  | Some gen_result, Some val_result =>
    candidates ← merge_candidates gen_result val_result;
    Ok (<[theoremName problem :=
            {| entry_theoremStatement := theoremStatement problem;
               entry_theoremName := theoremName problem;
               entry_candidates := candidates |}]> acc)
  | _, _ => Ok acc
  end.

Fixpoint merge_problems (generation_results : gmap Z Gen.record)
    (validation_results : gmap Z Val.record)
    (stmt_idx : nat) (problems : list task) (acc : gmap string entry)
  : result (gmap string entry) :=
  match problems with
  | [] => Ok acc
  | problem :: rest =>
    acc' ← merge_problem generation_results validation_results acc stmt_idx problem;
    merge_problems generation_results validation_results (S stmt_idx) rest acc'
  end.

(** [combine_files], from the three parsed files to the document written
    to [output_file].  The statistics printed after the write are
    [success_rate] below. *)
Definition combine_files (problems_data : list task)
    (generation_data : list (line Gen.record))
    (validation_data : list (line Val.record)) : result combined :=
  first_gen ← subscript generation_data 0;
  generation_settings ← getitem (line_setting first_gen);
  first_val ← subscript validation_data 0;
  _ ← getitem (line_setting first_val);
  let generation_results := index_results Gen.statement_idx generation_data in
  let validation_results := index_results Val.statement_idx validation_data in
  rs ← merge_problems generation_results validation_results 0 problems_data ∅;
  Ok {| combined_setting := generation_settings; results := rs |}.

(** [sum(len(result["candidates"]) for result in ...values())] *)
Definition total_candidates (c : combined) : Z :=
  map_fold (fun _ e acc => Z.of_nat (length (entry_candidates e)) + acc) 0
    (results c).

(** [sum(sum(1 for candidate in ... if candidate["is_correct"]) ...)] *)
Definition correct_candidates (c : combined) : Z :=
  map_fold (fun _ e acc => PassAtK.sum_correct (entry_candidates e) + acc) 0
    (results c).

(** The last line printed:
    [correct_candidates/total_candidates*100], a [ZeroDivisionError] when
    no candidate was merged. *)
Definition success_rate (c : combined) : result Q :=
  ratio ← PassAtK.true_div (correct_candidates c) (total_candidates c);
  Ok (ratio * 100)%Q.

End Organize.

(** ** Strings *)

Module Str.

Definition code (c : ascii) : N := N_of_ascii c.

(** Line boundaries of [str.splitlines] among the code points below 256;
    ["\r\n"] is handled by [splitlines_from]. *)
Definition is_line_boundary (c : ascii) : bool :=
  let n := code c in
  ((10 <=? n) && (n <=? 13) || (28 <=? n) && (n <=? 30) || (n =? 133))%N.

Definition is_cr (c : ascii) : bool := (code c =? 13)%N.
Definition is_lf (c : ascii) : bool := (code c =? 10)%N.

Definition snoc (s : string) (c : ascii) : string := s ++ String c "".

(** [cur] is the line read so far. *)
Fixpoint splitlines_from (cur : string) (s : string) : list string :=
  match s with
  | EmptyString => if String.eqb cur "" then [] else [cur]
  | String c rest =>
    if is_cr c then
      match rest with
      | String c' rest' =>
        if is_lf c' then cur :: splitlines_from "" rest'
        else cur :: splitlines_from "" rest
      | EmptyString => [cur]
      end
    else if is_line_boundary c then cur :: splitlines_from "" rest
    else splitlines_from (snoc cur c) rest
  end.

(** [s.splitlines()] *)
Definition splitlines (s : string) : list string := splitlines_from "" s.

(** [s.split('\n')] *)
Fixpoint split_from (cur : string) (s : string) : list string :=
  match s with
  | EmptyString => [cur]
  | String c rest =>
    if is_lf c then cur :: split_from "" rest
    else split_from (snoc cur c) rest
  end.

Definition split_newline (s : string) : list string := split_from "" s.

(** ['\n'.join(lines)] *)
Definition join_newline (lines : list string) : string :=
  String.concat (String (ascii_of_N 10) "") lines.

(** Characters removed by [str.strip()], among the code points below 256. *)
Definition is_space (c : ascii) : bool :=
  let n := code c in
  ((9 <=? n) && (n <=? 13) || (28 <=? n) && (n <=? 32) || (n =? 133) || (n =? 160))%N.

Fixpoint lstrip (s : string) : string :=
  match s with
  | EmptyString => EmptyString
  | String c rest => if is_space c then lstrip rest else s
  end.

(** [rstrip]: a suffix of spaces is dropped. *)
Fixpoint rstrip (s : string) : string :=
  match s with
  | EmptyString => EmptyString
  | String c rest =>
    match rstrip rest with
    | EmptyString => if is_space c then EmptyString else String c EmptyString
    | rest' => String c rest'
    end
  end.

Definition strip (s : string) : string := rstrip (lstrip s).

Definition startswith (s prefix : string) : bool := String.prefix prefix s.

(** [s[n:]] *)
Fixpoint drop_chars (n : nat) (s : string) : string :=
  match n, s with
  | O, _ => s
  | S n', String _ rest => drop_chars n' rest
  | S _, EmptyString => EmptyString
  end.

End Str.

(** ** The checker: [lean_interact] as seen by the runner *)

Module Lean.

Record Pos := { line : Z; column : Z }.

(** A diagnostic of a response. *)
Record Message := {
  data : string;
  start_pos : option Pos;
  end_pos : option Pos
}.

(** A response that is not a [LeanError].  [lean_code_is_valid] holds the
    value of the method call [lean_code_is_valid(allow_sorry=False)]. *)
Record Response := {
  env : Z;
  messages : list Message;
  lean_code_is_valid : bool
}.

Record Command := {
  cmd : string;
  cmd_env : option Z
}.

(** What one call [server.run(command, timeout=...)] does. *)
Inductive run_outcome : Type :=
  | RunRaises (e : py_exn)
  | RunLeanError (message : string)
  | RunResponse (r : Response).

(** One checker process: the outcome of its [i]-th [run] call, given the
    command and the timeout passed. *)
Definition LeanServer : Type := nat -> Command -> option Z -> run_outcome.

End Lean.

(** ** [src/validate.py] *)

Module Validate.

(** The four lists [check_context_proofs] appends to. *)
Record outcomes := {
  correctness : list (option bool);
  error_messages : list (option string);
  error_positions : list (option position_pair);
  compiled_line_counts : list (option Z)
}.

Definition no_outcomes : outcomes :=
  {| correctness := []; error_messages := []; error_positions := [];
     compiled_line_counts := [] |}.

(** The verdict on one candidate. *)
Record outcome := {
  o_correctness : option bool;
  o_error_message : option string;
  o_error_position : option position_pair;
  o_compiled_lines : option Z
}.

Definition append_outcome (acc : outcomes) (o : outcome) : outcomes :=
  {| correctness := correctness acc ++ [o_correctness o];
     error_messages := error_messages acc ++ [o_error_message o];
     error_positions := error_positions acc ++ [o_error_position o];
     compiled_line_counts := compiled_line_counts acc ++ [o_compiled_lines o] |}.

(** [except (TimeoutError, ConnectionAbortedError, json.JSONDecodeError)] *)
Definition caught_in_check (e : py_exn) : bool :=
  match e with
  | TimeoutError | ConnectionAbortedError | JSONDecodeError => true
  | _ => false
  end.

Definition str_len (xs : list string) : Z := Z.of_nat (length xs).

(** Body of [for proof in proofs], from the outcome of [server.run]. *)
Definition check_proof (theorem_statement proof : string)
    (lean_output : Lean.run_outcome) : result outcome :=
  match lean_output with
  | Lean.RunRaises e =>
    if caught_in_check e then
      Ok {| o_correctness := None; o_error_message := None;
            o_error_position := None; o_compiled_lines := None |}
    else Raise e
  | Lean.RunLeanError message =>
    Ok {| o_correctness := Some false; o_error_message := Some message;
          o_error_position := None; o_compiled_lines := None |}
  | Lean.RunResponse r =>
    if Lean.lean_code_is_valid r then
      Ok {| o_correctness := Some true; o_error_message := None;
            o_error_position := None;
            o_compiled_lines := Some (str_len (Str.splitlines proof)) |}
    else
      message ← subscript (Lean.messages r) 0;
      Ok {| o_correctness := Some false;
            o_error_message := Some (Lean.data message);
            o_error_position :=
              match Lean.start_pos message, Lean.end_pos message with
              | Some s, Some e =>
                Some {| start_pos := (Lean.line s, Lean.column s);
                        end_pos := (Lean.line e, Lean.column e) |}
              | _, _ => None
              end;
            o_compiled_lines :=
              match Lean.start_pos message with
              | Some s => Some (Lean.line s - str_len (Str.splitlines theorem_statement))
              | None => None
              end |}
  end.

(** The command submitted for one candidate. *)
Definition proof_command (theorem_statement proof : string) (context_env : Z)
  : Lean.Command :=
  {| Lean.cmd := theorem_statement ++ " := " ++ proof;
     Lean.cmd_env := Some context_env |}.

(** The loop over [proofs]; [call] numbers the [run] calls of the session. *)
Fixpoint check_proofs (server : Lean.LeanServer) (timeout_per_proof : Z)
    (theorem_statement : string) (context_env : Z)
    (call : nat) (proofs : list string) (acc : outcomes) : result outcomes :=
  match proofs with
  | [] => Ok acc
  | proof :: rest =>
    o ← check_proof theorem_statement proof
          (server call (proof_command theorem_statement proof context_env)
                  (Some timeout_per_proof));
    check_proofs server timeout_per_proof theorem_statement context_env
      (S call) rest (append_outcome acc o)
  end.

(** [check_context_proofs]: [server] is the process started by
    [LeanServer(repl_config)]. *)
Definition check_context_proofs (server : Lean.LeanServer) (idx : Z)
    (timeout_per_proof : Z) (context_code theorem_statement : string)
    (proofs : list string) : result (Z * outcomes) :=
  match server 0%nat {| Lean.cmd := context_code; Lean.cmd_env := None |} None with
  | Lean.RunRaises e => Raise e
  | Lean.RunLeanError _ => Raise AssertionError
  | Lean.RunResponse context_res =>
    let context_env := Lean.env context_res in
    acc ← check_proofs server timeout_per_proof theorem_statement context_env
            1 proofs no_outcomes;
    Ok (idx, acc)
  end.

(** The record built from a returned tuple. *)
Definition record_of (idx : Z) (o : outcomes) : Val.record :=
  {| Val.statement_idx := idx;
     Val.correctness := Some (correctness o);
     Val.error_positions := Some (error_positions o);
     Val.error_messages := Some (error_messages o);
     Val.compiled_line_counts := Some (compiled_line_counts o) |}.

Definition all_none (idx : Z) : Val.record :=
  {| Val.statement_idx := idx;
     Val.correctness := None;
     Val.error_positions := None;
     Val.error_messages := None;
     Val.compiled_line_counts := None |}.

(** The processes started for one task: [sessions n] is the server of the
    attempt made when [n_tries = n]. *)
Definition sessions : Type := nat -> Lean.LeanServer.

Definition is_None {A} (v : option A) : bool :=
  match v with None => true | Some _ => false end.

(** [while validation_result["correctness"] is None and n_tries < 3];
    [except Exception] only prints.  [fuel] bounds the iterations. *)
Fixpoint retry_loop (fuel : nat) (max_tries : nat) (attempt : nat -> result (Z * outcomes))
    (validation_result : Val.record) (n_tries : nat)
  : option (Val.record * nat) :=
  if is_None (Val.correctness validation_result) && (n_tries <? max_tries)%nat then
    match fuel with
    | O => None
    | S fuel' =>
      let validation_result' :=
        match attempt n_tries with
        | Ok (idx, o) => record_of idx o
        | Raise _ => validation_result
        end in
      retry_loop fuel' max_tries attempt validation_result' (S n_tries)
    end
  else Some (validation_result, n_tries).

Definition max_tries : nat := 3.
Definition timeout_per_proof : Z := 10.

(** Body of the loop over [range(len(tasks))], up to the [append]. *)
Definition validate_task (fuel : nat) (ss : sessions) (idx : nat)
    (t : task) (generation : Gen.record) : option (Val.record * nat) :=
  let context_code := srcContext t in
  let theorem_statement := theoremStatement t in
  let proofs := Gen.candidates generation in
  retry_loop fuel max_tries
    (fun n => check_context_proofs (ss n) (Z.of_nat idx) timeout_per_proof
                context_code theorem_statement proofs)
    (all_none (Z.of_nat idx)) 0.

(** The loop over the tasks; [world idx] gives the processes started for
    task [idx]. *)
Fixpoint validate_tasks (fuel : nat) (world : nat -> sessions)
    (tasks : list task) (generations : list Gen.record)
    (idxs : list nat) (validation_results : list Val.record)
  : option (result (list Val.record)) :=
  match idxs with
  | [] => Some (Ok validation_results)
  | idx :: rest =>
    match subscript tasks idx, subscript generations idx with
    | Raise e, _ => Some (Raise e)
    | Ok _, Raise e => Some (Raise e)
    | Ok t, Ok generation =>
      match validate_task fuel (world idx) idx t generation with
      | None => None
      | Some (validation_result, _) =>
        validate_tasks fuel world tasks generations rest
          (validation_results ++ [validation_result])
      end
    end
  end.

(** The script, from the loaded files to the [validation_results] it
    writes. *)
Definition validate (fuel : nat) (world : nat -> sessions)
    (tasks : list task) (generations : list Gen.record)
  : option (result (list Val.record)) :=
  if (length tasks =? length generations)%nat then
    validate_tasks fuel world tasks generations (seq 0 (length tasks)) []
  else Some (Raise AssertionError).

End Validate.

(** ** [src/revalidate.py] *)

Module Revalidate.

Definition expected_len : nat := 6.
Definition max_tries : nat := 5.
Definition timeout_per_proof : Z := 90.

(** Body of [for i, result in enumerate(validations)]: [true] when one of
    the five tests appends [i] to [revalidate]. *)
Definition selected (result : Val.record) : bool :=
  match Val.error_messages result, Val.error_positions result,
        Val.correctness result with
  | Some error_messages, Some error_positions, Some correctness =>
    if negb (length error_messages =? expected_len)%nat then true
    else if negb (length error_positions =? expected_len)%nat then true
    else if negb (length correctness =? expected_len)%nat then true
    else existsb Validate.is_None correctness
  | _, _, _ => true
  end.

(** The selection loop, from index [i] on. *)
Fixpoint select (i : nat) (validations : list Val.record)
    (revalidate : list nat) : list nat :=
  match validations with
  | [] => revalidate
  | result :: rest =>
    select (S i) rest (if selected result then revalidate ++ [i] else revalidate)
  end.

(** The retry loop of one selected task.  Its variables [idx],
    [correctness], [error_positions], [error_messages] and
    [compiled_line_counts] are the fields of the record built after the
    loop, so the loop is [Validate.retry_loop] with bound 5; the file's own
    [check_context_proofs] is the same text as the one of [validate.py]. *)
Definition revalidate_task (fuel : nat) (ss : Validate.sessions) (idx : nat)
    (t : task) (generation : Gen.record) : option (Val.record * nat) :=
  let context_code := srcContext t in
  let theorem_statement := theoremStatement t in
  let proofs := Gen.candidates generation in
  Validate.retry_loop fuel max_tries
    (fun n => Validate.check_context_proofs (ss n) (Z.of_nat idx)
                timeout_per_proof context_code theorem_statement proofs)
    (Validate.all_none (Z.of_nat idx)) 0.

(** [validations[idx] = validation_result] *)
Definition setitem {A} (l : list A) (i : nat) (x : A) : result (list A) :=
  if (i <? length l)%nat then Ok (<[i := x]> l) else Raise IndexError.

(** [for idx in tqdm(revalidate)] *)
Fixpoint repair (fuel : nat) (world : nat -> Validate.sessions)
    (tasks : list task) (generations : list Gen.record)
    (revalidate : list nat) (validations : list Val.record)
  : option (result (list Val.record)) :=
  match revalidate with
  | [] => Some (Ok validations)
  | idx :: rest =>
    match subscript tasks idx, subscript generations idx with
    | Raise e, _ => Some (Raise e)
    | Ok _, Raise e => Some (Raise e)
    | Ok t, Ok generation =>
      match revalidate_task fuel (world idx) idx t generation with
      | None => None
      | Some (validation_result, _) =>
        match setitem validations idx validation_result with
        | Raise e => Some (Raise e)
        | Ok validations' =>
          repair fuel world tasks generations rest validations'
        end
      end
    end
  end.

(** One pass over a validation file: the [validation_results] written
    back, when the pass reaches the [write]. *)
Definition revalidate_file (fuel : nat) (world : nat -> Validate.sessions)
    (tasks : list task) (generations : list Gen.record)
    (validations : list Val.record) : option (result (list Val.record)) :=
  repair fuel world tasks generations (select 0 validations []) validations.

End Revalidate.

(** ** [src/generate.py] *)

Module Generate.

Definition fence : string := "```".

Definition last_line (lines : list string) : string := List.last lines "".

Definition extract_proof_from_response (response : string) : string :=
  let proof := response in
  let proof :=
    if Str.startswith proof fence then
      let lines := Str.split_newline proof in
      if (1 <? length lines)%nat then
        if String.eqb (Str.strip (last_line lines)) fence
        then Str.join_newline (removelast (tail lines))
        else Str.join_newline (tail lines)
      else proof
    else proof in
  if Str.startswith proof ":= " then Str.strip (Str.drop_chars 3 proof)
  else proof.

Record Usage := {
  prompt_tokens : Z;
  completion_tokens : Z;
  total_tokens : Z
}.

(** A provider response: [choices] holds each choice's [message.content]. *)
Record Completion := {
  choices : list (option string);
  usage : option Usage
}.

(** One element of the list returned by
    [asyncio.gather(..., return_exceptions=True)]: an exception object
    that is an [Exception]; the [asyncio.CancelledError] object of a
    cancelled request, which is a [BaseException] and no [Exception], so
    that [timed_completion] does not catch it; or the dictionary built by
    [timed_completion], whose [response] is the exception caught or the
    completion. *)
Inductive gathered : Type :=
  | GatheredException (e : py_exn)
  | GatheredCancelled
  | GatheredDict (response : py_exn + Completion) (duration : Q) (success : bool).

(** The outside of [generate]: [gather_raises i] is the exception raised
    while the batch starting at [i] is scheduled and awaited, if any;
    [gather i j] is the [j]-th element of the list it returns otherwise. *)
Record provider := {
  gather_raises : Z -> option py_exn;
  gather : Z -> nat -> gathered
}.

(** What one request contributes to the five arrays. *)
Record slot := {
  slot_candidate : string;
  slot_duration : Q;
  slot_prompt_tokens : Z;
  slot_completion_tokens : Z;
  slot_total_tokens : Z
}.

Definition empty_slot : slot :=
  {| slot_candidate := ""; slot_duration := 0; slot_prompt_tokens := 0;
     slot_completion_tokens := 0; slot_total_tokens := 0 |}.

(** [x.attr] where [x] may be [None]. *)
Definition getattr {A} (v : option A) : result A :=
  match v with
  | Some a => Ok a
  | None => Raise AttributeError
  end.

(** Body of [for result in results].  A [CancelledError] object fails
    [isinstance(result, Exception)] and is then subscripted by
    [result['success']], a [TypeError]. *)
Definition classify (r : gathered) : result slot :=
  match r with
  | GatheredException _ => Ok empty_slot
  | GatheredCancelled => Raise TypeError
  | GatheredDict response duration success =>
    match response with
    | inl _ =>
      Ok {| slot_candidate := ""; slot_duration := duration;
            slot_prompt_tokens := 0; slot_completion_tokens := 0;
            slot_total_tokens := 0 |}
    | inr completion =>
      if negb success then
        Ok {| slot_candidate := ""; slot_duration := duration;
              slot_prompt_tokens := 0; slot_completion_tokens := 0;
              slot_total_tokens := 0 |}
      else
        content ← subscript (choices completion) 0;
        match content with
        | None =>
          Ok {| slot_candidate := ""; slot_duration := duration;
                slot_prompt_tokens :=
                  match usage completion with Some u => prompt_tokens u | None => 0 end;
                slot_completion_tokens :=
                  match usage completion with Some u => completion_tokens u | None => 0 end;
                slot_total_tokens :=
                  match usage completion with Some u => total_tokens u | None => 0 end |}
        | Some text =>
          let proof := extract_proof_from_response text in
          u ← getattr (usage completion);
          Ok {| slot_candidate := proof; slot_duration := duration;
                slot_prompt_tokens := prompt_tokens u;
                slot_completion_tokens := completion_tokens u;
                slot_total_tokens := total_tokens u |}
        end
    end
  end.

(** [range(n)] as a count: empty for [n <= 0]. *)
Definition count (n : Z) : nat := Z.to_nat n.

(** The [try] block of one batch. *)
Definition try_batch (p : provider) (i : Z) (current_batch_size : Z)
  : result (list slot) :=
  match gather_raises p i with
  | Some e => Raise e
  | None =>
    Organize.for_each (fun j => classify (gather p i j))
      (seq 0 (count current_batch_size))
  end.

(** One iteration of [for i in range(0, n_candidates, batch_size)]: the
    slots appended to the arrays. *)
Definition batch (p : provider) (n_candidates batch_size : Z) (i : Z)
  : list slot :=
  let current_batch_size := Z.min batch_size (n_candidates - i) in
  match try_batch p i current_batch_size with
  | Ok slots => slots
  | Raise _ => replicate (count current_batch_size) empty_slot
  end.

(** [range(start, stop, step)]; a zero step is a [ValueError]. *)
Definition range3 (start stop step : Z) : result (list Z) :=
  if step =? 0 then Raise ValueError
  else
    let len :=
      if 0 <? step then
        if start <? stop then (stop - start - 1) / step + 1 else 0
      else
        if stop <? start then (start - stop - 1) / (- step) + 1 else 0 in
    Ok (map (fun j => start + Z.of_nat j * step) (seq 0 (Z.to_nat len))).

(** [gen_config]: the keys [generate] reads. *)
Record gen_config := {
  cfg_n_candidates : Z;
  cfg_batch_size : option Z
}.

(** The five arrays returned. *)
Record generated := {
  candidates : list string;
  durations : list Q;
  g_prompt_tokens : list Z;
  g_completion_tokens : list Z;
  g_total_tokens : list Z
}.

Definition extend (acc : generated) (slots : list slot) : generated :=
  {| candidates := candidates acc ++ map slot_candidate slots;
     durations := durations acc ++ map slot_duration slots;
     g_prompt_tokens := g_prompt_tokens acc ++ map slot_prompt_tokens slots;
     g_completion_tokens := g_completion_tokens acc ++ map slot_completion_tokens slots;
     g_total_tokens := g_total_tokens acc ++ map slot_total_tokens slots |}.

Definition nothing_generated : generated :=
  {| candidates := []; durations := []; g_prompt_tokens := [];
     g_completion_tokens := []; g_total_tokens := [] |}.

(** [generate]; the pause between batches has no effect on the arrays. *)
Definition generate (p : provider) (cfg : gen_config) : result generated :=
  let n_candidates := cfg_n_candidates cfg in
  let batch_size := default 3 (cfg_batch_size cfg) in
  starts ← range3 0 n_candidates batch_size;
  Ok (fold_left (fun acc i => extend acc (batch p n_candidates batch_size i))
        starts nothing_generated).

End Generate.

(** ** Collapsing indeterminate verdicts *)

Module Collapse.

(** [is_correct] is [null] or the key is absent. *)
Definition indeterminate (c : candidate) : bool :=
  match is_correct c with
  | None | Some None => true
  | Some (Some _) => false
  end.

(** The same candidate, marked incorrect. *)
Definition as_incorrect (c : candidate) : candidate :=
  {| proof := proof c; is_correct := Some (Some false);
     duration := duration c; prompt_tokens := prompt_tokens c;
     completion_tokens := completion_tokens c;
     total_tokens := total_tokens c; compiled_lines := compiled_lines c;
     error_message := error_message c;
     error_position := error_position c |}.

Definition collapse (c : candidate) : candidate :=
  if indeterminate c then as_incorrect c else c.

(** Invariant of the scan of [find_longest.py]: the candidate recorded, if
    any, is marked correct. *)
Definition info_correct (st : FindLongest.scan_state) : Prop :=
  forall c, FindLongest.longest_proof_info st = Some c ->
            PassAtK.marked_correct c = true.

End Collapse.

(** ** Sample data *)

Module Samples.

Definition cand (p : string) (v : option (option bool)) : candidate :=
  {| proof := p; is_correct := v; duration := 0; prompt_tokens := 0;
     completion_tokens := 0; total_tokens := 0; compiled_lines := None;
     error_message := None; error_position := None |}.

Definition passed (p : string) : candidate := cand p (Some (Some true)).
Definition failed (p : string) : candidate := cand p (Some (Some false)).

(** Correctness [true, false, true]. *)
Definition two_of_three : list candidate :=
  [passed "a"; failed "b"; passed "c"].

(** Correctness [true, false, false]. *)
Definition one_of_three : list candidate :=
  [passed "a"; failed "b"; failed "c"].

(** Six candidates, the first one correct. *)
Definition one_of_six : list candidate :=
  [passed "a"; failed "b"; failed "c"; failed "d"; failed "e"; failed "f"].

End Samples.

(** ** Well-formed generation records, mismatched validation arrays *)

Module Shape.

(** The telemetry arrays of a generation record cover every candidate
    ([generate] extends the five arrays together). *)
Definition telemetry_complete (g : Gen.record) : Prop :=
  let n := length (Gen.candidates g) in
  (n <= length (Gen.durations g))%nat /\
  (n <= length (Gen.prompt_tokens g))%nat /\
  (n <= length (Gen.completion_tokens g))%nat /\
  (n <= length (Gen.total_tokens g))%nat.

(** A stored array that is a list with fewer than [n] entries. *)
Definition shorter {A} (n : nat) (v : option (list A)) : Prop :=
  exists l, v = Some l /\ (length l < n)%nat.

(** A stored array that is a list with at least [n] entries. *)
Definition covers {A} (n : nat) (v : option (list A)) : Prop :=
  exists l, v = Some l /\ (n <= length l)%nat.

End Shape.

Module MergeSamples.

Definition setting : experiment_setting :=
  {| model := "gpt-4o"; n_candidates := 6; temperature := 6 # 10;
     max_tokens := 2048; timeout := 60; reasoning_effort := "None";
     generation := "whole_proof"; used_context := "False";
     used_hints := "None"; dataset := "minif2f.jsonl"; total_tasks := 1;
     timestamp := "20250620_121319" |}.

Definition problem : task :=
  {| theoremStatement := "theorem t : True"; srcContext := "";
     theoremName := "t" |}.

(** One generated candidate. *)
Definition gen_one : Gen.record :=
  {| Gen.statement_idx := 0; Gen.candidates := ["trivial"];
     Gen.durations := [1 # 2]; Gen.prompt_tokens := [10];
     Gen.completion_tokens := [3]; Gen.total_tokens := [13] |}.

(** Two verdicts for the same task. *)
Definition val_two : Val.record :=
  {| Val.statement_idx := 0;
     Val.correctness := Some [Some true; Some false];
     Val.error_positions := Some [None; None];
     Val.error_messages := Some [None; Some "unknown tactic"];
     Val.compiled_line_counts := Some [Some 1; None] |}.

(** No verdict for the same task. *)
Definition val_short : Val.record :=
  {| Val.statement_idx := 0;
     Val.correctness := Some [];
     Val.error_positions := Some [];
     Val.error_messages := Some [];
     Val.compiled_line_counts := Some [] |}.

(** The whole-task indeterminate record. *)
Definition val_null : Val.record :=
  {| Val.statement_idx := 0;
     Val.correctness := None;
     Val.error_positions := None;
     Val.error_messages := None;
     Val.compiled_line_counts := None |}.

Definition setting_line {R} : Organize.line R :=
  {| Organize.line_setting := Some setting; Organize.line_results := None |}.

Definition results_line {R} (rs : list R) : Organize.line R :=
  {| Organize.line_setting := None; Organize.line_results := Some rs |}.

Definition merged_one : candidate :=
  {| proof := "trivial"; is_correct := Some (Some true); duration := 1 # 2;
     prompt_tokens := 10; completion_tokens := 3; total_tokens := 13;
     compiled_lines := Some 1; error_message := None;
     error_position := None |}.

End MergeSamples.

Module CheckSamples.

Definition newline : string := String (ascii_of_N 10) "".

(** A statement of five lines. *)
Definition five_lines : string :=
  "theorem t" ++ newline ++ "  (a b : Nat)" ++ newline ++ "  (h : a = b)"
  ++ newline ++ "  (k : b = a)" ++ newline ++ "  : a = b".

Definition context_ok : Lean.Response :=
  {| Lean.env := 0; Lean.messages := []; Lean.lean_code_is_valid := true |}.

Definition accepted : Lean.Response :=
  {| Lean.env := 1; Lean.messages := []; Lean.lean_code_is_valid := true |}.

(** The diagnostic of Example 2: lines 12:4 to 12:10. *)
Definition diagnostic : Lean.Message :=
  {| Lean.data := "unsolved goals";
     Lean.start_pos := Some {| Lean.line := 12; Lean.column := 4 |};
     Lean.end_pos := Some {| Lean.line := 12; Lean.column := 10 |} |}.

Definition second_diagnostic : Lean.Message :=
  {| Lean.data := "unused variable"; Lean.start_pos := None;
     Lean.end_pos := None |}.

Definition rejected : Lean.Response :=
  {| Lean.env := 1; Lean.messages := [diagnostic; second_diagnostic];
     Lean.lean_code_is_valid := false |}.

(** A session whose context compiles, whose first check is accepted and
    whose later checks time out. *)
Definition times_out_later : Lean.LeanServer :=
  fun call _ _ =>
    match call with
    | O => Lean.RunResponse context_ok
    | S O => Lean.RunResponse accepted
    | _ => Lean.RunRaises TimeoutError
    end.

(** A session whose context compiles and whose checks are all rejected
    with [rejected]. *)
Definition rejects : Lean.LeanServer :=
  fun call _ _ =>
    match call with
    | O => Lean.RunResponse context_ok
    | _ => Lean.RunResponse rejected
    end.

(** A process that fails on every call. *)
Definition crashed : Lean.LeanServer :=
  fun _ _ _ => Lean.RunRaises RuntimeError.

Definition sample_task : task :=
  {| theoremStatement := five_lines; srcContext := "import Mathlib";
     theoremName := "t" |}.

Definition sample_generation : Gen.record :=
  {| Gen.statement_idx := 0; Gen.candidates := ["rfl"; "by simp"];
     Gen.durations := [1%Q; 1%Q]; Gen.prompt_tokens := [10; 10];
     Gen.completion_tokens := [2; 3]; Gen.total_tokens := [12; 13] |}.

End CheckSamples.

(** ** Malformed stored outcomes *)

Module Stored.


End Stored.

(** ** [timed_completion] and sample providers *)

Module GenerateSamples.
Import Generate.

(** What the awaited [acompletion] call does. *)
Inductive completion_outcome : Type :=
  | CompletionRaises (e : py_exn)
  | CompletionReturns (response : Completion).

(** The dictionary returned by [timed_completion], from the outcome of the
    completion call and the two clock readings. *)
Definition timed_completion (outcome : completion_outcome)
    (start_time end_time : Q) : gathered :=
  match outcome with
  | CompletionReturns response =>
    GatheredDict (inr response) (end_time - start_time) true
  | CompletionRaises e =>
    GatheredDict (inl e) (end_time - start_time) false
  end.

Definition usage_7 : Usage :=
  {| prompt_tokens := 4; completion_tokens := 3; total_tokens := 7 |}.

(** A response whose content is [None]. *)
Definition no_content : Completion :=
  {| choices := [None]; usage := Some usage_7 |}.

(** A response without choices: reading [choices[0]] raises. *)
Definition no_choices : Completion :=
  {| choices := []; usage := None |}.

(** First batch: an exception object, a call that timed out after 5
    seconds, a response without content.  Later batches: a response
    without choices. *)
Definition flaky : provider :=
  {| gather_raises := fun _ => None;
     gather := fun i j =>
       if i =? 0 then
         match j with
         | O => GatheredException RuntimeError
         | S O => timed_completion (CompletionRaises TimeoutError) 0 5
         | _ => timed_completion (CompletionReturns no_content) 0 2
         end
       else timed_completion (CompletionReturns no_choices) 0 1 |}.

(** [n_candidates = 4] with the default batch size. *)
Definition four : gen_config :=
  {| cfg_n_candidates := 4; cfg_batch_size := None |}.

End GenerateSamples.

(** ** [src/pass_at_k.py]: [analyze_results] *)

Module Analyze.

(** One element of the lists built by [load_results_from_directory]. *)
Record theorem_result := {
  theorem_name : string;
  theorem_statement : string;
  category : string;
  brute_force : bool;
  candidates : list candidate
}.

(** [s.count('\n')] *)
Fixpoint count_newlines (s : string) : Z :=
  match s with
  | EmptyString => 0
  | String c rest => (if Str.is_lf c then 1 else 0) + count_newlines rest
  end.

(** Body of [for c in r['candidates']], on the pair
    [(compiled_lines_count, total_lines_count)]. *)
Definition count_lines (acc : Z * Z) (c : candidate) : Z * Z :=
  (acc.1 + match compiled_lines c with Some l => l | None => 0 end,
   acc.2 + match compiled_lines c with
           | Some _ => count_newlines (proof c) + 1
           | None => 0
           end).

(** The [ratio] of one result. *)
Definition compiled_ratio (r : theorem_result) : Q :=
  let '(compiled_lines_count, total_lines_count) :=
    fold_left count_lines (candidates r) (0, 0) in
  if 0 <? total_lines_count
  then (inject_Z compiled_lines_count / inject_Z total_lines_count)%Q
  else 0%Q.

(** [sum(...)] of floats. *)
Definition sum_Q (xs : list Q) : Q := fold_left Qplus xs 0%Q.

(** [sum(1 for r in group_results if has_correct_proof(r['candidates']))] *)
Definition count_correct (group_results : list theorem_result) : Z :=
  Z.of_nat (length (List.filter
                      (fun r => PassAtK.has_correct_proof (candidates r))
                      group_results)).

(** One row of [metrics_data]. *)
Record metrics := {
  model : string;
  group_type : string;
  group_name : string;
  total_theorems : Z;
  theorems_with_correct_proof : Z;
  percentage_with_correct_proof : Q;
  pass_at_1 : Q;
  pass_at_5 : Q;
  avg_compiled_ratio : Q
}.

(** The block run for each group: nothing for an empty group. *)
Definition group_metrics (model_name group_type group_name : string)
    (group_results : list theorem_result) : list metrics :=
  match group_results with
  | [] => []
  | _ =>
    let correct_count := count_correct group_results in
    let total_count := Z.of_nat (length group_results) in
    let pass_at_1 :=
      (sum_Q (map (fun r => PassAtK.compute_pass_at_k (candidates r) 1)
                group_results) / inject_Z total_count)%Q in
    let pass_at_5 :=
      (sum_Q (map (fun r => PassAtK.compute_pass_at_k (candidates r) 5)
                group_results) / inject_Z total_count)%Q in
    let sum_ratio := sum_Q (map compiled_ratio group_results) in
    let avg_compiled_ratio :=
      if 0 <? total_count then (sum_ratio / inject_Z total_count)%Q else 0%Q in
    [{| model := model_name; group_type := group_type;
        group_name := group_name; total_theorems := total_count;
        theorems_with_correct_proof := correct_count;
        percentage_with_correct_proof :=
          (inject_Z correct_count / inject_Z total_count * 100)%Q;
        pass_at_1 := pass_at_1; pass_at_5 := pass_at_5;
        avg_compiled_ratio := avg_compiled_ratio |}]
  end.

(** [analyses['by_category']]: a dictionary in insertion order.
    [add_to_group] appends [r] to the list of its category, creating the
    key at the end when it is new. *)
Fixpoint add_to_group (r : theorem_result)
    (groups : list (string * list theorem_result))
  : list (string * list theorem_result) :=
  match groups with
  | [] => [(category r, [r])]
  | (c, g) :: rest =>
    if String.eqb c (category r) then (c, g ++ [r]) :: rest
    else (c, g) :: add_to_group r rest
  end.

Definition by_category (results : list theorem_result)
  : list (string * list theorem_result) :=
  fold_left (fun groups r => add_to_group r groups) results [].

Definition all_rows (results : list theorem_result) (model_name : string)
  : list metrics :=
  group_metrics model_name "all_statements" "all" results.

Definition category_rows (results : list theorem_result) (model_name : string)
  : list metrics :=
  flat_map (fun cg => group_metrics model_name "category" cg.1 cg.2)
    (by_category results).

Definition brute_force_rows (results : list theorem_result)
    (model_name : string) : list metrics :=
  group_metrics model_name "brute_force" "true"
    (List.filter brute_force results)
  ++ group_metrics model_name "brute_force" "false"
       (List.filter (fun r => negb (brute_force r)) results).

Definition analyze_results (results : list theorem_result)
    (model_name : string) : list metrics :=
  all_rows results model_name ++ category_rows results model_name
  ++ brute_force_rows results model_name.

(** The sum of a column of counts. *)
Definition sum_totals (rows : list metrics) : Z :=
  fold_right (fun m acc => total_theorems m + acc) 0 rows.

(** What a grouping holds after the results [l] were added: distinct
    keys, under each key the results of [l] with that category, in order,
    and a key for every category met. *)
Definition grouped (groups : list (string * list theorem_result))
    (l : list theorem_result) : Prop :=
  NoDup (map fst groups) /\
  (forall c g, In (c, g) groups ->
     g = List.filter (fun r => String.eqb c (category r)) l /\ g <> []) /\
  (forall r, In r l -> In (category r) (map fst groups)).

End Analyze.


Module AnalyzeSamples.

Definition solved : Analyze.theorem_result :=
  {| Analyze.theorem_name := "mathd_algebra_10";
     Analyze.theorem_statement := "theorem mathd_algebra_10 : True";
     Analyze.category := "mathd_algebra"; Analyze.brute_force := true;
     Analyze.candidates := Samples.one_of_six |}.

Definition unsolved : Analyze.theorem_result :=
  {| Analyze.theorem_name := "imo_1959_p1";
     Analyze.theorem_statement := "theorem imo_1959_p1 : True";
     Analyze.category := "imo"; Analyze.brute_force := false;
     Analyze.candidates := [Samples.failed "simp"] |}.

Definition results : list Analyze.theorem_result := [solved; unsolved].

Definition no_row : Analyze.metrics :=
  {| Analyze.model := ""; Analyze.group_type := ""; Analyze.group_name := "";
     Analyze.total_theorems := 0; Analyze.theorems_with_correct_proof := 0;
     Analyze.percentage_with_correct_proof := 0; Analyze.pass_at_1 := 0;
     Analyze.pass_at_5 := 0; Analyze.avg_compiled_ratio := 0 |}.

(** The first row printed for [results]. *)
Definition first_row : Analyze.metrics :=
  hd no_row (Analyze.analyze_results results "gpt-4o").

(** The first per-category row. *)
Definition first_category_row : Analyze.metrics :=
  hd no_row (Analyze.category_rows results "gpt-4o").

End AnalyzeSamples.


(** ** What the scan of [find_longest.py] has found *)

Module Scan.

(** State of the scan after the candidates [l]: nothing recorded and every
    correct candidate of [l] has an empty proof, or the recorded candidate
    is the first correct candidate of [l] with the greatest proof length. *)
Definition found (l : list candidate) (st : FindLongest.scan_state) : Prop :=
  (FindLongest.longest_proof_length st = 0%nat /\
   FindLongest.longest_proof_info st = None /\
   forall c, In c l -> PassAtK.marked_correct c = true ->
             String.length (proof c) = 0%nat) \/
  (exists i c,
     l !! i = Some c /\
     FindLongest.longest_proof_info st = Some c /\
     FindLongest.longest_proof_length st = String.length (proof c) /\
     (0 < String.length (proof c))%nat /\
     PassAtK.marked_correct c = true /\
     (forall j c', l !! j = Some c' -> PassAtK.marked_correct c' = true ->
        (String.length (proof c') <= String.length (proof c))%nat) /\
     (forall j c', (j < i)%nat -> l !! j = Some c' ->
        PassAtK.marked_correct c' = true ->
        (String.length (proof c') < String.length (proof c))%nat)).

End Scan.


(** ** The records of a results file, in file order *)

Module Lines.

(** Every record under the results key, line after line. *)
Definition all_results {R} (data : list (Organize.line R)) : list R :=
  flat_map (fun item => default [] (Organize.line_results item)) data.

End Lines.


(** ** The shape of a first-pass record *)

Module Shaped.

(** A record for task [idx] with [n] candidates as the retry loops leave
    it: all-[None], or four lists of [n] entries. *)
Definition shaped (n : nat) (idx : Z) (r : Val.record) : Prop :=
  r = Validate.all_none idx \/
  exists o, r = Validate.record_of idx o /\
            length (Validate.correctness o) = n /\
            length (Validate.error_messages o) = n /\
            length (Validate.error_positions o) = n /\
            length (Validate.compiled_line_counts o) = n.

End Shaped.


Module CheckSamples2.

(** A response that is not valid and carries no message. *)
Definition silent_rejection : Lean.Response :=
  {| Lean.env := 1; Lean.messages := []; Lean.lean_code_is_valid := false |}.

(** A session whose context compiles, whose first check is accepted and
    whose later checks are rejected without a message. *)
Definition rejects_silently : Lean.LeanServer :=
  fun call _ _ =>
    match call with
    | O => Lean.RunResponse CheckSamples.context_ok
    | S O => Lean.RunResponse CheckSamples.accepted
    | _ => Lean.RunResponse silent_rejection
    end.

(** Sessions of a task: the first process crashes, the later ones answer
    like [CheckSamples.times_out_later]. *)
Definition recovers : Validate.sessions :=
  fun n =>
    match n with
    | O => CheckSamples.crashed
    | _ => CheckSamples.times_out_later
    end.

End CheckSamples2.


Module RepairSamples.

(** A validation file of two records against a task file of one task. *)
Definition too_long : list Val.record :=
  [Validate.all_none 0; Validate.all_none 1].

End RepairSamples.


(** ** Fenced responses *)

Module Fence.

Definition newline : string := String (ascii_of_N 10) "".

Fixpoint has_newline (s : string) : bool :=
  match s with
  | EmptyString => false
  | String c rest => Str.is_lf c || has_newline rest
  end.

(** A response opening with a fence line and closing with a fence. *)
Definition fenced (lang body : string) : string :=
  Generate.fence ++ lang ++ newline ++ body ++ newline ++ Generate.fence.

(** What [extract_proof_from_response] does to the text left once the
    fences are gone. *)
Definition unprefixed (proof : string) : string :=
  if Str.startswith proof ":= " then Str.strip (Str.drop_chars 3 proof)
  else proof.

End Fence.


Module GenerateSamples2.
Import Generate.

(** A response with content but no usage block. *)
Definition no_usage : Completion :=
  {| choices := [Some "by simp"]; usage := None |}.

(** A provider whose second request of each batch returns [no_usage] and
    whose other requests return a full response. *)
Definition forgets_usage : provider :=
  {| gather_raises := fun _ => None;
     gather := fun _ j =>
       match j with
       | S O => GatheredDict (inr no_usage) 1 true
       | _ => GatheredDict
                (inr {| choices := [Some "by rfl"];
                        usage := Some GenerateSamples.usage_7 |}) 1 true
       end |}.

(** A provider whose second request of each batch is cancelled and whose
    other requests return a full response. *)
Definition cancels_second : provider :=
  {| gather_raises := fun _ => None;
     gather := fun _ j =>
       match j with
       | S O => GatheredCancelled
       | _ => GatheredDict
                (inr {| choices := [Some "by rfl"];
                        usage := Some GenerateSamples.usage_7 |}) 1 true
       end |}.

Definition zero_batch : gen_config :=
  {| cfg_n_candidates := 6; cfg_batch_size := Some 0 |}.

End GenerateSamples2.


(** ** [src/prepare/false_attempts.py] *)

Module FalseAttempts.

(** [read_jsonl_file]: the setting of the last line that has one, and the
    results of the last line that has results and no setting. *)
Definition read_jsonl_file {R} (lines : list (Organize.line R))
  : option experiment_setting * list R :=
  fold_left
    (fun data parsed =>
       match Organize.line_setting parsed, Organize.line_results parsed with
       | Some s, _ => (Some s, data.2)
       | None, Some rs => (data.1, rs)
       | None, None => data
       end)
    lines (None, []).

(** [l[i]] for any integer [i]: a negative index counts from the end. *)
Definition py_getitem {A} (l : list A) (i : Z) : result A :=
  if 0 <=? i then subscript l (Z.to_nat i)
  else if - Z.of_nat (length l) <=? i
       then subscript l (Z.to_nat (Z.of_nat (length l) + i))
       else Raise IndexError.

(** [l[:k]] *)
Definition slice_to {A} (l : list A) (k : Z) : list A :=
  if 0 <=? k then take (Z.to_nat k) l
  else take (Z.to_nat (Z.of_nat (length l) + k)) l.

(** [s.replace('\r\n', '\n')] *)
Fixpoint replace_crlf (s : string) : string :=
  match s with
  | EmptyString => EmptyString
  | String c tail =>
    match tail with
    | String c' rest =>
      if Str.is_cr c && Str.is_lf c' then String c' (replace_crlf rest)
      else String c (replace_crlf tail)
    | EmptyString => String c EmptyString
    end
  end.

(** [s.replace('\r', '\n')] *)
Fixpoint replace_cr (s : string) : string :=
  match s with
  | EmptyString => EmptyString
  | String c rest =>
    String (if Str.is_cr c then ascii_of_N 10 else c) (replace_cr rest)
  end.

(** One element of [false_attempts]. *)
Record false_attempt := {
  fa_proof : string;
  fa_error_message : option string;
  fa_error_position : position_pair
}.

Record entry := {
  statement_idx : Z;
  false_attempts : list false_attempt
}.

(** [unique_false_attempts], a dictionary in insertion order. *)
Definition unique := list (string * (option string * position_pair)).

Definition mem (key : string) (d : unique) : bool :=
  existsb (fun kv => String.eqb kv.1 key) d.

(** The text kept from a failed candidate, up to the line of the error. *)
Definition truncate (num_statement_lines : Z) (candidate : string)
    (error_position : position_pair) : string :=
  let normalized_proof := replace_cr (replace_crlf candidate) in
  let error_end_pos := end_pos error_position in
  let error_end_line := error_end_pos.1 - num_statement_lines in
  Str.strip
    (Str.join_newline
       (slice_to (Str.splitlines normalized_proof) (error_end_line + 1))).

(** Body of [for i in range(expected_length)]. *)
Definition step (num_statement_lines : Z) (candidates : list string)
    (correctness : list (option bool))
    (error_messages : list (option string))
    (error_positions : list (option position_pair))
    (d : unique) (i : nat) : result unique :=
  candidate ← subscript candidates i;
  is_correct ← subscript correctness i;
  error_message ← subscript error_messages i;
  error_position ← subscript error_positions i;
  match error_position with
  | None => Ok d
  | Some position =>
    if PassAtK.truthy is_correct then Ok d
    else
      let false_attempt := truncate num_statement_lines candidate position in
      if mem false_attempt d then Ok d
      else Ok (d ++ [(false_attempt, (error_message, position))])
  end.

Fixpoint steps (f : unique -> nat -> result unique) (indices : list nat)
    (d : unique) : result unique :=
  match indices with
  | [] => Ok d
  | i :: rest => d' ← f d i; steps f rest d'
  end.

(** A field of the validation record once [len] of it was compared with
    [expected_length]: [len(None)] is a [TypeError], another length a
    [ValueError]. *)
Definition checked {A} (v : option (list A)) (expected_length : nat)
  : result (list A) :=
  match v with
  | None => Raise TypeError
  | Some l =>
    if (length l =? expected_length)%nat then Ok l else Raise ValueError
  end.

(** Body of [for gen_result in generation_results]. *)
Definition process (task_data : list task) (validation_map : gmap Z Val.record)
    (gen_result : Gen.record) : result entry :=
  let statement_idx := Gen.statement_idx gen_result in
  let candidates := Gen.candidates gen_result in
  t ← py_getitem task_data statement_idx;
  let num_statement_lines := Analyze.count_newlines (theoremStatement t) + 1 in
  validation_result ← Organize.getitem (validation_map !! statement_idx);
  let expected_length := length candidates in
  correctness ← checked (Val.correctness validation_result) expected_length;
  error_messages ← checked (Val.error_messages validation_result) expected_length;
  error_positions ← checked (Val.error_positions validation_result) expected_length;
  d ← steps (step num_statement_lines candidates correctness error_messages
               error_positions)
        (seq 0 expected_length) [];
  Ok {| statement_idx := statement_idx;
        false_attempts :=
          map (fun kv => {| fa_proof := kv.1; fa_error_message := kv.2.1;
                            fa_error_position := kv.2.2 |}) d |}.

(** [{result["statement_idx"]: result for result in validation_results}] *)
Definition validation_map (validation_results : list Val.record)
  : gmap Z Val.record :=
  fold_left (fun d r => <[Val.statement_idx r := r]> d) validation_results ∅.

Definition extract_unique_false_proofs
    (generation_data : option experiment_setting * list Gen.record)
    (validation_data : option experiment_setting * list Val.record)
    (task_data : list task) : result (list entry) :=
  let generation_results := generation_data.2 in
  let validation_results := validation_data.2 in
  Organize.for_each (process task_data (validation_map validation_results))
    generation_results.

End FalseAttempts.


(** ** Failed candidates of a task *)

Module Failed.

(** Candidate [i] is not correct, has an error position [pos] and the
    message [msg], and [text] is what is kept of it. *)
Definition failed_at (num_statement_lines : Z) (candidates : list string)
    (correctness : list (option bool))
    (error_messages : list (option string))
    (error_positions : list (option position_pair))
    (i : nat) (text : string) (msg : option string) (pos : position_pair)
  : Prop :=
  exists c b,
    candidates !! i = Some c /\
    correctness !! i = Some b /\
    PassAtK.truthy b = false /\
    error_messages !! i = Some msg /\
    error_positions !! i = Some (Some pos) /\
    text = FalseAttempts.truncate num_statement_lines c pos.

(** The dictionary after the candidates below [m]: distinct keys, each
    entry recorded from the first failed candidate with that text, and a
    key for the text of every failed candidate. *)
Definition collected (num_statement_lines : Z) (candidates : list string)
    (correctness : list (option bool))
    (error_messages : list (option string))
    (error_positions : list (option position_pair))
    (m : nat) (d : FalseAttempts.unique) : Prop :=
  NoDup (map fst d) /\
  (forall k msg pos, In (k, (msg, pos)) d ->
     exists i, (i < m)%nat /\
       failed_at num_statement_lines candidates correctness error_messages
         error_positions i k msg pos /\
       forall j msg' pos', (j < i)%nat ->
         ~ failed_at num_statement_lines candidates correctness
             error_messages error_positions j k msg' pos') /\
  (forall i k msg pos, (i < m)%nat ->
     failed_at num_statement_lines candidates correctness error_messages
       error_positions i k msg pos ->
     In k (map fst d)).

End Failed.

Module FalseSamples.

Definition newline : string := String (ascii_of_N 10) "".

Definition problem : task :=
  {| theoremStatement := "theorem t : 1 + 1 = 2"; srcContext := "";
     theoremName := "t" |}.

Definition position (l c l' c' : Z) : position_pair :=
  {| start_pos := (l, c); end_pos := (l', c') |}.

(** Three candidates: two fail on their first line with the same text up
    to that line, one is correct. *)
Definition generation : Gen.record :=
  {| Gen.statement_idx := 0;
     Gen.candidates :=
       [("by simpp" ++ newline ++ "  rfl")%string;
        ("by simpp" ++ newline ++ "  done")%string; "by rfl"];
     Gen.durations := [1%Q; 1%Q; 1%Q]; Gen.prompt_tokens := [1; 1; 1];
     Gen.completion_tokens := [1; 1; 1]; Gen.total_tokens := [2; 2; 2] |}.

Definition validation : Val.record :=
  {| Val.statement_idx := 0;
     Val.correctness := Some [Some false; Some false; Some true];
     Val.error_positions :=
       Some [Some (position 1 3 1 8); Some (position 1 3 1 8); None];
     Val.error_messages :=
       Some [Some "unknown tactic"; Some "unknown tactic again"; None];
     Val.compiled_line_counts := Some [Some 0; Some 0; Some 1] |}.

(** The same record with one verdict too many. *)
Definition validation_long : Val.record :=
  {| Val.statement_idx := 0;
     Val.correctness := Some [Some false; Some false; Some true; Some true];
     Val.error_positions :=
       Some [Some (position 1 3 1 8); Some (position 1 3 1 8); None; None];
     Val.error_messages :=
       Some [Some "unknown tactic"; Some "unknown tactic again"; None; None];
     Val.compiled_line_counts := Some [Some 0; Some 0; Some 1; Some 1] |}.

End FalseSamples.


(** ** Accepted candidates in the compiled ratio *)

Module Accepted.

(** The only line boundary of the text is the newline. *)
Definition only_newline_breaks (s : string) : bool :=
  forallb (fun c => negb (Str.is_line_boundary c) || Str.is_lf c)
    (list_ascii_of_string s).

(** A merged candidate that was accepted by the checker carries the
    number of lines of its proof; one without a compiled line count is
    left out of the ratio. *)
Definition counted (c : candidate) : Prop :=
  compiled_lines c = None \/
  (compiled_lines c = Some (Z.of_nat (length (Str.splitlines (proof c)))) /\
   only_newline_breaks (proof c) = true).

End Accepted.

(** ** [scripts/script2.py] *)

Module Categories.

Definition extract_category (theorem_name : string) : string :=
  if Str.startswith theorem_name "imo" then "imo"
  else if Str.startswith theorem_name "amc" then "amc12"
  else if Str.startswith theorem_name "aime" then "aime"
  else if Str.startswith theorem_name "mathd_numbertheory"
       then "mathd_numbertheory"
  else if Str.startswith theorem_name "mathd_algebra" then "mathd_algebra"
  else if Str.startswith theorem_name "algebra" then "algebra"
  else if Str.startswith theorem_name "numbertheory" then "numbertheory"
  else if Str.startswith theorem_name "induction" then "induction"
  else "unknown".

(** [theorem_name in brute_force_theorems] *)
Definition can_solve_by_brute_force (brute_force_theorems : gset string)
    (theorem_name : string) : bool :=
  bool_decide (theorem_name ∈ brute_force_theorems).

End Categories.


Module RatioSamples.

Definition newline : string := String (ascii_of_N 10) "".

(** An accepted proof of two lines that ends with a newline. *)
Definition accepted : candidate :=
  {| proof := "by" ++ newline ++ "  simp" ++ newline;
     is_correct := Some (Some true); duration := 1; prompt_tokens := 10;
     completion_tokens := 4; total_tokens := 14; compiled_lines := Some 2;
     error_message := None; error_position := None |}.

(** A candidate rejected with a process-level error. *)
Definition errored : candidate :=
  {| proof := "by simp"; is_correct := Some (Some false); duration := 1;
     prompt_tokens := 10; completion_tokens := 2; total_tokens := 12;
     compiled_lines := None; error_message := Some "timeout";
     error_position := None |}.

Definition solved : Analyze.theorem_result :=
  {| Analyze.theorem_name := "mathd_algebra_10";
     Analyze.theorem_statement := "theorem mathd_algebra_10 : True";
     Analyze.category := "mathd_algebra"; Analyze.brute_force := false;
     Analyze.candidates := [accepted; errored] |}.

End RatioSamples.


(** ** A run with four candidates per task *)

Module FourSamples.

Definition setting : experiment_setting :=
  {| model := "gpt-4o"; n_candidates := 4; temperature := 6 # 10;
     max_tokens := 2048; timeout := 60; reasoning_effort := "None";
     generation := "whole_proof"; used_context := "False";
     used_hints := "None"; dataset := "minif2f.jsonl"; total_tasks := 1;
     timestamp := "20250620_121319" |}.

Definition problem : task :=
  {| theoremStatement := "theorem t : True"; srcContext := "";
     theoremName := "t" |}.

Definition generation : Gen.record :=
  {| Gen.statement_idx := 0;
     Gen.candidates := ["trivial"; "by trivial"; "by simp"; "by decide"];
     Gen.durations := [1%Q; 1%Q; 1%Q; 1%Q];
     Gen.prompt_tokens := [10; 10; 10; 10];
     Gen.completion_tokens := [1; 2; 2; 2];
     Gen.total_tokens := [11; 12; 12; 12] |}.

(** The stored outcome of the task: four verdicts, all definite. *)
Definition validation : Val.record :=
  {| Val.statement_idx := 0;
     Val.correctness := Some [Some true; Some true; Some true; Some true];
     Val.error_positions := Some [None; None; None; None];
     Val.error_messages := Some [None; None; None; None];
     Val.compiled_line_counts := Some [Some 1; Some 1; Some 1; Some 1] |}.


End FourSamples.


(** * Properties *)

(** ** Fallible results *)

Lemma subscript_lt {A} (l : list A) i :
  (i < length l)%nat -> exists x, l !! i = Some x /\ subscript l i = Ok x.
Proof.
  intros Hi. destruct (lookup_lt_is_Some_2 l i Hi) as [x Hx].
  exists x. unfold subscript. now rewrite Hx.
Qed.

Lemma subscript_ge {A} (l : list A) i :
  (length l <= i)%nat -> subscript l i = Raise IndexError.
Proof.
  intros Hi. unfold subscript. now rewrite (lookup_ge_None_2 l i Hi).
Qed.

Lemma subscript_Ok {A} (l : list A) i x :
  subscript l i = Ok x <-> l !! i = Some x.
Proof.
  unfold subscript. destruct (l !! i); split; intros H; congruence.
Qed.

(** ** [compute_pass_at_k] *)

Section PassAtKFacts.
Import PassAtK.

Lemma binom_0_r n : binom n 0 = 1%nat.
Proof. now destruct n. Qed.

Lemma binom_S n k : binom (S n) (S k) = (binom n k + binom n (S k))%nat.
Proof. reflexivity. Qed.

Lemma binom_gt n : forall k, (n < k)%nat -> binom n k = 0%nat.
Proof.
  induction n as [|n IH]; intros [|k] Hk; try lia; try reflexivity.
  rewrite binom_S, !IH by lia. reflexivity.
Qed.

Lemma binom_pos n : forall k, (k <= n)%nat -> (0 < binom n k)%nat.
Proof.
  induction n as [|n IH]; intros [|k] Hk; rewrite ?binom_0_r; try lia.
  rewrite binom_S. specialize (IH k ltac:(lia)). lia.
Qed.

(** [binom] is the binomial coefficient: [n! / (k! (n-k)!)]. *)
Lemma binom_fact n : forall k, (k <= n)%nat ->
  (binom n k * fact k * fact (n - k) = fact n)%nat.
Proof.
  induction n as [|n IH]; intros [|k] Hk; rewrite ?binom_0_r; try lia.
  - simpl. lia.
  - rewrite Nat.sub_0_r. simpl fact at 1. lia.
  - rewrite binom_S. replace (S n - S k)%nat with (n - k)%nat by lia.
    pose proof (IH k ltac:(lia)) as Hk1.
    destruct (Nat.eq_dec k n) as [->|Hne].
    + rewrite (binom_gt n (S n)) by lia.
      rewrite Nat.sub_diag in *. change (fact (S n)) with (S n * fact n)%nat.
      nia.
    + pose proof (IH (S k) ltac:(lia)) as Hk2.
      replace (n - k)%nat with (S (n - S k)) in * by lia.
      change (fact (S (n - S k))) with (S (n - S k) * fact (n - S k))%nat in *.
      change (fact (S n)) with (S n * fact n)%nat.
      change (fact (S k)) with (S k * fact k)%nat in *.
      nia.
Qed.

Lemma sum_correct_filter candidates :
  sum_correct candidates
  = Z.of_nat (length (List.filter marked_correct candidates)).
Proof.
  induction candidates as [|c rest IH]; [reflexivity|].
  cbn [sum_correct List.filter]. rewrite IH.
  destruct (marked_correct c); cbn [length]; lia.
Qed.

Lemma filter_length_le {A} (f : A -> bool) (l : list A) :
  (length (List.filter f l) <= length l)%nat.
Proof.
  induction l as [|x l IH]; cbn [List.filter length]; [lia|].
  destruct (f x); cbn [length]; lia.
Qed.

Lemma math_comb_nat (n k : nat) :
  math_comb (Z.of_nat n) (Z.of_nat k) = Ok (Z.of_nat (binom n k)).
Proof.
  unfold math_comb.
  destruct (Z.ltb_spec (Z.of_nat n) 0); [lia|].
  destruct (Z.ltb_spec (Z.of_nat k) 0); [lia|].
  cbn [orb]. now rewrite !Nat2Z.id.
Qed.

(** The value returned past the two early exits, for [1 <= k <= n]. *)
Lemma pass_ratio (n c k : nat) :
  (k <= n)%nat ->
  match (numerator ← math_comb (Z.of_nat n - Z.of_nat c) (Z.of_nat k);
         denominator ← math_comb (Z.of_nat n) (Z.of_nat k);
         ratio ← true_div numerator denominator;
         Ok (1 - ratio)%Q) with
  | Ok r => r
  | Raise _ => 0%Q
  end
  = (1 - inject_Z (Z.of_nat (binom (n - c) k)) / inject_Z (Z.of_nat (binom n k)))%Q
  \/ (n < c)%nat.
Proof.
  intros Hk. destruct (Nat.lt_ge_cases n c) as [Hlt|Hge]; [now right|left].
  replace (Z.of_nat n - Z.of_nat c) with (Z.of_nat (n - c)) by lia.
  rewrite !math_comb_nat. cbn [mbind result_mbind result_bind].
  unfold true_div. pose proof (binom_pos n k Hk).
  destruct (Z.eqb_spec (Z.of_nat (binom n k)) 0); [lia|]. reflexivity.
Qed.

End PassAtKFacts.

Lemma compute_pass_at_k_nonempty (candidates : list candidate) (k : Z) :
  candidates <> [] ->
  PassAtK.compute_pass_at_k candidates k
  = let correct_count := PassAtK.sum_correct candidates in
    let n := Z.of_nat (length candidates) in
    let k := if k >? n then n else k in
    if correct_count =? 0 then 0%Q
    else if correct_count >=? k then 1%Q
    else match (numerator ← PassAtK.math_comb (n - correct_count) k;
                denominator ← PassAtK.math_comb n k;
                ratio ← PassAtK.true_div numerator denominator;
                Ok (1 - ratio)%Q) with
         | Ok r => r
         | Raise _ => 0%Q
         end.
Proof. destruct candidates; [congruence|reflexivity]. Qed.

(** C1.  For a candidate list with [n] candidates of which [c] are marked
    correct, and an integer [k >= 1], [compute_pass_at_k] returns 0 when
    the list is empty or [c = 0]; otherwise, with [k] clamped to [n], it
    returns 1 when [c >= k], and [1 - C(n-c, k) / C(n, k)] on exact integer
    binomial coefficients when [c < k] (the denominator is then positive,
    so the [except] branch is never taken). *)
Theorem compute_pass_at_k_cases (candidates : list candidate) (k : Z) :
  1 <= k ->
  let n := length candidates in
  let c := length (List.filter PassAtK.marked_correct candidates) in
  let k' := Z.to_nat (Z.min k (Z.of_nat n)) in
  (candidates = [] \/ c = 0%nat ->
   PassAtK.compute_pass_at_k candidates k = 0%Q) /\
  (candidates <> [] -> c <> 0%nat -> (k' <= c)%nat ->
   PassAtK.compute_pass_at_k candidates k = 1%Q) /\
  (candidates <> [] -> c <> 0%nat -> (c < k')%nat ->
   (0 < PassAtK.binom n k')%nat /\
   PassAtK.compute_pass_at_k candidates k
   = (1 - inject_Z (Z.of_nat (PassAtK.binom (n - c) k'))
          / inject_Z (Z.of_nat (PassAtK.binom n k')))%Q).
Proof.
  intros Hk n c k'.
  assert (Hc : PassAtK.sum_correct candidates = Z.of_nat c)
    by apply sum_correct_filter.
  assert (Hcn : (c <= n)%nat) by apply filter_length_le.
  assert (Hclamp : (if k >? Z.of_nat n then Z.of_nat n else k) = Z.of_nat k').
  { unfold k'. destruct (Z.gtb_spec k (Z.of_nat n)); lia. }
  assert (Hk'n : (k' <= n)%nat) by (unfold k'; lia).
  destruct (decide (candidates = [])) as [->|Hne].
  { repeat split; intros; try congruence; reflexivity. }
  rewrite (compute_pass_at_k_nonempty candidates k Hne).
  cbv zeta. fold n. rewrite Hc, Hclamp.
  assert (Hbody :
    (if Z.of_nat c =? 0 then 0%Q
     else if Z.of_nat c >=? Z.of_nat k' then 1%Q
     else match (numerator ← PassAtK.math_comb (Z.of_nat n - Z.of_nat c) (Z.of_nat k');
                 denominator ← PassAtK.math_comb (Z.of_nat n) (Z.of_nat k');
                 ratio ← PassAtK.true_div numerator denominator;
                 Ok (1 - ratio)%Q) with
          | Ok r => r
          | Raise _ => 0%Q
          end)
    = if (c =? 0)%nat then 0%Q
      else if (k' <=? c)%nat then 1%Q
      else (1 - inject_Z (Z.of_nat (PassAtK.binom (n - c) k'))
              / inject_Z (Z.of_nat (PassAtK.binom n k')))%Q).
  { destruct (Z.eqb_spec (Z.of_nat c) 0), (Nat.eqb_spec c 0); try lia; [reflexivity|].
    destruct (Z.geb_spec (Z.of_nat c) (Z.of_nat k')), (Nat.leb_spec k' c);
      try lia; [reflexivity|].
    destruct (pass_ratio n c k' Hk'n) as [->|?]; [reflexivity|lia]. }
  rewrite Hbody. clear Hbody.
  split; [|split].
  - intros [? | ->]; [congruence | reflexivity].
  - intros _ Hc0 Hle.
    destruct (Nat.eqb_spec c 0); [lia|].
    destruct (Nat.leb_spec k' c); [reflexivity|lia].
  - intros _ Hc0 Hlt. split; [now apply binom_pos|].
    destruct (Nat.eqb_spec c 0); [lia|].
    destruct (Nat.leb_spec k' c); [lia|reflexivity].
Qed.

Lemma compute_pass_at_k_cases_witness :
  PassAtK.compute_pass_at_k Samples.one_of_three 2
  = (1 - inject_Z 1 / inject_Z 3)%Q.
Proof.
  pose proof (compute_pass_at_k_cases Samples.one_of_three 2 ltac:(lia)) as H.
  cbv zeta in H. destruct H as (_ & _ & H).
  destruct H as [_ H]; [discriminate | discriminate | vm_compute; lia |].
  exact H.
Defined.

(** Example 1 of the specification, on the code: with correctness
    [true, false, true] the early exit [c >= k] decides both calls. *)
Example pass_at_k_example_1 :
  PassAtK.compute_pass_at_k Samples.two_of_three 1 = 1%Q /\
  PassAtK.compute_pass_at_k Samples.two_of_three 2 = 1%Q.
Proof. split; reflexivity. Qed.

(** C9.  [compute_pass_at_k] is not monotone in [k]: with six candidates
    of which one is correct, [k = 1] takes the exit [c >= k] and returns 1,
    while [k = 5] returns [1 - C(5,5)/C(6,5) = 5/6]. *)
Theorem compute_pass_at_k_not_monotone :
  (1 <= 5) /\
  PassAtK.compute_pass_at_k Samples.one_of_six 1 = 1%Q /\
  (PassAtK.compute_pass_at_k Samples.one_of_six 5 == 5 # 6)%Q /\
  ~ (PassAtK.compute_pass_at_k Samples.one_of_six 1
     <= PassAtK.compute_pass_at_k Samples.one_of_six 5)%Q.
Proof.
  split; [lia|]. split; [reflexivity|]. split; [reflexivity|].
  vm_compute. intros H. apply H. reflexivity.
Qed.

(** The formula of the code's comment, [1 - C(n-c, k) / C(n, k)], at the
    same input and [k = 1]: [1/6], below the value at [k = 5]. *)
Example pass_at_1_formula :
  (1 - inject_Z (Z.of_nat (PassAtK.binom (6 - 1) 1))
       / inject_Z (Z.of_nat (PassAtK.binom 6 1)) == 1 # 6)%Q.
Proof. reflexivity. Qed.

(** ** Indeterminate verdicts in the metrics *)

Section CollapseFacts.
Import PassAtK FindLongest Collapse.

Lemma marked_correct_collapse c : marked_correct (collapse c) = marked_correct c.
Proof.
  unfold collapse, indeterminate, marked_correct, get_is_correct.
  destruct c as [p [[[|]|]|] d pt ct tt cl em ep]; reflexivity.
Qed.

Lemma indeterminate_not_marked c : indeterminate c = true -> marked_correct c = false.
Proof.
  unfold indeterminate, marked_correct, get_is_correct.
  destruct (is_correct c) as [[[|]|]|]; intros H; try discriminate; reflexivity.
Qed.

Lemma collapse_marked c : marked_correct c = true -> collapse c = c.
Proof.
  intros H. unfold collapse.
  destruct (indeterminate c) eqn:Hi; [|reflexivity].
  rewrite (indeterminate_not_marked c Hi) in H. discriminate.
Qed.

Lemma sum_correct_collapse candidates :
  sum_correct (map collapse candidates) = sum_correct candidates.
Proof.
  induction candidates as [|c rest IH]; [reflexivity|].
  cbn [map sum_correct]. now rewrite marked_correct_collapse, IH.
Qed.

Lemma scan_step_collapse st c : scan_step st (collapse c) = scan_step st c.
Proof.
  destruct (marked_correct c) eqn:Hm.
  - now rewrite collapse_marked.
  - unfold scan_step. fold (marked_correct (collapse c)). fold (marked_correct c).
    now rewrite marked_correct_collapse, Hm.
Qed.

Lemma scan_collapse candidates : forall st,
  fold_left scan_step (map collapse candidates) st
  = fold_left scan_step candidates st.
Proof.
  induction candidates as [|c rest IH]; intros st; [reflexivity|].
  cbn [map fold_left]. now rewrite scan_step_collapse, IH.
Qed.

Lemma scan_step_info st c : info_correct st -> info_correct (scan_step st c).
Proof.
  intros Hst. unfold scan_step. fold (marked_correct c).
  destruct (marked_correct c) eqn:Hm; [|exact Hst].
  destruct (longest_proof_length st <? String.length (proof c))%nat; [|exact Hst].
  intros c' Hc'. cbn in Hc'. congruence.
Qed.

Lemma scan_info candidates : forall st,
  info_correct st -> info_correct (fold_left scan_step candidates st).
Proof.
  induction candidates as [|c rest IH]; intros st Hst; [exact Hst|].
  cbn [fold_left]. apply IH, scan_step_info, Hst.
Qed.

End CollapseFacts.

(** C10.  A candidate whose [is_correct] is [null] or absent counts as an
    incorrect one in every aggregation: marking all such candidates
    incorrect changes neither the correct count, nor [compute_pass_at_k],
    nor [has_correct_proof], nor the longest correct proof selected, and a
    selected proof always has [is_correct = true]. *)
Theorem indeterminate_counts_as_incorrect (candidates : list candidate) (k : Z) :
  PassAtK.sum_correct (map Collapse.collapse candidates)
  = PassAtK.sum_correct candidates /\
  PassAtK.compute_pass_at_k (map Collapse.collapse candidates) k
  = PassAtK.compute_pass_at_k candidates k /\
  PassAtK.has_correct_proof (map Collapse.collapse candidates)
  = PassAtK.has_correct_proof candidates /\
  FindLongest.longest_correct (map Collapse.collapse candidates)
  = FindLongest.longest_correct candidates /\
  (forall c, Collapse.indeterminate c = true ->
     PassAtK.sum_correct [c] = 0 /\ PassAtK.has_correct_proof [c] = false /\
     forall st, FindLongest.scan_step st c = st) /\
  (forall c, FindLongest.longest_correct candidates = Some c ->
     is_correct c = Some (Some true)).
Proof.
  split; [apply sum_correct_collapse|].
  split.
  { destruct candidates as [|c rest]; [reflexivity|].
    rewrite !compute_pass_at_k_nonempty by discriminate.
    cbv zeta. now rewrite sum_correct_collapse, length_map. }
  split.
  { unfold PassAtK.has_correct_proof.
    induction candidates as [|c rest IH]; [reflexivity|].
    cbn [map existsb]. now rewrite marked_correct_collapse, IH. }
  split.
  { unfold FindLongest.longest_correct, FindLongest.scan_candidates.
    now rewrite scan_collapse. }
  split.
  { intros c Hc. pose proof (indeterminate_not_marked c Hc) as Hm.
    repeat split.
    - cbn. now rewrite Hm.
    - cbn. now rewrite Hm.
    - intros st. unfold FindLongest.scan_step.
      fold (PassAtK.marked_correct c). now rewrite Hm. }
  intros c Hsel. unfold FindLongest.longest_correct in Hsel.
  destruct (0 <? _)%nat; [|discriminate].
  assert (Hm : PassAtK.marked_correct c = true).
  { apply (scan_info candidates FindLongest.scan_init); [|exact Hsel].
    intros c' Hc'. discriminate. }
  unfold PassAtK.marked_correct, PassAtK.get_is_correct in Hm.
  destruct (is_correct c) as [[[|]|]|]; try discriminate. reflexivity.
Qed.

(** ** [combine_files] *)

Section OrganizeFacts.
Import Organize.

Lemma for_each_Forall2 {A B} (f : A -> result B) xs : forall ys,
  for_each f xs = Ok ys <-> Forall2 (fun x y => f x = Ok y) xs ys.
Proof.
  induction xs as [|x xs IH]; intros ys; cbn [for_each].
  - split; intros H.
    + injection H as <-. constructor.
    + inversion H. reflexivity.
  - destruct (f x) as [y|e] eqn:Hfx; cbn [mbind result_mbind result_bind].
    + destruct (for_each f xs) as [ys'|e] eqn:Hrest;
        cbn [mbind result_mbind result_bind].
      * split; intros H.
        -- injection H as <-. constructor; [exact Hfx|]. now apply IH.
        -- inversion H as [|? y0 ? ys0 Hy Hys]; subst.
           apply IH in Hys. congruence.
      * split; intros H; [discriminate|].
        inversion H as [|? y0 ? ys0 Hy Hys]; subst.
        apply IH in Hys. discriminate.
    + split; intros H; [discriminate|].
      inversion H; subst. congruence.
Qed.

Lemma for_each_total {A B} (f : A -> result B) xs :
  (forall x, In x xs -> exists y, f x = Ok y) ->
  exists ys, for_each f xs = Ok ys.
Proof.
  induction xs as [|x xs IH]; intros Hall; cbn [for_each]; [eauto|].
  destruct (Hall x (or_introl eq_refl)) as [y ->].
  destruct IH as [ys ->]; [intros x' Hx'; apply Hall; now right|].
  cbn. eauto.
Qed.

Lemma for_each_raises {A B} (f : A -> result B) xs x e :
  In x xs -> f x = Raise e -> exists e', for_each f xs = Raise e'.
Proof.
  induction xs as [|x0 xs IH]; intros Hin Hfx; [destruct Hin|].
  cbn [for_each]. destruct Hin as [->|Hin].
  - rewrite Hfx. cbn. eauto.
  - destruct (f x0); cbn; [|eauto].
    destruct (IH Hin Hfx) as [e' ->]. cbn. eauto.
Qed.

(** With a list [correctness], an index outside one of the four validation
    arrays makes the dictionary display raise. *)
Lemma make_candidate_raises g v i :
  is_Some (Val.correctness v) ->
  Shape.shorter (S i) (Val.correctness v) \/
  Shape.shorter (S i) (Val.error_messages v) \/
  Shape.shorter (S i) (Val.error_positions v) \/
  Shape.shorter (S i) (Val.compiled_line_counts v) ->
  exists e, make_candidate g v i = Raise e.
Proof.
  intros [corr Hcorr] Hshort. unfold make_candidate. rewrite Hcorr.
  assert (Hsub : forall A (o : option (list A)),
             Shape.shorter (S i) o -> subscript_opt o i = Raise IndexError).
  { intros A o (l & -> & Hl). cbn. apply subscript_ge. lia. }
  destruct (subscript (Gen.candidates g) i); cbn; [|eauto].
  destruct (subscript corr i) eqn:Hc; cbn.
  2:{ eauto. }
  destruct (subscript (Gen.durations g) i); cbn; [|eauto].
  destruct (subscript (Gen.prompt_tokens g) i); cbn; [|eauto].
  destruct (subscript (Gen.completion_tokens g) i); cbn; [|eauto].
  destruct (subscript (Gen.total_tokens g) i); cbn; [|eauto].
  destruct (subscript_opt (Val.compiled_line_counts v) i) eqn:Hcl; cbn; [|eauto].
  destruct (subscript_opt (Val.error_messages v) i) eqn:Hem; cbn; [|eauto].
  destruct (subscript_opt (Val.error_positions v) i) eqn:Hep; cbn; [|eauto].
  exfalso. destruct Hshort as [H|[H|[H|H]]].
  - rewrite Hcorr in H. apply Hsub in H. cbn in H. congruence.
  - apply Hsub in H. congruence.
  - apply Hsub in H. congruence.
  - apply Hsub in H. congruence.
Qed.

Lemma shorter_mono {A} (n m : nat) (o : option (list A)) :
  (n <= m)%nat -> Shape.shorter n o -> Shape.shorter m o.
Proof. intros Hnm (l & -> & Hl). exists l. split; [reflexivity|lia]. Qed.

Lemma merge_candidates_raises g v :
  let n := length (Gen.candidates g) in
  is_Some (Val.correctness v) ->
  Shape.shorter n (Val.correctness v) \/
  Shape.shorter n (Val.error_messages v) \/
  Shape.shorter n (Val.error_positions v) \/
  Shape.shorter n (Val.compiled_line_counts v) ->
  exists e, merge_candidates g v = Raise e.
Proof.
  intros n Hsome Hshort. unfold merge_candidates. fold n.
  destruct n as [|m]; [destruct Hshort as [H|[H|[H|H]]];
                       destruct H as (l & _ & Hl); lia|].
  destruct (make_candidate_raises g v m Hsome Hshort) as [e He].
  apply (for_each_raises _ _ m e); [|exact He].
  apply in_seq. lia.
Qed.

Lemma merge_problems_raises gr vr problems : forall start acc i problem g v,
  problems !! i = Some problem ->
  gr !! Z.of_nat (start + i) = Some g ->
  vr !! Z.of_nat (start + i) = Some v ->
  (exists e, merge_candidates g v = Raise e) ->
  exists e, merge_problems gr vr start problems acc = Raise e.
Proof.
  induction problems as [|p rest IH]; intros start acc i problem g v Hp Hg Hv [e He];
    [discriminate|].
  cbn [merge_problems]. destruct i as [|i].
  - rewrite Nat.add_0_r in Hg, Hv. unfold merge_problem.
    rewrite Hg, Hv, He. cbn. eauto.
  - destruct (merge_problem gr vr acc start p) as [acc'|e']; cbn; [|eauto].
    apply (IH (S start) acc' i problem g v); eauto.
    + now replace (S start + i)%nat with (start + S i)%nat by lia.
    + now replace (S start + i)%nat with (start + S i)%nat by lia.
Qed.

(** With complete arrays on both sides every index builds a candidate. *)
Lemma make_candidate_list g v i :
  (i < length (Gen.candidates g))%nat ->
  Shape.telemetry_complete g ->
  Shape.covers (length (Gen.candidates g)) (Val.correctness v) ->
  Shape.covers (length (Gen.candidates g)) (Val.error_messages v) ->
  Shape.covers (length (Gen.candidates g)) (Val.error_positions v) ->
  Shape.covers (length (Gen.candidates g)) (Val.compiled_line_counts v) ->
  exists c, make_candidate g v i = Ok c.
Proof.
  intros Hi (Hd & Hpt & Hct & Htt) (lc & Hlc & Hc) (lm & Hlm & Hm)
         (lp & Hlp & Hp) (ll & Hll & Hl).
  unfold make_candidate. rewrite Hlc, Hlm, Hlp, Hll. cbn [subscript_opt].
  destruct (subscript_lt (Gen.candidates g) i) as (? & _ & ->); [lia|].
  destruct (subscript_lt lc i) as (? & _ & ->); [lia|].
  destruct (subscript_lt (Gen.durations g) i) as (? & _ & ->); [lia|].
  destruct (subscript_lt (Gen.prompt_tokens g) i) as (? & _ & ->); [lia|].
  destruct (subscript_lt (Gen.completion_tokens g) i) as (? & _ & ->); [lia|].
  destruct (subscript_lt (Gen.total_tokens g) i) as (? & _ & ->); [lia|].
  destruct (subscript_lt ll i) as (? & _ & ->); [lia|].
  destruct (subscript_lt lm i) as (? & _ & ->); [lia|].
  destruct (subscript_lt lp i) as (? & _ & ->); [lia|].
  cbn. eauto.
Qed.

End OrganizeFacts.

(** The merge has no length check of its own; it subscripts the
    validation arrays at the indices of the candidates.  For a task index
    present in both dictionaries whose stored correctness is a list: when
    the correctness, error_messages, error_positions or
    compiled_line_counts array is shorter than the generation candidates
    array, building the task's candidates raises and so does
    [combine_files], which then writes no merged document; when the
    generation telemetry is complete and the four arrays are at least as
    long as the candidates array, one candidate is built per generated
    proof. *)
Theorem merge_raises_on_short_validation
    (problems_data : list task)
    (generation_data : list (Organize.line Gen.record))
    (validation_data : list (Organize.line Val.record))
    (stmt_idx : nat) (problem : task) (g : Gen.record) (v : Val.record) :
  problems_data !! stmt_idx = Some problem ->
  Organize.index_results Gen.statement_idx generation_data !! Z.of_nat stmt_idx
    = Some g ->
  Organize.index_results Val.statement_idx validation_data !! Z.of_nat stmt_idx
    = Some v ->
  is_Some (Val.correctness v) ->
  let n := length (Gen.candidates g) in
  (Shape.shorter n (Val.correctness v) \/
   Shape.shorter n (Val.error_messages v) \/
   Shape.shorter n (Val.error_positions v) \/
   Shape.shorter n (Val.compiled_line_counts v) ->
   (exists e, Organize.merge_candidates g v = Raise e) /\
   (exists e, Organize.combine_files problems_data generation_data
                validation_data = Raise e)) /\
  (Shape.telemetry_complete g ->
   Shape.covers n (Val.correctness v) ->
   Shape.covers n (Val.error_messages v) ->
   Shape.covers n (Val.error_positions v) ->
   Shape.covers n (Val.compiled_line_counts v) ->
   exists cs, Organize.merge_candidates g v = Ok cs /\ length cs = n).
Proof.
  intros Hp Hg Hv Hsome n. split.
  - intros Hshort.
    pose proof (merge_candidates_raises g v Hsome Hshort) as Hraise.
    split; [exact Hraise|].
    unfold Organize.combine_files.
    destruct (subscript generation_data 0); cbn; [|eauto].
    destruct (Organize.getitem _); cbn; [|eauto].
    destruct (subscript validation_data 0); cbn; [|eauto].
    destruct (Organize.getitem _); cbn; [|eauto].
    destruct (merge_problems_raises _ _ problems_data 0 ∅ stmt_idx problem g v
                Hp Hg Hv Hraise) as [e ->].
    cbn. eauto.
  - intros Hg' Hc Hm Hpos Hl.
    destruct (for_each_total (Organize.make_candidate g v) (seq 0 n)) as [cs Hcs].
    { intros i Hi. apply in_seq in Hi.
      apply make_candidate_list; auto. lia. }
    exists cs. split; [exact Hcs|].
    apply for_each_Forall2, Forall2_length in Hcs.
    now rewrite length_seq in Hcs.
Qed.

Lemma merge_raises_on_short_validation_witness :
  (exists e, Organize.merge_candidates MergeSamples.gen_one
               MergeSamples.val_short = Raise e) /\
  (exists e, Organize.combine_files [MergeSamples.problem]
               [MergeSamples.setting_line;
                MergeSamples.results_line [MergeSamples.gen_one]]
               [MergeSamples.setting_line;
                MergeSamples.results_line [MergeSamples.val_short]]
             = Raise e).
Proof.
  refine (proj1 (merge_raises_on_short_validation
            [MergeSamples.problem]
            [MergeSamples.setting_line;
             MergeSamples.results_line [MergeSamples.gen_one]]
            [MergeSamples.setting_line;
             MergeSamples.results_line [MergeSamples.val_short]]
            0 MergeSamples.problem MergeSamples.gen_one MergeSamples.val_short
            _ _ _ _) _).
  - reflexivity.
  - vm_compute. reflexivity.
  - vm_compute. reflexivity.
  - cbn. eauto.
  - left. exists []. split; [reflexivity|]. cbn. lia.
Defined.

(** C2.  The merge does not enforce that the validation arrays have the
    length of the candidates array: for a generation file with one candidate for task 0 and a validation file
    whose four arrays for task 0 have length two, [combine_files] raises
    nothing, builds one merged candidate from the first verdict and drops
    the second one.  On the same two files the join of
    [prepare/false_attempts.py], which compares the stored lengths with
    [len(candidates)] before it pairs anything, raises [ValueError]. *)
Theorem merge_accepts_longer_validation :
  let generation_file :=
    [MergeSamples.setting_line;
     MergeSamples.results_line [MergeSamples.gen_one]] in
  let validation_file :=
    [MergeSamples.setting_line;
     MergeSamples.results_line [MergeSamples.val_two]] in
  length (Gen.candidates MergeSamples.gen_one) = 1%nat /\
  Val.correctness MergeSamples.val_two = Some [Some true; Some false] /\
  Val.error_messages MergeSamples.val_two = Some [None; Some "unknown tactic"] /\
  Val.error_positions MergeSamples.val_two = Some [None; None] /\
  Val.compiled_line_counts MergeSamples.val_two = Some [Some 1; None] /\
  (exists c,
     Organize.combine_files [MergeSamples.problem] generation_file
       validation_file = Ok c /\
     Organize.results c
     = {[ "t" := {| Organize.entry_theoremStatement := "theorem t : True";
                    Organize.entry_theoremName := "t";
                    Organize.entry_candidates := [MergeSamples.merged_one] |} ]}) /\
  FalseAttempts.extract_unique_false_proofs
    (FalseAttempts.read_jsonl_file generation_file)
    (FalseAttempts.read_jsonl_file validation_file)
    [MergeSamples.problem]
  = Raise ValueError.
Proof.
  cbv zeta. do 5 (split; [reflexivity|]). split.
  - eexists. split; [reflexivity|]. cbn. reflexivity.
  - vm_compute. reflexivity.
Qed.

Lemma make_candidate_null g v i c :
  Val.correctness v = None ->
  Organize.make_candidate g v i = Ok c ->
  Gen.candidates g !! i = Some (proof c) /\
  is_correct c = Some None /\
  compiled_lines c = None /\ error_message c = None /\
  error_position c = None /\
  Gen.durations g !! i = Some (duration c) /\
  Gen.prompt_tokens g !! i = Some (prompt_tokens c) /\
  Gen.completion_tokens g !! i = Some (completion_tokens c) /\
  Gen.total_tokens g !! i = Some (total_tokens c).
Proof.
  intros Hnull. unfold Organize.make_candidate. rewrite Hnull.
  destruct (subscript (Gen.candidates g) i) eqn:H1; cbn; [|discriminate].
  destruct (subscript (Gen.durations g) i) eqn:H2; cbn; [|discriminate].
  destruct (subscript (Gen.prompt_tokens g) i) eqn:H3; cbn; [|discriminate].
  destruct (subscript (Gen.completion_tokens g) i) eqn:H4; cbn; [|discriminate].
  destruct (subscript (Gen.total_tokens g) i) eqn:H5; cbn; [|discriminate].
  intros [= <-]. cbn.
  apply subscript_Ok in H1, H2, H3, H4, H5. repeat split; assumption.
Qed.

(** C7.  For a task present in both dictionaries whose stored correctness
    is [null], and whose generation record carries complete telemetry, the
    merge raises nothing and stores one candidate per generated proof, each
    with [is_correct], [compiled_lines], [error_message] and
    [error_position] all [null] and with the proof text, duration and token
    counts of the generation record. *)
Theorem merge_null_correctness
    (generation_results : gmap Z Gen.record)
    (validation_results : gmap Z Val.record)
    (acc : gmap string Organize.entry)
    (stmt_idx : nat) (problem : task) (g : Gen.record) (v : Val.record) :
  generation_results !! Z.of_nat stmt_idx = Some g ->
  validation_results !! Z.of_nat stmt_idx = Some v ->
  Val.correctness v = None ->
  Shape.telemetry_complete g ->
  exists cs,
    Organize.merge_candidates g v = Ok cs /\
    Organize.merge_problem generation_results validation_results acc
      stmt_idx problem
    = Ok (<[theoremName problem :=
              {| Organize.entry_theoremStatement := theoremStatement problem;
                 Organize.entry_theoremName := theoremName problem;
                 Organize.entry_candidates := cs |}]> acc) /\
    length cs = length (Gen.candidates g) /\
    forall i c, cs !! i = Some c ->
      Gen.candidates g !! i = Some (proof c) /\
      is_correct c = Some None /\
      compiled_lines c = None /\ error_message c = None /\
      error_position c = None /\
      Gen.durations g !! i = Some (duration c) /\
      Gen.prompt_tokens g !! i = Some (prompt_tokens c) /\
      Gen.completion_tokens g !! i = Some (completion_tokens c) /\
      Gen.total_tokens g !! i = Some (total_tokens c).
Proof.
  intros Hg Hv Hnull (Hd & Hpt & Hct & Htt).
  destruct (for_each_total (Organize.make_candidate g v)
              (seq 0 (length (Gen.candidates g)))) as [cs Hcs].
  { intros i Hi. apply in_seq in Hi.
    unfold Organize.make_candidate. rewrite Hnull.
    destruct (subscript_lt (Gen.candidates g) i) as (? & _ & ->); [lia|].
    destruct (subscript_lt (Gen.durations g) i) as (? & _ & ->); [lia|].
    destruct (subscript_lt (Gen.prompt_tokens g) i) as (? & _ & ->); [lia|].
    destruct (subscript_lt (Gen.completion_tokens g) i) as (? & _ & ->); [lia|].
    destruct (subscript_lt (Gen.total_tokens g) i) as (? & _ & ->); [lia|].
    cbn. eauto. }
  exists cs. split; [exact Hcs|]. split.
  { unfold Organize.merge_problem. rewrite Hg, Hv.
    unfold Organize.merge_candidates in Hcs |- *. now rewrite Hcs. }
  apply for_each_Forall2 in Hcs. split.
  { apply Forall2_length in Hcs. now rewrite length_seq in Hcs. }
  intros i c Hi.
  destruct (Forall2_lookup_r _ _ _ _ _ Hcs Hi) as (j & Hj & Hmk).
  apply lookup_seq in Hj as [-> _]. cbn in Hmk.
  exact (make_candidate_null g v i c Hnull Hmk).
Qed.

Lemma merge_null_correctness_witness :
  exists cs,
    Organize.merge_candidates MergeSamples.gen_one MergeSamples.val_null = Ok cs /\
    length cs = 1%nat /\
    forall i c, cs !! i = Some c -> is_correct c = Some None.
Proof.
  destruct (merge_null_correctness
              {[ 0 := MergeSamples.gen_one ]} {[ 0 := MergeSamples.val_null ]}
              ∅ 0 MergeSamples.problem MergeSamples.gen_one
              MergeSamples.val_null)
    as (cs & Hcs & _ & Hlen & Hall).
  - reflexivity.
  - reflexivity.
  - reflexivity.
  - unfold Shape.telemetry_complete. cbn. lia.
  - exists cs. split; [exact Hcs|]. split; [exact Hlen|].
    intros i c Hi. apply (Hall i c Hi).
Defined.

(** ** [check_context_proofs] *)

Section ValidateFacts.
Import Validate.

Lemma append_outcomes_fields (os : list outcome) : forall acc,
  correctness (fold_left append_outcome os acc)
  = correctness acc ++ map o_correctness os /\
  error_messages (fold_left append_outcome os acc)
  = error_messages acc ++ map o_error_message os /\
  error_positions (fold_left append_outcome os acc)
  = error_positions acc ++ map o_error_position os /\
  compiled_line_counts (fold_left append_outcome os acc)
  = compiled_line_counts acc ++ map o_compiled_lines os.
Proof.
  induction os as [|o os IH]; intros acc; cbn [fold_left map].
  - now rewrite !app_nil_r.
  - destruct (IH (append_outcome acc o)) as (-> & -> & -> & ->).
    cbn. now rewrite <- !app_assoc.
Qed.

(** The loop appends, for each proof in turn, the outcome of its call. *)
Lemma check_proofs_Ok server t stmt env0 proofs : forall call acc out,
  check_proofs server t stmt env0 call proofs acc = Ok out ->
  exists os,
    out = fold_left append_outcome os acc /\
    length os = length proofs /\
    forall i p, proofs !! i = Some p ->
      exists o, os !! i = Some o /\
        check_proof stmt p
          (server (call + i)%nat (proof_command stmt p env0) (Some t)) = Ok o.
Proof.
  induction proofs as [|p rest IH]; intros call acc out H; cbn [check_proofs] in H.
  - injection H as <-. exists []. split; [reflexivity|]. split; [reflexivity|].
    intros i p Hi. discriminate.
  - destruct (check_proof stmt p _) as [o|e] eqn:Ho; cbn in H; [|discriminate].
    destruct (IH _ _ _ H) as (os & -> & Hlen & Hos).
    exists (o :: os). split; [reflexivity|]. split; [cbn; lia|].
    intros [|i] q Hq; cbn in Hq.
    + injection Hq as <-. exists o. split; [reflexivity|].
      now rewrite Nat.add_0_r.
    + destruct (Hos i q Hq) as (o' & Ho' & Hc). exists o'. split; [exact Ho'|].
      now replace (call + S i)%nat with (S call + i)%nat by lia.
Qed.

Lemma check_context_proofs_Ok server idx t ctx stmt proofs idx' out :
  check_context_proofs server idx t ctx stmt proofs = Ok (idx', out) ->
  idx' = idx /\
  exists context_res os,
    server 0%nat {| Lean.cmd := ctx; Lean.cmd_env := None |} None
    = Lean.RunResponse context_res /\
    length os = length proofs /\
    correctness out = map o_correctness os /\
    error_messages out = map o_error_message os /\
    error_positions out = map o_error_position os /\
    compiled_line_counts out = map o_compiled_lines os /\
    forall i p, proofs !! i = Some p ->
      exists o, os !! i = Some o /\
        check_proof stmt p
          (server (S i) (proof_command stmt p (Lean.env context_res)) (Some t))
        = Ok o.
Proof.
  unfold check_context_proofs.
  destruct (server 0%nat _ None) as [e|m|context_res] eqn:Hctx; try discriminate.
  destruct (check_proofs _ _ _ _ _ _ _) as [acc|e] eqn:Hloop; cbn; [|discriminate].
  intros [= <- <-]. split; [reflexivity|].
  destruct (check_proofs_Ok _ _ _ _ _ _ _ _ Hloop) as (os & -> & Hlen & Hos).
  exists context_res, os. split; [reflexivity|]. split; [exact Hlen|].
  destruct (append_outcomes_fields os no_outcomes) as (-> & -> & -> & ->).
  cbn. repeat split. exact Hos.
Qed.

End ValidateFacts.

(** C3.  When the response to a check is not a process-level error, fails
    [lean_code_is_valid(allow_sorry=False)] and carries diagnostics, the
    outcome is read off the first diagnostic alone: correctness is [False],
    the error message is its text, the error position is its (start, end)
    pair when both ends are present and [None] otherwise, and
    compiled_lines is its start line minus the number of lines of the
    statement when a start is present and [None] otherwise, 7 for start
    line 12 and a statement of 5 lines; these values are the entries stored
    for that candidate when [check_context_proofs] returns. *)
Theorem check_proof_first_diagnostic
    (theorem_statement proof : string) (r : Lean.Response)
    (message : Lean.Message) (later : list Lean.Message) :
  Lean.lean_code_is_valid r = false ->
  Lean.messages r = message :: later ->
  exists o,
    Validate.check_proof theorem_statement proof (Lean.RunResponse r) = Ok o /\
    Validate.o_correctness o = Some false /\
    Validate.o_error_message o = Some (Lean.data message) /\
    (forall s e, Lean.start_pos message = Some s ->
                 Lean.end_pos message = Some e ->
       Validate.o_error_position o
       = Some {| start_pos := (Lean.line s, Lean.column s);
                 end_pos := (Lean.line e, Lean.column e) |}) /\
    (Lean.start_pos message = None \/ Lean.end_pos message = None ->
       Validate.o_error_position o = None) /\
    (forall s, Lean.start_pos message = Some s ->
       Validate.o_compiled_lines o
       = Some (Lean.line s
               - Z.of_nat (length (Str.splitlines theorem_statement)))) /\
    (Lean.start_pos message = None -> Validate.o_compiled_lines o = None) /\
    (forall s, Lean.start_pos message = Some s -> Lean.line s = 12 ->
       length (Str.splitlines theorem_statement) = 5%nat ->
       Validate.o_compiled_lines o = Some 7) /\
    (forall server idx t ctx proofs i idx' out context_res,
       Validate.check_context_proofs server idx t ctx theorem_statement proofs
       = Ok (idx', out) ->
       proofs !! i = Some proof ->
       server 0%nat {| Lean.cmd := ctx; Lean.cmd_env := None |} None
       = Lean.RunResponse context_res ->
       server (S i)
         (Validate.proof_command theorem_statement proof (Lean.env context_res))
         (Some t) = Lean.RunResponse r ->
       Validate.correctness out !! i = Some (Validate.o_correctness o) /\
       Validate.error_messages out !! i = Some (Validate.o_error_message o) /\
       Validate.error_positions out !! i = Some (Validate.o_error_position o) /\
       Validate.compiled_line_counts out !! i
       = Some (Validate.o_compiled_lines o)).
Proof.
  intros Hvalid Hmsgs.
  unfold Validate.check_proof. rewrite Hvalid, Hmsgs. cbn.
  eexists. split; [reflexivity|]. cbn.
  split; [reflexivity|]. split; [reflexivity|].
  split; [intros s e -> ->; reflexivity|].
  split.
  { intros [-> | ->]; [reflexivity|].
    now destruct (Lean.start_pos message). }
  split; [intros s ->; reflexivity|].
  split; [intros ->; reflexivity|].
  split.
  { intros s -> H12 H5. unfold Validate.str_len. rewrite H12, H5. reflexivity. }
  intros server idx t ctx proofs i idx' out context_res Hret Hi Hctx Hrun.
  apply check_context_proofs_Ok in Hret
    as (_ & context_res' & os & Hctx' & _ & Hc & Hm & Hp & Hl & Hos).
  rewrite Hctx in Hctx'. injection Hctx' as <-.
  destruct (Hos i proof Hi) as (o & Ho & Hcheck).
  rewrite Hrun in Hcheck. unfold Validate.check_proof in Hcheck.
  rewrite Hvalid, Hmsgs in Hcheck. cbn in Hcheck. injection Hcheck as <-.
  rewrite Hc, Hm, Hp, Hl, !list_lookup_fmap, Ho. cbn. repeat split.
Qed.

Lemma check_proof_first_diagnostic_witness :
  exists o,
    Validate.check_proof CheckSamples.five_lines "rfl"
      (Lean.RunResponse CheckSamples.rejected) = Ok o /\
    Validate.o_correctness o = Some false /\
    Validate.o_error_message o = Some "unsolved goals" /\
    Validate.o_error_position o
    = Some {| start_pos := (12, 4); end_pos := (12, 10) |} /\
    Validate.o_compiled_lines o = Some 7.
Proof.
  destruct (check_proof_first_diagnostic CheckSamples.five_lines "rfl"
              CheckSamples.rejected CheckSamples.diagnostic
              [CheckSamples.second_diagnostic] eq_refl eq_refl)
    as (o & Ho & Hc & Hm & Hp & _ & _ & _ & H7 & _).
  exists o. split; [exact Ho|]. split; [exact Hc|]. split; [exact Hm|].
  split.
  - exact (Hp _ _ eq_refl eq_refl).
  - apply (H7 _ eq_refl); reflexivity.
Defined.



(** ** The retry loops *)

Section RetryFacts.
Import Validate.

Lemma retry_loop_done fuel max attempt vr n :
  is_None (Val.correctness vr) && (n <? max)%nat = false ->
  retry_loop fuel max attempt vr n = Some (vr, n).
Proof. intros H. destruct fuel; cbn [retry_loop]; now rewrite H. Qed.

(** The loop always ends within [max - n_tries] iterations. *)
Lemma retry_loop_total max attempt : forall fuel vr n,
  (max - n <= fuel)%nat ->
  exists r m, retry_loop fuel max attempt vr n = Some (r, m) /\ (m <= Nat.max n max)%nat.
Proof.
  induction fuel as [|fuel IH]; intros vr n Hfuel.
  - exists vr, n. split; [|lia]. apply retry_loop_done.
    destruct (Nat.ltb_spec n max); [lia|]. apply andb_false_r.
  - cbn [retry_loop].
    destruct (is_None (Val.correctness vr) && (n <? max)%nat) eqn:Hguard.
    + apply andb_true_iff in Hguard as [_ Hlt]. apply Nat.ltb_lt in Hlt.
      destruct (IH (match attempt n with
                    | Ok (idx, o) => record_of idx o
                    | Raise _ => vr
                    end) (S n) ltac:(lia)) as (r & m & -> & Hm).
      exists r, m. split; [reflexivity|lia].
    + exists vr, n. split; [reflexivity|lia].
Qed.

(** When every attempt raises, the record stays all-[None] and the loop
    makes every attempt up to the bound. *)
Lemma retry_loop_all_raise max attempt idx : forall fuel n,
  (max - n <= fuel)%nat ->
  (forall m, (n <= m < max)%nat -> exists e, attempt m = Raise e) ->
  retry_loop fuel max attempt (all_none idx) n
  = Some (all_none idx, Nat.max n max).
Proof.
  induction fuel as [|fuel IH]; intros n Hfuel Hall.
  - rewrite retry_loop_done; [f_equal; f_equal; lia|].
    destruct (Nat.ltb_spec n max); [lia|]. apply andb_false_r.
  - cbn [retry_loop]. cbn [all_none Val.correctness is_None andb].
    destruct (Nat.ltb_spec n max) as [Hlt|Hge].
    + destruct (Hall n ltac:(lia)) as [e ->].
      rewrite IH by (try lia; intros m Hm; apply Hall; lia).
      f_equal. f_equal. lia.
    + f_equal. f_equal. lia.
Qed.

(** A first attempt that returns ends the loop with its record. *)
Lemma retry_loop_first_success max attempt idx idx' o fuel :
  (0 < max)%nat ->
  attempt 0%nat = Ok (idx', o) ->
  retry_loop (S fuel) max attempt (all_none idx) 0
  = Some (record_of idx' o, 1%nat).
Proof.
  intros Hmax H0. cbn [retry_loop]. cbn [all_none Val.correctness is_None andb].
  destruct (Nat.ltb_spec 0 max); [|lia]. rewrite H0.
  now apply retry_loop_done.
Qed.

(** When the first [k] attempts raise and the next one returns, the loop
    ends after [k + 1] attempts with the record of that attempt. *)
Lemma retry_loop_until_success max attempt idx idx' o : forall k fuel n,
  (n + k < max)%nat -> (k < fuel)%nat ->
  (forall m, (n <= m < n + k)%nat -> exists e, attempt m = Raise e) ->
  attempt (n + k)%nat = Ok (idx', o) ->
  retry_loop fuel max attempt (all_none idx) n
  = Some (record_of idx' o, S (n + k)).
Proof.
  induction k as [|k IH]; intros fuel n Hmax Hfuel Hraise Hok;
    (destruct fuel as [|fuel]; [lia|]); cbn [retry_loop];
    cbn [all_none Val.correctness is_None andb];
    (destruct (Nat.ltb_spec n max); [|lia]).
  - rewrite Nat.add_0_r in *. rewrite Hok. now apply retry_loop_done.
  - destruct (Hraise n ltac:(lia)) as [e ->].
    rewrite (IH fuel (S n)); [f_equal; f_equal; lia|lia|lia| |].
    + intros m Hm. apply Hraise. lia.
    + now replace (S n + k)%nat with (n + S k)%nat by lia.
Qed.



Lemma validate_tasks_total world tasks gens : forall idxs acc,
  (forall idx, In idx idxs ->
     (idx < length tasks)%nat /\ (idx < length gens)%nat) ->
  exists rs,
    validate_tasks max_tries world tasks gens idxs acc = Some (Ok (acc ++ rs)) /\
    length rs = length idxs /\
    forall j idx, idxs !! j = Some idx ->
      exists t g r n,
        tasks !! idx = Some t /\ gens !! idx = Some g /\
        validate_task max_tries (world idx) idx t g = Some (r, n) /\
        rs !! j = Some r.
Proof.
  induction idxs as [|idx rest IH]; intros acc Hin; cbn [validate_tasks].
  - exists []. rewrite app_nil_r. split; [reflexivity|]. split; [reflexivity|].
    intros j idx Hj. discriminate.
  - destruct (Hin idx (or_introl eq_refl)) as [Ht Hg].
    destruct (subscript_lt tasks idx Ht) as (t & Htl & ->).
    destruct (subscript_lt gens idx Hg) as (g & Hgl & ->).
    destruct (retry_loop_total max_tries
                (fun n => check_context_proofs (world idx n) (Z.of_nat idx)
                            timeout_per_proof (srcContext t)
                            (theoremStatement t) (Gen.candidates g))
                max_tries (all_none (Z.of_nat idx)) 0%nat ltac:(lia))
      as (r & n & Hr & _).
    unfold validate_task at 1. rewrite Hr.
    destruct (IH (acc ++ [r])) as (rs & -> & Hlen & Hrs).
    { intros i Hi. apply Hin. now right. }
    exists (r :: rs). rewrite <- app_assoc. split; [reflexivity|].
    split; [cbn; lia|].
    intros [|j] i Hj; cbn in Hj.
    + injection Hj as <-. exists t, g, r, n. repeat split; assumption.
    + destruct (Hrs j i Hj) as (t' & g' & r' & n' & ? & ? & ? & ?).
      exists t', g', r', n'. repeat split; assumption.
Qed.

End RetryFacts.

(** ** The repair pass *)

Section RevalidateFacts.
Import Revalidate.

Lemma existsb_is_None {A} (l : list (option A)) :
  existsb Validate.is_None l = true <-> In None l.
Proof.
  rewrite existsb_exists. split.
  - intros (x & Hx & Hn). destruct x; [discriminate|exact Hx].
  - intros H. exists None. split; [exact H|reflexivity].
Qed.


Lemma select_In validations : forall i0 acc idx,
  In idx (select i0 validations acc) <->
  In idx acc \/
  exists j r, idx = (i0 + j)%nat /\ validations !! j = Some r /\ selected r = true.
Proof.
  induction validations as [|r rest IH]; intros i0 acc idx; cbn [select].
  - split; [tauto|]. intros [H|(j & r & _ & Hj & _)]; [exact H|discriminate].
  - rewrite IH. split.
    + intros [H|(j & r' & -> & Hj & Hs)].
      * destruct (selected r) eqn:Hr; [|tauto].
        apply in_app_or in H as [H|[<-|[]]]; [tauto|].
        right. exists 0%nat, r. rewrite Nat.add_0_r. auto.
      * right. exists (S j), r'. split; [lia|]. auto.
    + intros [H|(j & r' & -> & Hj & Hs)].
      * left. destruct (selected r); [apply in_or_app|]; tauto.
      * destruct j as [|j]; cbn in Hj.
        -- injection Hj as <-. left. rewrite Hs, Nat.add_0_r.
           apply in_or_app. right. now left.
        -- right. exists j, r'. split; [lia|]. auto.
Qed.


(** The repair loop replaces the entries it is given, each by the outcome
    of its own retry loop, and no other. *)
Lemma repair_spec world tasks gens : forall revalidate validations,
  (forall idx, In idx revalidate ->
     (idx < length tasks)%nat /\ (idx < length gens)%nat /\
     (idx < length validations)%nat) ->
  exists validations',
    repair max_tries world tasks gens revalidate validations
    = Some (Ok validations') /\
    length validations' = length validations /\
    (forall i, ~ In i revalidate -> validations' !! i = validations !! i) /\
    (forall i, In i revalidate ->
       exists t g r n,
         tasks !! i = Some t /\ gens !! i = Some g /\
         revalidate_task max_tries (world i) i t g = Some (r, n) /\
         validations' !! i = Some r).
Proof.
  induction revalidate as [|idx rest IH]; intros validations Hin; cbn [repair].
  - exists validations. split; [reflexivity|]. split; [reflexivity|].
    split; [reflexivity|]. intros i [].
  - destruct (Hin idx (or_introl eq_refl)) as (Ht & Hg & Hv).
    destruct (subscript_lt tasks idx Ht) as (t & Htl & ->).
    destruct (subscript_lt gens idx Hg) as (g & Hgl & ->).
    destruct (retry_loop_total max_tries
                (fun n => Validate.check_context_proofs (world idx n)
                            (Z.of_nat idx) timeout_per_proof (srcContext t)
                            (theoremStatement t) (Gen.candidates g))
                max_tries (Validate.all_none (Z.of_nat idx)) 0%nat ltac:(lia))
      as (r & n & Hr & _).
    unfold revalidate_task at 1. rewrite Hr.
    unfold setitem. destruct (Nat.ltb_spec idx (length validations)); [|lia].
    destruct (IH (<[idx := r]> validations)) as (vs & -> & Hlen & Hout & Hin').
    { intros i Hi. rewrite length_insert. apply Hin. now right. }
    rewrite length_insert in Hlen.
    exists vs. split; [reflexivity|]. split; [exact Hlen|]. split.
    + intros i Hi. rewrite Hout by (intros ?; apply Hi; now right).
      apply list_lookup_insert_ne. intros ->. apply Hi. now left.
    + intros i Hi.
      destruct (in_dec Nat.eq_dec i rest) as [Hrest|Hrest]; [now apply Hin'|].
      destruct Hi as [<-|Hi]; [|contradiction].
      exists t, g, r, n. repeat split; try assumption.
      rewrite Hout by assumption. now apply list_lookup_insert_eq.
Qed.

End RevalidateFacts.

(** C5.  A task whose validation attempt raises is attempted again, each
    attempt being a run of [check_context_proofs] on the whole task (its
    context, its statement and all its candidates) in a process of its
    own, one attempt straight after the other: when the first [k] attempts
    raise and the next one returns, with [k] below 3 in the first-pass run
    (timeout 10) and below 5 in the repair pass (timeout 90), the task's
    record is built from that attempt and [k + 1] attempts were made; no
    task is attempted more than 3, resp. 5, times, and the record the loop
    ends with is the one the run stores for the task.  When every attempt
    raises, exactly 3, resp. 5, attempts are made, the record has
    correctness, error_positions, error_messages and compiled_line_counts
    all [None], and that record is stored for the task while the run goes
    on to its end: the first-pass run returns one record per task, the
    repair pass returns the file with that entry replaced. *)
Theorem retry_exhausted_persists_all_none
    (world : nat -> Validate.sessions)
    (tasks : list task) (generations : list Gen.record)
    (validations : list Val.record)
    (idx : nat) (t : task) (g : Gen.record) :
  tasks !! idx = Some t ->
  generations !! idx = Some g ->
  (forall ss, exists r n,
     Validate.validate_task 3 ss idx t g = Some (r, n) /\ (n <= 3)%nat) /\
  (forall ss, exists r n,
     Revalidate.revalidate_task 5 ss idx t g = Some (r, n) /\ (n <= 5)%nat) /\
  (forall (ss : Validate.sessions) k idx' o, (k < 3)%nat ->
     (forall n, (n < k)%nat -> exists e,
        Validate.check_context_proofs (ss n) (Z.of_nat idx) 10
          (srcContext t) (theoremStatement t) (Gen.candidates g) = Raise e) ->
     Validate.check_context_proofs (ss k) (Z.of_nat idx) 10
       (srcContext t) (theoremStatement t) (Gen.candidates g) = Ok (idx', o) ->
     Validate.validate_task 3 ss idx t g
     = Some (Validate.record_of idx' o, S k)) /\
  (forall (ss : Validate.sessions) k idx' o, (k < 5)%nat ->
     (forall n, (n < k)%nat -> exists e,
        Validate.check_context_proofs (ss n) (Z.of_nat idx) 90
          (srcContext t) (theoremStatement t) (Gen.candidates g) = Raise e) ->
     Validate.check_context_proofs (ss k) (Z.of_nat idx) 90
       (srcContext t) (theoremStatement t) (Gen.candidates g) = Ok (idx', o) ->
     Revalidate.revalidate_task 5 ss idx t g
     = Some (Validate.record_of idx' o, S k)) /\
  (length tasks = length generations ->
   (forall n, (n < 3)%nat -> exists e,
      Validate.check_context_proofs (world idx n) (Z.of_nat idx) 10
        (srcContext t) (theoremStatement t) (Gen.candidates g) = Raise e) ->
   Validate.validate_task 3 (world idx) idx t g
   = Some (Validate.all_none (Z.of_nat idx), 3%nat) /\
   exists rs,
     Validate.validate 3 world tasks generations = Some (Ok rs) /\
     length rs = length tasks /\
     rs !! idx = Some (Validate.all_none (Z.of_nat idx))) /\
  ((length validations <= length tasks)%nat ->
   (length validations <= length generations)%nat ->
   In idx (Revalidate.select 0 validations []) ->
   (forall n, (n < 5)%nat -> exists e,
      Validate.check_context_proofs (world idx n) (Z.of_nat idx) 90
        (srcContext t) (theoremStatement t) (Gen.candidates g) = Raise e) ->
   Revalidate.revalidate_task 5 (world idx) idx t g
   = Some (Validate.all_none (Z.of_nat idx), 5%nat) /\
   exists vs,
     Revalidate.revalidate_file 5 world tasks generations validations
     = Some (Ok vs) /\
     length vs = length validations /\
     vs !! idx = Some (Validate.all_none (Z.of_nat idx))) /\
  (length tasks = length generations ->
   exists rs r n,
     Validate.validate 3 world tasks generations = Some (Ok rs) /\
     Validate.validate_task 3 (world idx) idx t g = Some (r, n) /\
     rs !! idx = Some r) /\
  ((length validations <= length tasks)%nat ->
   (length validations <= length generations)%nat ->
   In idx (Revalidate.select 0 validations []) ->
   exists vs r n,
     Revalidate.revalidate_file 5 world tasks generations validations
     = Some (Ok vs) /\
     Revalidate.revalidate_task 5 (world idx) idx t g = Some (r, n) /\
     vs !! idx = Some r).
Proof.
  intros Ht Hg.
  assert (Hfirst_run : length tasks = length generations ->
            exists rs r n,
              Validate.validate 3 world tasks generations = Some (Ok rs) /\
              length rs = length tasks /\
              Validate.validate_task 3 (world idx) idx t g = Some (r, n) /\
              rs !! idx = Some r).
  { intros Hlen. unfold Validate.validate. rewrite Hlen, Nat.eqb_refl.
    destruct (validate_tasks_total world tasks generations
                (seq 0 (length generations)) [])
      as (rs & Hrs & Hlenrs & Hall').
    { intros i Hi. apply in_seq in Hi. lia. }
    rewrite length_seq in Hlenrs.
    assert (Hidx : (idx < length generations)%nat)
      by (apply lookup_lt_Some in Hg; exact Hg).
    destruct (Hall' idx idx) as (t' & g' & r & n & Ht' & Hg' & Hr & Hl).
    { apply lookup_seq. split; [reflexivity|exact Hidx]. }
    rewrite Ht in Ht'. rewrite Hg in Hg'.
    injection Ht' as <-. injection Hg' as <-.
    exists rs, r, n. split; [exact Hrs|]. split; [lia|].
    split; [exact Hr|exact Hl]. }
  assert (Hrepair_run : (length validations <= length tasks)%nat ->
            (length validations <= length generations)%nat ->
            In idx (Revalidate.select 0 validations []) ->
            exists vs r n,
              Revalidate.revalidate_file 5 world tasks generations validations
              = Some (Ok vs) /\
              length vs = length validations /\
              Revalidate.revalidate_task 5 (world idx) idx t g = Some (r, n) /\
              vs !! idx = Some r).
  { intros Hlt Hlg Hsel. unfold Revalidate.revalidate_file.
    destruct (repair_spec world tasks generations
                (Revalidate.select 0 validations []) validations)
      as (vs & Hvs & Hlenvs & _ & Hin).
    { intros i Hi. apply select_In in Hi as [[]|(j & r & -> & Hj & _)].
      apply lookup_lt_Some in Hj. cbn. lia. }
    destruct (Hin idx Hsel) as (t' & g' & r & n & Ht' & Hg' & Hr & Hl).
    rewrite Ht in Ht'. rewrite Hg in Hg'.
    injection Ht' as <-. injection Hg' as <-.
    exists vs, r, n. split; [exact Hvs|]. split; [exact Hlenvs|].
    split; [exact Hr|exact Hl]. }
  split; [|split; [|split; [|split; [|split; [|split; [|split]]]]]].
  7:{ intros Hlen.
      destruct (Hfirst_run Hlen) as (rs & r & n & Hrs & _ & Hr & Hl).
      exists rs, r, n. auto. }
  7:{ intros Hlt Hlg Hsel.
      destruct (Hrepair_run Hlt Hlg Hsel) as (vs & r & n & Hvs & _ & Hr & Hl).
      exists vs, r, n. auto. }
  3:{ intros ss k idx' o Hk Hraise Hok. unfold Validate.validate_task.
      apply (retry_loop_until_success _ _ _ _ _ k 3 0);
        [unfold Validate.max_tries; lia|lia| |exact Hok].
      intros m Hm. apply Hraise. lia. }
  3:{ intros ss k idx' o Hk Hraise Hok. unfold Revalidate.revalidate_task.
      apply (retry_loop_until_success _ _ _ _ _ k 5 0);
        [unfold Revalidate.max_tries; lia|lia| |exact Hok].
      intros m Hm. apply Hraise. lia. }
  - intros ss. unfold Validate.validate_task.
    destruct (retry_loop_total Validate.max_tries
                (fun n => Validate.check_context_proofs (ss n) (Z.of_nat idx)
                            Validate.timeout_per_proof (srcContext t)
                            (theoremStatement t) (Gen.candidates g))
                3%nat (Validate.all_none (Z.of_nat idx)) 0%nat)
      as (r & n & Hr & Hn);
      [unfold Validate.max_tries, Revalidate.max_tries; lia|].
    exists r, n. split; [exact Hr|].
    unfold Validate.max_tries, Revalidate.max_tries in Hn. lia.
  - intros ss. unfold Revalidate.revalidate_task.
    destruct (retry_loop_total Revalidate.max_tries
                (fun n => Validate.check_context_proofs (ss n) (Z.of_nat idx)
                            Revalidate.timeout_per_proof (srcContext t)
                            (theoremStatement t) (Gen.candidates g))
                5%nat (Validate.all_none (Z.of_nat idx)) 0%nat)
      as (r & n & Hr & Hn);
      [unfold Validate.max_tries, Revalidate.max_tries; lia|].
    exists r, n. split; [exact Hr|].
    unfold Validate.max_tries, Revalidate.max_tries in Hn. lia.
  - intros Hlen Hall.
    assert (Hloop : Validate.validate_task 3 (world idx) idx t g
                    = Some (Validate.all_none (Z.of_nat idx), 3%nat)).
    { unfold Validate.validate_task.
      rewrite retry_loop_all_raise;
        [reflexivity|unfold Validate.max_tries, Revalidate.max_tries; lia|].
      intros m Hm. apply Hall. unfold Validate.max_tries in Hm. lia. }
    split; [exact Hloop|].
    destruct (Hfirst_run Hlen) as (rs & r & n & Hrs & Hlenrs & Hr & Hl).
    exists rs. split; [exact Hrs|]. split; [exact Hlenrs|].
    rewrite Hloop in Hr. injection Hr as <- _. exact Hl.
  - intros Hlt Hlg Hsel Hall.
    assert (Hloop : Revalidate.revalidate_task 5 (world idx) idx t g
                    = Some (Validate.all_none (Z.of_nat idx), 5%nat)).
    { unfold Revalidate.revalidate_task.
      rewrite retry_loop_all_raise;
        [reflexivity|unfold Validate.max_tries, Revalidate.max_tries; lia|].
      intros m Hm. apply Hall. unfold Revalidate.max_tries in Hm. lia. }
    split; [exact Hloop|].
    destruct (Hrepair_run Hlt Hlg Hsel) as (vs & r & n & Hvs & Hlenvs & Hr & Hl).
    exists vs. split; [exact Hvs|]. split; [exact Hlenvs|].
    rewrite Hloop in Hr. injection Hr as <- _. exact Hl.
Qed.

Lemma retry_exhausted_persists_all_none_witness :
  Validate.validate 3 (fun _ _ => CheckSamples.crashed)
    [CheckSamples.sample_task] [CheckSamples.sample_generation]
  = Some (Ok [Validate.all_none 0]) /\
  Validate.validate_task 3 (fun _ => CheckSamples.crashed) 0
    CheckSamples.sample_task CheckSamples.sample_generation
  = Some (Validate.all_none 0, 3%nat) /\
  Revalidate.revalidate_task 5 (fun _ => CheckSamples.crashed) 0
    CheckSamples.sample_task CheckSamples.sample_generation
  = Some (Validate.all_none 0, 5%nat) /\
  Revalidate.revalidate_task 5 CheckSamples2.recovers 0
    CheckSamples.sample_task CheckSamples.sample_generation
  = Some (Validate.record_of 0
            {| Validate.correctness := [Some true; None];
               Validate.error_messages := [None; None];
               Validate.error_positions := [None; None];
               Validate.compiled_line_counts := [Some 1; None] |}, 2%nat).
Proof.
  destruct (retry_exhausted_persists_all_none
              (fun _ _ => CheckSamples.crashed)
              [CheckSamples.sample_task] [CheckSamples.sample_generation]
              [Validate.all_none 0] 0 CheckSamples.sample_task
              CheckSamples.sample_generation eq_refl eq_refl)
    as (_ & _ & _ & Hretry & Hfirst & Hrepair & _).
  split; [reflexivity|]. split; [|split].
  - apply Hfirst; [reflexivity|]. intros n _. exists RuntimeError. reflexivity.
  - apply Hrepair; [cbn; lia | cbn; lia | cbn; tauto |].
    intros n _. exists RuntimeError. reflexivity.
  - apply (Hretry CheckSamples2.recovers 1%nat); [lia| |reflexivity].
    intros n Hn. assert (n = 0%nat) as -> by lia.
    exists RuntimeError. reflexivity.
Defined.




(** ** [generate] *)

Section GenerateFacts.
Import Generate.

Lemma for_each_length {A B} (f : A -> result B) xs ys :
  Organize.for_each f xs = Ok ys -> length ys = length xs.
Proof.
  intros H. apply for_each_Forall2, Forall2_length in H. now symmetry.
Qed.

Lemma batch_length p n bs i :
  length (batch p n bs i) = count (Z.min bs (n - i)).
Proof.
  unfold batch. destruct (try_batch p i _) as [slots|e] eqn:Htry.
  - unfold try_batch in Htry. destruct (gather_raises p i); [discriminate|].
    apply for_each_length in Htry. now rewrite length_seq in Htry.
  - apply length_replicate.
Qed.

Lemma batch_raised p n bs i e j :
  try_batch p i (Z.min bs (n - i)) = Raise e ->
  (j < count (Z.min bs (n - i)))%nat ->
  batch p n bs i !! j = Some empty_slot.
Proof.
  intros Htry Hj. unfold batch. rewrite Htry.
  now apply lookup_replicate_2.
Qed.

Lemma batch_returned p n bs i slots j :
  try_batch p i (Z.min bs (n - i)) = Ok slots ->
  (j < count (Z.min bs (n - i)))%nat ->
  exists s, classify (gather p i j) = Ok s /\ batch p n bs i !! j = Some s.
Proof.
  intros Htry Hj. unfold batch. rewrite Htry.
  unfold try_batch in Htry. destruct (gather_raises p i); [discriminate|].
  apply for_each_Forall2 in Htry.
  destruct (Forall2_lookup_l _ _ _ j j Htry) as (s & Hs & Hc).
  { apply lookup_seq. split; [reflexivity|exact Hj]. }
  exists s. split; [exact Hc|exact Hs].
Qed.

Lemma fold_extend p n bs starts : forall acc,
  let slots := flat_map (batch p n bs) starts in
  let out := fold_left (fun acc i => extend acc (batch p n bs i)) starts acc in
  candidates out = candidates acc ++ map slot_candidate slots /\
  durations out = durations acc ++ map slot_duration slots /\
  g_prompt_tokens out = g_prompt_tokens acc ++ map slot_prompt_tokens slots /\
  g_completion_tokens out
  = g_completion_tokens acc ++ map slot_completion_tokens slots /\
  g_total_tokens out = g_total_tokens acc ++ map slot_total_tokens slots.
Proof.
  induction starts as [|i rest IH]; intros acc; cbn [flat_map fold_left].
  - cbn. now rewrite !app_nil_r.
  - cbv zeta in IH |- *.
    destruct (IH (extend acc (batch p n bs i))) as (-> & -> & -> & -> & ->).
    cbn [extend candidates durations g_prompt_tokens g_completion_tokens
         g_total_tokens].
    rewrite !map_app, <- !app_assoc. repeat split.
Qed.

(** The first [m] batches hold [min (m * bs) n] slots. *)
Lemma batches_length p n bs : 0 <= n -> 1 <= bs -> forall m : nat,
  Z.of_nat m * bs < n + bs ->
  Z.of_nat (length (flat_map (batch p n bs)
                      (map (fun j => 0 + Z.of_nat j * bs) (seq 0 m))))
  = Z.min (Z.of_nat m * bs) n.
Proof.
  intros Hn Hbs. induction m as [|m IH]; intros Hm.
  - cbn. lia.
  - rewrite seq_S, map_app, flat_map_app, length_app, Nat2Z.inj_add.
    rewrite IH by lia. cbn [map flat_map Nat.add].
    rewrite app_nil_r, batch_length. unfold count. lia.
Qed.

Lemma range3_batches n bs : 0 <= n -> 1 <= bs ->
  exists m : nat,
    range3 0 n bs = Ok (map (fun j => 0 + Z.of_nat j * bs) (seq 0 m)) /\
    Z.of_nat m * bs < n + bs /\ n <= Z.of_nat m * bs.
Proof.
  intros Hn Hbs. unfold range3.
  destruct (Z.eqb_spec bs 0); [lia|].
  destruct (Z.ltb_spec 0 bs); [|lia].
  destruct (Z.ltb_spec 0 n) as [Hpos|Hzero].
  - exists (Z.to_nat ((n - 0 - 1) / bs + 1)). split; [reflexivity|].
    replace (n - 0 - 1) with (n - 1) by lia.
    pose proof (Z.div_pos (n - 1) bs ltac:(lia) ltac:(lia)).
    pose proof (Z.mul_div_le (n - 1) bs ltac:(lia)).
    pose proof (Z.mul_succ_div_gt (n - 1) bs ltac:(lia)).
    rewrite Z2Nat.id by lia. nia.
  - exists 0%nat. split; [reflexivity|]. lia.
Qed.

End GenerateFacts.

(** C8 (as amended).  In a generation batch, a gathered exception object
    gives an empty candidate with duration 0 and token counts 0; a result
    reporting failure (the dictionary of a completion call that raised, or
    [success] false) gives an empty candidate and token counts 0 and keeps
    the measured duration; a response whose content is [None] gives an
    empty proof text and keeps the duration and, when usage is present,
    its token counts; an exception at batch level makes every slot of the
    batch an empty candidate with zero telemetry; and for
    [n_candidates >= 0] and [batch_size >= 1] the five arrays returned
    have length [n_candidates]. *)
Theorem generate_slots_classified (p : Generate.provider)
    (cfg : Generate.gen_config) :
  let n := Generate.cfg_n_candidates cfg in
  let bs := default 3 (Generate.cfg_batch_size cfg) in
  0 <= n -> 1 <= bs ->
  (forall e, Generate.classify (Generate.GatheredException e)
             = Ok Generate.empty_slot) /\
  (forall response d success,
     success = false \/ (exists e, response = inl e) ->
     Generate.classify (Generate.GatheredDict response d success)
     = Ok {| Generate.slot_candidate := ""; Generate.slot_duration := d;
             Generate.slot_prompt_tokens := 0;
             Generate.slot_completion_tokens := 0;
             Generate.slot_total_tokens := 0 |}) /\
  (forall c d others,
     Generate.choices c = None :: others ->
     Generate.classify (Generate.GatheredDict (inr c) d true)
     = Ok {| Generate.slot_candidate := ""; Generate.slot_duration := d;
             Generate.slot_prompt_tokens :=
               from_option Generate.prompt_tokens 0 (Generate.usage c);
             Generate.slot_completion_tokens :=
               from_option Generate.completion_tokens 0 (Generate.usage c);
             Generate.slot_total_tokens :=
               from_option Generate.total_tokens 0 (Generate.usage c) |}) /\
  (forall i j,
     (j < Generate.count (Z.min bs (n - i)))%nat ->
     match Generate.try_batch p i (Z.min bs (n - i)) with
     | Raise _ => Generate.batch p n bs i !! j = Some Generate.empty_slot
     | Ok _ => exists s, Generate.classify (Generate.gather p i j) = Ok s /\
                         Generate.batch p n bs i !! j = Some s
     end) /\
  exists out,
    Generate.generate p cfg = Ok out /\
    length (Generate.candidates out) = Z.to_nat n /\
    length (Generate.durations out) = Z.to_nat n /\
    length (Generate.g_prompt_tokens out) = Z.to_nat n /\
    length (Generate.g_completion_tokens out) = Z.to_nat n /\
    length (Generate.g_total_tokens out) = Z.to_nat n.
Proof.
  intros n bs Hn Hbs.
  split; [reflexivity|]. split.
  { intros [e|c] d success [-> | [e' He]]; try reflexivity; discriminate. }
  split.
  { intros c d others Hc. cbn. rewrite Hc. cbn.
    now destruct (Generate.usage c). }
  split.
  { intros i j Hj.
    destruct (Generate.try_batch p i (Z.min bs (n - i))) as [slots|e] eqn:Htry.
    - now apply (batch_returned p n bs i slots).
    - now apply (batch_raised p n bs i e). }
  unfold Generate.generate. fold n. fold bs.
  destruct (range3_batches n bs Hn Hbs) as (m & -> & Hlt & Hge).
  cbn [mbind result_mbind result_bind].
  eexists. split; [reflexivity|].
  destruct (fold_extend p n bs (map (fun j => 0 + Z.of_nat j * bs) (seq 0 m))
              Generate.nothing_generated) as (-> & -> & -> & -> & ->).
  cbn [Generate.nothing_generated Generate.candidates Generate.durations
       Generate.g_prompt_tokens Generate.g_completion_tokens
       Generate.g_total_tokens app].
  rewrite !length_map.
  pose proof (batches_length p n bs Hn Hbs m Hlt) as Hlen.
  repeat split; lia.
Qed.

Lemma generate_slots_classified_witness :
  Generate.generate GenerateSamples.flaky GenerateSamples.four
  = Ok {| Generate.candidates := [""; ""; ""; ""];
          Generate.durations := [0%Q; 5%Q; 2%Q; 0%Q];
          Generate.g_prompt_tokens := [0; 0; 4; 0];
          Generate.g_completion_tokens := [0; 0; 3; 0];
          Generate.g_total_tokens := [0; 0; 7; 0] |} /\
  exists out,
    Generate.generate GenerateSamples.flaky GenerateSamples.four = Ok out /\
    length (Generate.candidates out) = 4%nat.
Proof.
  split; [reflexivity|].
  destruct (generate_slots_classified GenerateSamples.flaky GenerateSamples.four
              ltac:(cbn; lia) ltac:(cbn; lia))
    as (_ & _ & _ & _ & out & Hout & Hlen & _).
  exists out. split; [exact Hout|exact Hlen].
Defined.

(** C8, as stated, fails for a reported failure: the slot of a completion
    call that raised after 5 seconds keeps the duration 5. *)
Lemma failed_request_keeps_duration :
  Generate.classify
    (GenerateSamples.timed_completion
       (GenerateSamples.CompletionRaises TimeoutError) 0 5)
  = Ok {| Generate.slot_candidate := ""; Generate.slot_duration := 5;
          Generate.slot_prompt_tokens := 0;
          Generate.slot_completion_tokens := 0;
          Generate.slot_total_tokens := 0 |} /\
  ~ (5 == 0)%Q /\
  exists out,
    Generate.generate GenerateSamples.flaky GenerateSamples.four = Ok out /\
    Generate.candidates out !! 1%nat = Some "" /\
    Generate.durations out !! 1%nat = Some 5%Q.
Proof.
  split; [reflexivity|]. split; [discriminate|].
  eexists. split; [reflexivity|]. split; reflexivity.
Qed.

(** * Further properties *)

(** ** [compute_pass_at_k]: range, zero, clamping *)

Section PassAtKMore.
Import PassAtK.

Lemma binom_le_succ n : forall k, (binom n k <= binom (S n) k)%nat.
Proof.
  intros [|k]; [now rewrite !binom_0_r|]. rewrite binom_S. lia.
Qed.

Lemma binom_mono_n k : forall n m, (m <= n)%nat -> (binom m k <= binom n k)%nat.
Proof.
  induction n as [|n IH]; intros m Hm.
  - now replace m with 0%nat by lia.
  - destruct (Nat.eq_dec m (S n)) as [->|Hne]; [lia|].
    pose proof (IH m ltac:(lia)). pose proof (binom_le_succ n k). lia.
Qed.

Lemma binom_lt_succ n k :
  (1 <= k)%nat -> (k <= S n)%nat -> (binom n k < binom (S n) k)%nat.
Proof.
  intros Hk Hn. destruct k as [|k]; [lia|]. rewrite binom_S.
  pose proof (binom_pos n k ltac:(lia)). lia.
Qed.

(** Fewer incorrect candidates than candidates: strictly fewer draws. *)
Lemma binom_lt_sub n c k :
  (1 <= c)%nat -> (c <= n)%nat -> (1 <= k)%nat -> (k <= n)%nat ->
  (binom (n - c) k < binom n k)%nat.
Proof.
  intros Hc Hcn Hk Hkn. destruct n as [|n]; [lia|].
  pose proof (binom_mono_n k n (S n - c) ltac:(lia)).
  pose proof (binom_lt_succ n k Hk Hkn). lia.
Qed.

Lemma sum_correct_has_correct candidates :
  has_correct_proof candidates
  = negb (length (List.filter marked_correct candidates) =? 0)%nat.
Proof.
  unfold has_correct_proof.
  induction candidates as [|c rest IH]; [reflexivity|].
  cbn [existsb List.filter]. destruct (marked_correct c); [reflexivity|exact IH].
Qed.

(** The value of [compute_pass_at_k] for every list and every integer
    [k], in terms of the two counts. *)
Lemma compute_pass_at_k_value (candidates : list candidate) (k : Z) :
  let n := length candidates in
  let c := length (List.filter marked_correct candidates) in
  let k' := Z.to_nat (Z.min k (Z.of_nat n)) in
  compute_pass_at_k candidates k
  = if (c =? 0)%nat then 0%Q
    else if Z.min k (Z.of_nat n) <=? Z.of_nat c then 1%Q
    else (1 - inject_Z (Z.of_nat (binom (n - c) k'))
            / inject_Z (Z.of_nat (binom n k')))%Q.
Proof.
  intros n c k'.
  destruct (decide (candidates = [])) as [->|Hne]; [reflexivity|].
  rewrite (compute_pass_at_k_nonempty candidates k Hne). cbv zeta.
  rewrite sum_correct_filter. fold n c.
  assert (Hcn : (c <= n)%nat) by apply filter_length_le.
  replace (if k >? Z.of_nat n then Z.of_nat n else k)
    with (Z.min k (Z.of_nat n)) by (destruct (Z.gtb_spec k (Z.of_nat n)); lia).
  destruct (Z.eqb_spec (Z.of_nat c) 0), (Nat.eqb_spec c 0); try lia;
    [reflexivity|].
  destruct (Z.geb_spec (Z.of_nat c) (Z.min k (Z.of_nat n))),
           (Z.leb_spec (Z.min k (Z.of_nat n)) (Z.of_nat c));
    try lia; [reflexivity|].
  replace (Z.min k (Z.of_nat n)) with (Z.of_nat k') by (unfold k'; lia).
  destruct (pass_ratio n c k' ltac:(unfold k'; lia)) as [->|?];
    [reflexivity|lia].
Qed.

Lemma ratio_bounds (a b : nat) :
  (a <= b)%nat -> (0 < b)%nat ->
  (0 <= 1 - inject_Z (Z.of_nat a) / inject_Z (Z.of_nat b) <= 1)%Q.
Proof.
  intros Hab Hb.
  assert (H0 : (0 <= inject_Z (Z.of_nat a) / inject_Z (Z.of_nat b))%Q).
  { apply Qle_shift_div_l; [unfold Qlt; cbn; lia|].
    rewrite Qmult_0_l. unfold Qle. cbn. lia. }
  assert (H1 : (inject_Z (Z.of_nat a) / inject_Z (Z.of_nat b) <= 1)%Q).
  { apply Qle_shift_div_r; [unfold Qlt; cbn; lia|].
    rewrite Qmult_1_l. unfold Qle. cbn. lia. }
  split.
  - apply (Qplus_le_r _ _ (inject_Z (Z.of_nat a) / inject_Z (Z.of_nat b))).
    ring_simplify. exact H1.
  - apply (Qplus_le_r _ _ (inject_Z (Z.of_nat a) / inject_Z (Z.of_nat b))).
    ring_simplify.
    apply (Qplus_le_r _ _ (-(1))). ring_simplify. exact H0.
Qed.

Lemma ratio_lt_one (a b : nat) :
  (a < b)%nat ->
  (0 < 1 - inject_Z (Z.of_nat a) / inject_Z (Z.of_nat b))%Q.
Proof.
  intros Hab.
  assert (H1 : (inject_Z (Z.of_nat a) / inject_Z (Z.of_nat b) < 1)%Q).
  { apply Qlt_shift_div_r; [unfold Qlt; cbn; lia|].
    rewrite Qmult_1_l. unfold Qlt. cbn. lia. }
  apply (Qplus_lt_r _ _ (inject_Z (Z.of_nat a) / inject_Z (Z.of_nat b))).
  ring_simplify. exact H1.
Qed.

End PassAtKMore.

Section PassAtKOrder.
Import PassAtK.

(** [(k+1) C(n, k+1) = (n-k) C(n, k)]. *)
Lemma binom_step n : forall k,
  (S k * binom n (S k) = (n - k) * binom n k)%nat.
Proof.
  induction n as [|n IH]; intros k.
  - destruct k; cbn; lia.
  - rewrite binom_S. destruct k as [|j].
    + rewrite !binom_0_r. pose proof (IH 0%nat) as H0.
      rewrite binom_0_r in H0. lia.
    + rewrite binom_S.
      pose proof (IH j) as Hj. pose proof (IH (S j)) as HSj.
      destruct (Nat.le_gt_cases (S j) n) as [Hle|Hgt].
      * replace (S n - S j)%nat with (S (n - S j)) by lia.
        replace (n - j)%nat with (S (n - S j)) in Hj by lia. nia.
      * rewrite (binom_gt n (S j)) in * by lia.
        rewrite (binom_gt n (S (S j))) in * by lia.
        replace (S n - S j)%nat with (n - j)%nat by lia. nia.
Qed.

Lemma binom_ratio_step m n k :
  (m <= n)%nat ->
  (binom m (S k) * binom n k <= binom m k * binom n (S k))%nat.
Proof.
  intros Hmn.
  pose proof (binom_step m k) as Hm. pose proof (binom_step n k) as Hn.
  apply (Nat.mul_le_mono_pos_l _ _ (S k)); [lia|].
  replace (S k * (binom m (S k) * binom n k))%nat
    with ((m - k) * (binom m k * binom n k))%nat by nia.
  replace (S k * (binom m k * binom n (S k)))%nat
    with ((n - k) * (binom m k * binom n k))%nat by nia.
  apply Nat.mul_le_mono_r. lia.
Qed.

(** The ratio [C(m,k)/C(n,k)] does not grow with [k], cross-multiplied. *)
Lemma binom_ratio_mono m n k1 k2 :
  (m <= n)%nat -> (k1 <= k2)%nat -> (k2 <= n)%nat ->
  (binom m k2 * binom n k1 <= binom m k1 * binom n k2)%nat.
Proof.
  intros Hmn Hk. induction Hk as [|k2 Hk IH]; intros Hn; [lia|].
  specialize (IH ltac:(lia)).
  pose proof (binom_ratio_step m n k2 Hmn) as Hstep.
  pose proof (binom_pos n k2 ltac:(lia)) as Hpos.
  apply (Nat.mul_le_mono_pos_l _ _ (binom n k2)); [exact Hpos|].
  transitivity (binom m k2 * binom n (S k2) * binom n k1)%nat; [nia|].
  transitivity (binom m k2 * binom n k1 * binom n (S k2))%nat; [lia|]. nia.
Qed.

Lemma ratio_le (a b c d : nat) :
  (0 < b)%nat -> (0 < d)%nat -> (a * d <= c * b)%nat ->
  (inject_Z (Z.of_nat a) / inject_Z (Z.of_nat b)
   <= inject_Z (Z.of_nat c) / inject_Z (Z.of_nat d))%Q.
Proof.
  intros Hb Hd H.
  apply Qle_shift_div_l; [unfold Qlt; cbn; lia|].
  unfold Qdiv. rewrite <- Qmult_assoc, (Qmult_comm (/ _)), Qmult_assoc.
  apply Qle_shift_div_r; [unfold Qlt; cbn; lia|].
  rewrite <- !inject_Z_mult, <- Zle_Qle. nia.
Qed.

End PassAtKOrder.

(** X1.  For every candidate list and every integer [k], the value of
    [compute_pass_at_k] lies between 0 and 1. *)
Theorem compute_pass_at_k_range (candidates : list candidate) (k : Z) :
  (0 <= PassAtK.compute_pass_at_k candidates k <= 1)%Q.
Proof.
  rewrite compute_pass_at_k_value. cbv zeta.
  set (n := length candidates).
  set (c := length (List.filter PassAtK.marked_correct candidates)).
  assert (Hcn : (c <= n)%nat) by apply filter_length_le.
  destruct (c =? 0)%nat; [split; discriminate|].
  destruct (Z.leb_spec (Z.min k (Z.of_nat n)) (Z.of_nat c));
    [split; discriminate|].
  apply ratio_bounds.
  - apply binom_mono_n. lia.
  - apply binom_pos. lia.
Qed.

(** X2.  For every integer [k], [compute_pass_at_k] is zero exactly when
    [has_correct_proof] is false: one correct candidate is enough for a
    positive value. *)
Theorem compute_pass_at_k_zero_iff (candidates : list candidate) (k : Z) :
  (PassAtK.compute_pass_at_k candidates k == 0)%Q
  <-> PassAtK.has_correct_proof candidates = false.
Proof.
  rewrite compute_pass_at_k_value, sum_correct_has_correct. cbv zeta.
  set (n := length candidates).
  set (c := length (List.filter PassAtK.marked_correct candidates)).
  assert (Hcn : (c <= n)%nat) by apply filter_length_le.
  destruct (Nat.eqb_spec c 0) as [Hc|Hc]; cbn [negb]; [split; reflexivity|].
  split; [|discriminate]. intros H. exfalso.
  destruct (Z.leb_spec (Z.min k (Z.of_nat n)) (Z.of_nat c)) as [Hle|Hgt];
    [discriminate|].
  pose proof (ratio_lt_one
                (PassAtK.binom (n - c) (Z.to_nat (Z.min k (Z.of_nat n))))
                (PassAtK.binom n (Z.to_nat (Z.min k (Z.of_nat n))))) as Hpos.
  rewrite H in Hpos. apply (Qlt_irrefl 0), Hpos.
  apply binom_lt_sub; lia.
Qed.

Lemma compute_pass_at_k_one (candidates : list candidate) :
  PassAtK.compute_pass_at_k candidates 1
  = if PassAtK.has_correct_proof candidates then 1%Q else 0%Q.
Proof.
  rewrite compute_pass_at_k_value, sum_correct_has_correct. cbv zeta.
  destruct (Nat.eqb_spec (length (List.filter PassAtK.marked_correct candidates)) 0)
    as [Hc|Hc]; cbn [negb]; [reflexivity|].
  destruct (Z.leb_spec (Z.min 1 (Z.of_nat (length candidates)))
              (Z.of_nat (length (List.filter PassAtK.marked_correct candidates))));
    [reflexivity|lia].
Qed.

(** X3.  With [k = 1] the function is the indicator of
    [has_correct_proof]: 1 as soon as one candidate is correct, whatever
    the number of candidates, and 0 otherwise. *)
Theorem pass_at_1_is_has_correct_proof (candidates : list candidate) :
  PassAtK.compute_pass_at_k candidates 1
  = if PassAtK.has_correct_proof candidates then 1%Q else 0%Q.
Proof. apply compute_pass_at_k_one. Qed.

(** X4.  When [k] is at least the number of candidates, the value is 1 if
    some candidate is correct and 0 otherwise. *)
Theorem compute_pass_at_k_all_drawn (candidates : list candidate) (k : Z) :
  Z.of_nat (length candidates) <= k ->
  (PassAtK.compute_pass_at_k candidates k
   == if PassAtK.has_correct_proof candidates then 1 else 0)%Q.
Proof.
  intros Hk.
  rewrite compute_pass_at_k_value, sum_correct_has_correct. cbv zeta.
  set (n := length candidates) in *.
  set (c := length (List.filter PassAtK.marked_correct candidates)).
  destruct (Nat.eqb_spec c 0) as [Hc|Hc]; cbn [negb]; [reflexivity|].
  destruct (Z.leb_spec (Z.min k (Z.of_nat n)) (Z.of_nat c)); [reflexivity|].
  replace (Z.to_nat (Z.min k (Z.of_nat n))) with n by lia.
  rewrite (binom_gt (n - c) n) by lia.
  change (inject_Z (Z.of_nat 0)) with 0%Q. unfold Qdiv.
  rewrite Qmult_0_l. reflexivity.
Qed.

Lemma compute_pass_at_k_all_drawn_witness :
  (PassAtK.compute_pass_at_k Samples.one_of_three 7 == 1)%Q.
Proof.
  exact (compute_pass_at_k_all_drawn Samples.one_of_three 7 ltac:(cbn; lia)).
Defined.

(** X5.  Above the number of correct candidates the value does not
    decrease with [k]: for [c < k1 <= k2] the value at [k1] is at most the
    value at [k2]. *)
Theorem compute_pass_at_k_monotone_above_correct
    (candidates : list candidate) (k1 k2 : Z) :
  Z.of_nat (length (List.filter PassAtK.marked_correct candidates)) < k1 ->
  k1 <= k2 ->
  (PassAtK.compute_pass_at_k candidates k1
   <= PassAtK.compute_pass_at_k candidates k2)%Q.
Proof.
  intros Hc Hk. rewrite !compute_pass_at_k_value. cbv zeta.
  set (n := length candidates) in *.
  set (c := length (List.filter PassAtK.marked_correct candidates)) in *.
  assert (Hcn : (c <= n)%nat) by apply filter_length_le.
  destruct (c =? 0)%nat; [apply Qle_refl|].
  destruct (Z.leb_spec (Z.min k1 (Z.of_nat n)) (Z.of_nat c)) as [H1|H1],
           (Z.leb_spec (Z.min k2 (Z.of_nat n)) (Z.of_nat c)) as [H2|H2];
    try lia; [apply Qle_refl|].
  set (j1 := Z.to_nat (Z.min k1 (Z.of_nat n))).
  set (j2 := Z.to_nat (Z.min k2 (Z.of_nat n))).
  assert (Hj : (j1 <= j2)%nat /\ (j2 <= n)%nat) by (unfold j1, j2; lia).
  apply Qplus_le_r, Qopp_le_compat, ratio_le.
  - apply binom_pos. lia.
  - apply binom_pos. lia.
  - apply binom_ratio_mono; lia.
Qed.

Lemma compute_pass_at_k_monotone_above_correct_witness :
  (PassAtK.compute_pass_at_k Samples.one_of_six 2
   <= PassAtK.compute_pass_at_k Samples.one_of_six 5)%Q.
Proof.
  exact (compute_pass_at_k_monotone_above_correct Samples.one_of_six 2 5
           ltac:(cbn; lia) ltac:(lia)).
Defined.

(** ** [analyze_results] *)

Section AnalyzeFacts.
Import Analyze.

Lemma sum_Q_pass_at_1 (group : list theorem_result) : forall acc : Q,
  (fold_left Qplus
     (map (fun r => PassAtK.compute_pass_at_k (candidates r) 1) group) acc
   == acc + inject_Z (count_correct group))%Q.
Proof.
  unfold count_correct.
  induction group as [|r rest IH]; intros acc; cbn [map fold_left List.filter].
  - cbn. ring.
  - rewrite IH, compute_pass_at_k_one.
    destruct (PassAtK.has_correct_proof (candidates r)).
    + cbn [length]. rewrite Nat2Z.inj_succ, <- Z.add_1_l, inject_Z_plus.
      change (inject_Z 1) with 1%Q. ring.
    + ring.
Qed.

Lemma group_metrics_row model_name gt gn group m :
  In m (group_metrics model_name gt gn group) ->
  group <> [] /\
  total_theorems m = Z.of_nat (length group) /\
  theorems_with_correct_proof m = count_correct group /\
  (pass_at_1 m * 100 == percentage_with_correct_proof m)%Q.
Proof.
  destruct group as [|r rest]; [intros []|].
  intros [<-|[]]. split; [discriminate|]. split; [reflexivity|].
  split; [reflexivity|].
  cbn [pass_at_1 percentage_with_correct_proof]. unfold sum_Q.
  rewrite sum_Q_pass_at_1. rewrite Qplus_0_l. reflexivity.
Qed.

Lemma group_metrics_total model_name gt gn group :
  sum_totals (group_metrics model_name gt gn group) = Z.of_nat (length group).
Proof.
  destruct group; cbn [group_metrics sum_totals fold_right total_theorems];
    [reflexivity | lia].
Qed.

Lemma sum_totals_app rows rows' :
  sum_totals (rows ++ rows') = sum_totals rows + sum_totals rows'.
Proof.
  induction rows as [|m rows IH]; [reflexivity|].
  change (sum_totals ((m :: rows) ++ rows'))
    with (total_theorems m + sum_totals (rows ++ rows')).
  change (sum_totals (m :: rows)) with (total_theorems m + sum_totals rows).
  lia.
Qed.

(** The number of results held by a grouping. *)
Lemma add_to_group_size r groups :
  length (concat (map snd (add_to_group r groups)))
  = S (length (concat (map snd groups))).
Proof.
  induction groups as [|[c g] rest IH]; cbn [add_to_group]; [reflexivity|].
  destruct (String.eqb c (category r)); cbn [map snd concat].
  - rewrite !length_app. cbn. lia.
  - rewrite !length_app, IH. lia.
Qed.

Lemma by_category_size results : forall groups,
  length (concat (map snd
            (fold_left (fun groups r => add_to_group r groups) results groups)))
  = (length (concat (map snd groups)) + length results)%nat.
Proof.
  induction results as [|r rest IH]; intros groups; cbn [fold_left length];
    [lia|].
  rewrite IH, add_to_group_size. lia.
Qed.

Lemma category_rows_total model_name groups :
  sum_totals (flat_map (fun cg : string * list theorem_result =>
                          group_metrics model_name "category" cg.1 cg.2) groups)
  = Z.of_nat (length (concat (map snd groups))).
Proof.
  induction groups as [|[c g] rest IH]; [reflexivity|].
  cbn [flat_map map snd concat]. rewrite sum_totals_app, IH, group_metrics_total.
  rewrite length_app. cbn. lia.
Qed.

Lemma filter_partition_length {A} (f : A -> bool) (l : list A) :
  (length (List.filter f l) + length (List.filter (fun x => negb (f x)) l)
   = length l)%nat.
Proof.
  induction l as [|x l IH]; [reflexivity|].
  cbn [List.filter]. destruct (f x); cbn; lia.
Qed.

End AnalyzeFacts.

Section GroupingFacts.
Import Analyze.

Lemma add_to_group_keys r groups x :
  In x (map fst (add_to_group r groups))
  <-> In x (map fst groups) \/ x = category r.
Proof.
  induction groups as [|[c g] rest IH]; cbn [add_to_group].
  - cbn. intuition congruence.
  - destruct (String.eqb_spec c (category r)) as [->|Hne]; cbn [map fst In].
    + intuition congruence.
    + rewrite IH. intuition congruence.
Qed.

Lemma add_to_group_NoDup r groups :
  NoDup (map fst groups) -> NoDup (map fst (add_to_group r groups)).
Proof.
  induction groups as [|[c g] rest IH]; cbn [add_to_group]; intros Hnd.
  - cbn. apply NoDup_cons. split; [apply not_elem_of_nil | constructor].
  - cbn [map fst] in Hnd. apply NoDup_cons in Hnd as [Hc Hrest].
    destruct (String.eqb_spec c (category r)) as [->|Hne]; cbn [map fst].
    + apply NoDup_cons. split; assumption.
    + apply NoDup_cons. split; [|now apply IH].
      rewrite list_elem_of_In, add_to_group_keys.
      rewrite list_elem_of_In in Hc. intuition congruence.
Qed.

(** Where an entry of the new grouping comes from. *)
Lemma add_to_group_In r groups c g' :
  NoDup (map fst groups) ->
  In (c, g') (add_to_group r groups) ->
  (c <> category r /\ In (c, g') groups) \/
  (c = category r /\
   ((exists g, In (c, g) groups /\ g' = g ++ [r]) \/
    (~ In c (map fst groups) /\ g' = [r]))).
Proof.
  induction groups as [|[c0 g0] rest IH]; cbn [add_to_group]; intros Hnd Hin.
  - destruct Hin as [[= <- <-]|[]]. right. split; [reflexivity|]. right.
    split; [intros []|reflexivity].
  - cbn [map fst] in Hnd. apply NoDup_cons in Hnd as [Hc0 Hrest].
    rewrite list_elem_of_In in Hc0.
    destruct (String.eqb_spec c0 (category r)) as [Heq|Hne].
    + destruct Hin as [[= <- <-]|Hin].
      * right. split; [exact Heq|]. left. exists g0. split; [now left|reflexivity].
      * left. split; [|now right]. intros ->. apply Hc0.
        rewrite Heq. change (category r) with (fst (category r, g')).
        now apply in_map.
    + destruct Hin as [[= <- <-]|Hin].
      * left. split; [exact Hne|now left].
      * destruct (IH Hrest Hin) as [[Hc Hin']|[-> [(g & Hg & ->)|[Hnk ->]]]].
        -- left. split; [exact Hc|now right].
        -- right. split; [reflexivity|]. left. exists g. split; [now right|reflexivity].
        -- right. split; [reflexivity|]. right. split; [|reflexivity].
           cbn [map fst In]. intuition congruence.
Qed.

Lemma add_to_group_grouped r groups l :
  grouped groups l -> grouped (add_to_group r groups) (l ++ [r]).
Proof.
  intros (Hnd & Hgroups & Hcover). split; [|split].
  - now apply add_to_group_NoDup.
  - intros c g' Hin. rewrite List.filter_app. cbn [List.filter].
    destruct (add_to_group_In r groups c g' Hnd Hin)
      as [[Hc Hin']|[-> [(g & Hg & ->)|[Hnk ->]]]].
    + destruct (Hgroups c g' Hin') as [-> Hne].
      destruct (String.eqb_spec c (category r)); [contradiction|].
      rewrite app_nil_r. split; [reflexivity|exact Hne].
    + destruct (Hgroups _ g Hg) as [-> Hne].
      rewrite String.eqb_refl. split; [reflexivity|].
      intros H. apply app_eq_nil in H as [_ H]. discriminate.
    + rewrite String.eqb_refl.
      assert (Hnone : List.filter
                        (fun r0 => String.eqb (category r) (category r0)) l = []).
      { destruct (List.filter _ l) as [|r0 rest] eqn:Hf; [reflexivity|].
        exfalso. assert (Hr0 : In r0 (List.filter
                     (fun r0 => String.eqb (category r) (category r0)) l))
          by (rewrite Hf; now left).
        apply List.filter_In in Hr0 as [Hr0 Hcat].
        apply String.eqb_eq in Hcat. apply Hnk. rewrite Hcat.
        now apply Hcover. }
      rewrite Hnone. split; [reflexivity|discriminate].
  - intros r0 Hr0. apply add_to_group_keys.
    apply in_app_or in Hr0 as [Hr0|[<-|[]]]; [left; now apply Hcover|now right].
Qed.

Lemma fold_add_to_group_grouped results : forall groups l,
  grouped groups l ->
  grouped (fold_left (fun groups r => add_to_group r groups) results groups)
          (l ++ results).
Proof.
  induction results as [|r rest IH]; intros groups l H; cbn [fold_left].
  - now rewrite app_nil_r.
  - replace (l ++ r :: rest) with ((l ++ [r]) ++ rest)
      by now rewrite <- app_assoc.
    apply IH, add_to_group_grouped, H.
Qed.

Lemma by_category_grouped results : grouped (by_category results) results.
Proof.
  apply (fold_add_to_group_grouped results [] []).
  split; [constructor|]. split; [intros c g []|intros r []].
Qed.

End GroupingFacts.

(** X6.  In every row [analyze_results] produces, whatever its group, the
    column [pass_at_1] times 100 equals the column
    [percentage_with_correct_proof]: pass@1 as computed is the share of
    theorems with at least one correct proof. *)
Theorem pass_at_1_column_is_percentage
    (results : list Analyze.theorem_result) (model_name : string)
    (m : Analyze.metrics) :
  In m (Analyze.analyze_results results model_name) ->
  (Analyze.pass_at_1 m * 100 == Analyze.percentage_with_correct_proof m)%Q.
Proof.
  unfold Analyze.analyze_results, Analyze.all_rows, Analyze.category_rows,
    Analyze.brute_force_rows.
  intros Hin.
  repeat (apply in_app_or in Hin as [Hin|Hin]).
  - now apply group_metrics_row in Hin.
  - apply in_flat_map in Hin as ([c g] & _ & Hin).
    now apply group_metrics_row in Hin.
  - now apply group_metrics_row in Hin.
  - now apply group_metrics_row in Hin.
Qed.

Lemma pass_at_1_column_is_percentage_witness :
  (Analyze.pass_at_1 AnalyzeSamples.first_row * 100
   == Analyze.percentage_with_correct_proof AnalyzeSamples.first_row)%Q.
Proof.
  apply (pass_at_1_column_is_percentage AnalyzeSamples.results "gpt-4o").
  left. reflexivity.
Defined.

Section CategoryRows.
Import Analyze.

Lemma category_rows_names model_name groups :
  (forall c g, In (c, g) groups -> g <> []) ->
  map group_name
    (flat_map (fun cg : string * list theorem_result =>
                 group_metrics model_name "category" cg.1 cg.2) groups)
  = map fst groups.
Proof.
  induction groups as [|[c g] rest IH]; intros Hne; [reflexivity|].
  cbn [flat_map map fst]. rewrite map_app, IH.
  - destruct g as [|r g]; [now destruct (Hne c [] (or_introl eq_refl))|].
    reflexivity.
  - intros c' g' Hin. apply (Hne c' g'). now right.
Qed.

Lemma category_rows_In results model_name m :
  In m (category_rows results model_name) ->
  exists g, In (group_name m, g) (by_category results) /\
            total_theorems m = Z.of_nat (length g) /\
            theorems_with_correct_proof m = count_correct g.
Proof.
  unfold category_rows. intros Hin.
  apply in_flat_map in Hin as ([c g] & Hg & Hin). cbn [fst snd] in Hin.
  pose proof (group_metrics_row _ _ _ _ _ Hin) as (_ & Ht & Hc & _).
  assert (Hname : group_name m = c).
  { destruct g; [destruct Hin|]. destruct Hin as [<-|[]]. reflexivity. }
  exists g. rewrite Hname. repeat split; assumption.
Qed.

End CategoryRows.

(** X7.  The per-category rows of [analyze_results] partition the results:
    the row names are pairwise distinct, every result's category has a
    row, the row named [c] counts exactly the results whose category is
    [c] (and, among them, those with a correct proof), and the totals of
    the rows add up to the number of results. *)
Theorem category_rows_partition
    (results : list Analyze.theorem_result) (model_name : string) :
  let rows := Analyze.category_rows results model_name in
  let of_category c :=
    List.filter (fun r => String.eqb c (Analyze.category r)) results in
  NoDup (map Analyze.group_name rows) /\
  (forall r, In r results ->
     exists m, In m rows /\ Analyze.group_name m = Analyze.category r) /\
  (forall m, In m rows ->
     0 < Analyze.total_theorems m /\
     Analyze.total_theorems m
     = Z.of_nat (length (of_category (Analyze.group_name m))) /\
     Analyze.theorems_with_correct_proof m
     = Analyze.count_correct (of_category (Analyze.group_name m))) /\
  Analyze.sum_totals rows = Z.of_nat (length results).
Proof.
  intros rows of_category.
  destruct (by_category_grouped results) as (Hnd & Hgroups & Hcover).
  assert (Hnames : map Analyze.group_name rows
                   = map fst (Analyze.by_category results)).
  { apply category_rows_names. intros c g Hin. now apply (Hgroups c g). }
  split; [now rewrite Hnames|]. split.
  { intros r Hr. specialize (Hcover r Hr). rewrite <- Hnames in Hcover.
    apply in_map_iff in Hcover as (m & Hm & Hin). eauto. }
  split.
  { intros m Hm. apply category_rows_In in Hm as (g & Hg & Ht & Hc).
    destruct (Hgroups _ g Hg) as [Heq Hne]. unfold of_category.
    rewrite <- Heq. split; [|split; assumption].
    rewrite Ht. destruct g; [contradiction|]. cbn [length]. lia. }
  unfold rows, Analyze.category_rows.
  rewrite category_rows_total. unfold Analyze.by_category.
  now rewrite by_category_size.
Qed.

(** X8.  The two brute-force rows of [analyze_results] split the results
    by their flag: their totals add up to the number of results, and a row
    exists for a flag value exactly when some result carries it. *)
Theorem brute_force_rows_partition
    (results : list Analyze.theorem_result) (model_name : string) :
  Analyze.sum_totals (Analyze.brute_force_rows results model_name)
  = Z.of_nat (length results) /\
  (forall m, In m (Analyze.brute_force_rows results model_name) ->
     (Analyze.group_name m = "true" /\
      Analyze.total_theorems m
      = Z.of_nat (length (List.filter Analyze.brute_force results))) \/
     (Analyze.group_name m = "false" /\
      Analyze.total_theorems m
      = Z.of_nat (length (List.filter
                            (fun r => negb (Analyze.brute_force r)) results)))) /\
  ((exists m, In m (Analyze.brute_force_rows results model_name) /\
              Analyze.group_name m = "true")
   <-> exists r, In r results /\ Analyze.brute_force r = true).
Proof.
  unfold Analyze.brute_force_rows. split; [|split].
  - rewrite sum_totals_app, !group_metrics_total.
    pose proof (filter_partition_length Analyze.brute_force results). lia.
  - intros m Hm. apply in_app_or in Hm as [Hm|Hm].
    + left. destruct (List.filter _ results) as [|r g]; [destruct Hm|].
      destruct Hm as [<-|[]]. split; reflexivity.
    + right. destruct (List.filter _ results) as [|r g]; [destruct Hm|].
      destruct Hm as [<-|[]]. split; reflexivity.
  - split.
    + intros (m & Hm & Hname). apply in_app_or in Hm as [Hm|Hm].
      * destruct (List.filter Analyze.brute_force results) as [|r g] eqn:Hf;
          [destruct Hm|].
        assert (Hr : In r (List.filter Analyze.brute_force results))
          by (rewrite Hf; now left).
        apply List.filter_In in Hr. eauto.
      * destruct (List.filter _ results) as [|r g]; [destruct Hm|].
        destruct Hm as [<-|[]]. discriminate.
    + intros (r & Hr & Hbf).
      assert (Hin : In r (List.filter Analyze.brute_force results))
        by (apply List.filter_In; auto).
      destruct (List.filter Analyze.brute_force results) as [|r0 g];
        [destruct Hin|].
      eexists. split; [apply in_or_app; left; left; reflexivity|reflexivity].
Qed.

(** ** The longest correct proof of a theorem *)

Section ScanFacts.
Import FindLongest.

Lemma scan_step_found l st x :
  Scan.found l st -> Scan.found (l ++ [x]) (scan_step st x).
Proof.
  intros Hst. unfold scan_step. fold (PassAtK.marked_correct x).
  destruct (PassAtK.marked_correct x) eqn:Hx.
  - destruct (Nat.ltb_spec (longest_proof_length st) (String.length (proof x)))
      as [Hlt|Hge].
    + right. exists (length l), x. cbn.
      split; [now rewrite lookup_app_r, Nat.sub_diag by lia|].
      split; [reflexivity|]. split; [reflexivity|]. split; [lia|].
      split; [exact Hx|].
      assert (Hold : forall j c', l !! j = Some c' ->
                PassAtK.marked_correct c' = true ->
                (String.length (proof c') <= longest_proof_length st)%nat).
      { intros j c' Hj Hc'.
        destruct Hst as [(Hlen & _ & Hall)|(i & c & _ & _ & Hlen & _ & _ & Hmax & _)].
        - rewrite Hall; [lia| |exact Hc']. apply list_elem_of_In.
          apply list_elem_of_lookup. eauto.
        - rewrite Hlen. now apply (Hmax j). }
      split.
      * intros j c' Hj Hc'. apply lookup_app_Some in Hj as [Hj|[_ Hj]].
        -- pose proof (Hold j c' Hj Hc'). lia.
        -- destruct (j - length l)%nat; [|discriminate].
           injection Hj as <-. lia.
      * intros j c' Hji Hj Hc'. rewrite lookup_app_l in Hj by lia.
        pose proof (Hold j c' Hj Hc'). lia.
    + destruct Hst as [(Hlen & Hinfo & Hall)|(i & c & Hi & Hinfo & Hlen & Hpos & Hc & Hmax & Hfirst)].
      * left. split; [exact Hlen|]. split; [exact Hinfo|].
        intros c' Hc' Hm. apply in_app_or in Hc' as [Hc'|[<-|[]]];
          [now apply Hall|lia].
      * right. exists i, c.
        split; [apply lookup_app_l_Some; exact Hi|].
        split; [exact Hinfo|]. split; [exact Hlen|]. split; [exact Hpos|].
        split; [exact Hc|]. split.
        -- intros j c' Hj Hc'. apply lookup_app_Some in Hj as [Hj|[_ Hj]].
           ++ now apply (Hmax j).
           ++ destruct (j - length l)%nat; [|discriminate].
              injection Hj as <-. lia.
        -- intros j c' Hji Hj Hc'. apply (Hfirst j c' Hji); [|exact Hc'].
           apply lookup_lt_Some in Hi. now rewrite lookup_app_l in Hj by lia.
  - destruct Hst as [(Hlen & Hinfo & Hall)|(i & c & Hi & Hinfo & Hlen & Hpos & Hc & Hmax & Hfirst)].
    + left. split; [exact Hlen|]. split; [exact Hinfo|].
      intros c' Hc' Hm. apply in_app_or in Hc' as [Hc'|[<-|[]]];
        [now apply Hall|congruence].
    + right. exists i, c.
      split; [apply lookup_app_l_Some; exact Hi|].
      split; [exact Hinfo|]. split; [exact Hlen|]. split; [exact Hpos|].
      split; [exact Hc|]. split.
      * intros j c' Hj Hc'. apply lookup_app_Some in Hj as [Hj|[_ Hj]].
        -- now apply (Hmax j).
        -- destruct (j - length l)%nat; [|discriminate].
           injection Hj as <-. congruence.
      * intros j c' Hji Hj Hc'. apply (Hfirst j c' Hji); [|exact Hc'].
        apply lookup_lt_Some in Hi. now rewrite lookup_app_l in Hj by lia.
Qed.

Lemma scan_found candidates : Scan.found candidates (scan_candidates candidates).
Proof.
  unfold scan_candidates.
  induction candidates as [|x l IH] using rev_ind.
  - left. split; [reflexivity|]. split; [reflexivity|]. intros c [].
  - rewrite fold_left_app. cbn [fold_left]. now apply scan_step_found.
Qed.

End ScanFacts.

(** X9.  The proof selected for a theorem is the first candidate marked
    correct whose proof is longest: no correct candidate has a longer
    proof and every earlier correct candidate has a strictly shorter one.
    No proof is selected exactly when every correct candidate has an empty
    proof text (in particular when none is correct). *)
Theorem longest_correct_is_first_longest (candidates : list candidate) :
  match FindLongest.longest_correct candidates with
  | Some c =>
    exists i,
      candidates !! i = Some c /\
      PassAtK.marked_correct c = true /\
      (0 < String.length (proof c))%nat /\
      (forall j c', candidates !! j = Some c' ->
         PassAtK.marked_correct c' = true ->
         (String.length (proof c') <= String.length (proof c))%nat) /\
      (forall j c', (j < i)%nat -> candidates !! j = Some c' ->
         PassAtK.marked_correct c' = true ->
         (String.length (proof c') < String.length (proof c))%nat)
  | None =>
    forall c, In c candidates -> PassAtK.marked_correct c = true ->
              proof c = ""
  end.
Proof.
  unfold FindLongest.longest_correct.
  destruct (scan_found candidates)
    as [(Hlen & Hinfo & Hall)|(i & c & Hi & Hinfo & Hlen & Hpos & Hc & Hmax & Hfirst)].
  - rewrite Hlen. cbn. intros c Hc Hm. specialize (Hall c Hc Hm).
    now destruct (proof c).
  - rewrite Hlen, Hinfo. destruct (Nat.ltb_spec 0 (String.length (proof c)));
      [|lia].
    exists i. repeat split; assumption.
Qed.

(** ** [combine_files]: indexing and merging *)

Section IndexFacts.
Import Organize.
Context {R : Type} (statement_idx : R -> Z).

Let ins (d : gmap Z R) (r : R) : gmap Z R := <[statement_idx r := r]> d.

Lemma index_results_flat (data : list (line R)) : forall acc,
  fold_left
    (fun d item =>
       match line_results item with
       | Some rs => fold_left (fun d result => <[statement_idx result := result]> d) rs d
       | None => d
       end) data acc
  = fold_left ins (Lines.all_results data) acc.
Proof.
  induction data as [|item rest IH]; intros acc; [reflexivity|].
  cbn [fold_left]. unfold Lines.all_results. cbn [flat_map].
  rewrite fold_left_app. fold (Lines.all_results rest). rewrite IH.
  now destruct (line_results item).
Qed.

Lemma fold_ins_other (l : list R) k : forall acc,
  (forall r, In r l -> statement_idx r <> k) ->
  fold_left ins l acc !! k = acc !! k.
Proof.
  induction l as [|r l IH]; intros acc Hall; [reflexivity|].
  cbn [fold_left]. rewrite IH by (intros r' Hr'; apply Hall; now right).
  unfold ins. apply lookup_insert_ne. apply Hall. now left.
Qed.

Lemma fold_ins_last (pre post : list R) r acc :
  (forall r', In r' post -> statement_idx r' <> statement_idx r) ->
  fold_left ins (pre ++ r :: post) acc !! statement_idx r = Some r.
Proof.
  intros Hpost. rewrite fold_left_app. cbn [fold_left].
  rewrite fold_ins_other by exact Hpost. unfold ins at 2.
  apply lookup_insert_eq.
Qed.

End IndexFacts.

(** X10.  The dictionary built from a results file maps a statement index
    to the last record of the file that carries it, and holds no other
    key: an index carried by no record is absent. *)
Theorem index_results_last_wins {R : Type} (statement_idx : R -> Z)
    (data : list (Organize.line R)) :
  (forall k, (forall r, In r (Lines.all_results data) -> statement_idx r <> k) ->
     Organize.index_results statement_idx data !! k = None) /\
  (forall pre r post,
     Lines.all_results data = pre ++ r :: post ->
     (forall r', In r' post -> statement_idx r' <> statement_idx r) ->
     Organize.index_results statement_idx data !! statement_idx r = Some r).
Proof.
  unfold Organize.index_results. rewrite index_results_flat. split.
  - intros k Hk. now rewrite fold_ins_other.
  - intros pre r post -> Hpost. now apply fold_ins_last.
Qed.

Section MergeFacts.
Import Organize.

Lemma merge_problems_Ok gr vr problems : forall start acc rs,
  merge_problems gr vr start problems acc = Ok rs ->
  (forall name, is_Some (acc !! name) -> is_Some (rs !! name)) /\
  (forall i problem g v,
     problems !! i = Some problem ->
     gr !! Z.of_nat (start + i) = Some g ->
     vr !! Z.of_nat (start + i) = Some v ->
     is_Some (rs !! theoremName problem)) /\
  (forall name e, rs !! name = Some e ->
     acc !! name = Some e \/
     exists i problem g v,
       problems !! i = Some problem /\
       gr !! Z.of_nat (start + i) = Some g /\
       vr !! Z.of_nat (start + i) = Some v /\
       theoremName problem = name /\
       entry_theoremName e = name /\
       entry_theoremStatement e = theoremStatement problem /\
       merge_candidates g v = Ok (entry_candidates e)).
Proof.
  induction problems as [|p rest IH]; intros start acc rs H;
    cbn [merge_problems] in H.
  - injection H as <-. split; [auto|]. split; [intros i ? ? ? Hi; discriminate|].
    intros name e He. now left.
  - destruct (merge_problem gr vr acc start p) as [acc'|] eqn:Hp; cbn in H;
      [|discriminate].
    destruct (IH _ _ _ H) as (Hkeep & Hpresent & Horigin).
    unfold merge_problem in Hp.
    destruct (gr !! Z.of_nat start) as [g0|] eqn:Hg0.
    2:{ injection Hp as <-. split; [exact Hkeep|]. split.
        - intros [|i] problem g v Hi Hg Hv; cbn in Hi.
          + rewrite Nat.add_0_r in Hg. congruence.
          + apply (Hpresent i problem g v Hi);
              now replace (S start + i)%nat with (start + S i)%nat by lia.
        - intros name e He. destruct (Horigin name e He)
            as [Hacc|(i & problem & g & v & Hi & Hg & Hv & Hrest)];
            [now left|right].
          exists (S i), problem, g, v. split; [exact Hi|].
          now replace (start + S i)%nat with (S start + i)%nat by lia. }
    destruct (vr !! Z.of_nat start) as [v0|] eqn:Hv0.
    2:{ injection Hp as <-. split; [exact Hkeep|]. split.
        - intros [|i] problem g v Hi Hg Hv; cbn in Hi.
          + rewrite Nat.add_0_r in Hv. congruence.
          + apply (Hpresent i problem g v Hi);
              now replace (S start + i)%nat with (start + S i)%nat by lia.
        - intros name e He. destruct (Horigin name e He)
            as [Hacc|(i & problem & g & v & Hi & Hg & Hv & Hrest)];
            [now left|right].
          exists (S i), problem, g, v. split; [exact Hi|].
          now replace (start + S i)%nat with (S start + i)%nat by lia. }
    destruct (merge_candidates g0 v0) as [cs|] eqn:Hcs; cbn in Hp;
      [|discriminate].
    injection Hp as <-. split; [|split].
    + intros name Hname. apply Hkeep.
      destruct (decide (theoremName p = name)) as [<-|Hne].
      * rewrite lookup_insert_eq. eauto.
      * now rewrite lookup_insert_ne.
    + intros [|i] problem g v Hi Hg Hv; cbn in Hi.
      * injection Hi as <-. apply Hkeep. rewrite lookup_insert_eq. eauto.
      * apply (Hpresent i problem g v Hi);
          now replace (S start + i)%nat with (start + S i)%nat by lia.
    + intros name e He. destruct (Horigin name e He)
        as [Hacc|(i & problem & g & v & Hi & Hg & Hv & Hrest)].
      * destruct (decide (theoremName p = name)) as [<-|Hne].
        -- rewrite lookup_insert_eq in Hacc. injection Hacc as <-.
           right. exists 0%nat, p, g0, v0. rewrite Nat.add_0_r.
           repeat split; assumption.
        -- rewrite lookup_insert_ne in Hacc by exact Hne. now left.
      * right. exists (S i), problem, g, v. split; [exact Hi|].
        now replace (start + S i)%nat with (S start + i)%nat by lia.
Qed.

Lemma combine_files_Ok problems_data generation_data validation_data c :
  combine_files problems_data generation_data validation_data = Ok c ->
  merge_problems (index_results Gen.statement_idx generation_data)
    (index_results Val.statement_idx validation_data) 0 problems_data ∅
  = Ok (results c).
Proof.
  unfold combine_files.
  destruct (subscript generation_data 0); cbn; [|discriminate].
  destruct (getitem _); cbn; [|discriminate].
  destruct (subscript validation_data 0); cbn; [|discriminate].
  destruct (getitem _); cbn; [|discriminate].
  destruct (merge_problems _ _ _ _ _); cbn; [|discriminate].
  now intros [= <-].
Qed.

End MergeFacts.

(** X11.  When [combine_files] returns, no task present in both
    dictionaries is dropped: its theorem name is a key of the results; and
    every entry of the results stems from such a task, with that task's
    name and statement and the candidates merged from its two records. *)
Theorem combine_files_keeps_common_tasks
    (problems_data : list task)
    (generation_data : list (Organize.line Gen.record))
    (validation_data : list (Organize.line Val.record))
    (c : Organize.combined) :
  Organize.combine_files problems_data generation_data validation_data = Ok c ->
  let generation_results :=
    Organize.index_results Gen.statement_idx generation_data in
  let validation_results :=
    Organize.index_results Val.statement_idx validation_data in
  (forall idx problem g v,
     problems_data !! idx = Some problem ->
     generation_results !! Z.of_nat idx = Some g ->
     validation_results !! Z.of_nat idx = Some v ->
     is_Some (Organize.results c !! theoremName problem)) /\
  (forall name e,
     Organize.results c !! name = Some e ->
     exists idx problem g v,
       problems_data !! idx = Some problem /\
       generation_results !! Z.of_nat idx = Some g /\
       validation_results !! Z.of_nat idx = Some v /\
       theoremName problem = name /\
       Organize.entry_theoremName e = name /\
       Organize.entry_theoremStatement e = theoremStatement problem /\
       Organize.merge_candidates g v = Ok (Organize.entry_candidates e)).
Proof.
  intros H gr vr. apply combine_files_Ok in H.
  destruct (merge_problems_Ok _ _ _ _ _ _ H) as (_ & Hpresent & Horigin).
  split.
  - intros idx problem g v. apply (Hpresent idx problem g v).
  - intros name e He. destruct (Horigin name e He) as [Hacc|Hex];
      [now rewrite lookup_empty in Hacc|exact Hex].
Qed.

Lemma combine_files_keeps_common_tasks_witness :
  exists c,
    Organize.combine_files [MergeSamples.problem]
      [MergeSamples.setting_line;
       MergeSamples.results_line [MergeSamples.gen_one]]
      [MergeSamples.setting_line;
       MergeSamples.results_line [MergeSamples.val_two]] = Ok c /\
    is_Some (Organize.results c !! "t").
Proof.
  eexists. split; [reflexivity|].
  refine (proj1 (combine_files_keeps_common_tasks
                   [MergeSamples.problem]
                   [MergeSamples.setting_line;
                    MergeSamples.results_line [MergeSamples.gen_one]]
                   [MergeSamples.setting_line;
                    MergeSamples.results_line [MergeSamples.val_two]]
                   _ eq_refl)
                0%nat MergeSamples.problem MergeSamples.gen_one
                MergeSamples.val_two _ _ _).
  - reflexivity.
  - vm_compute. reflexivity.
  - vm_compute. reflexivity.
Defined.

Section PositionalFacts.
Import Organize.

Lemma make_candidate_list_Ok g v i c lc :
  Val.correctness v = Some lc ->
  make_candidate g v i = Ok c ->
  Gen.candidates g !! i = Some (proof c) /\
  (exists b, lc !! i = Some b /\ is_correct c = Some b) /\
  Gen.durations g !! i = Some (duration c) /\
  Gen.prompt_tokens g !! i = Some (prompt_tokens c) /\
  Gen.completion_tokens g !! i = Some (completion_tokens c) /\
  Gen.total_tokens g !! i = Some (total_tokens c) /\
  subscript_opt (Val.compiled_line_counts v) i = Ok (compiled_lines c) /\
  subscript_opt (Val.error_messages v) i = Ok (error_message c) /\
  subscript_opt (Val.error_positions v) i = Ok (error_position c).
Proof.
  intros Hlc. unfold make_candidate. rewrite Hlc.
  destruct (subscript (Gen.candidates g) i) eqn:H1; cbn; [|discriminate].
  destruct (subscript lc i) eqn:H2; cbn; [|discriminate].
  destruct (subscript (Gen.durations g) i) eqn:H3; cbn; [|discriminate].
  destruct (subscript (Gen.prompt_tokens g) i) eqn:H4; cbn; [|discriminate].
  destruct (subscript (Gen.completion_tokens g) i) eqn:H5; cbn; [|discriminate].
  destruct (subscript (Gen.total_tokens g) i) eqn:H6; cbn; [|discriminate].
  destruct (subscript_opt (Val.compiled_line_counts v) i) eqn:H7; cbn;
    [|discriminate].
  destruct (subscript_opt (Val.error_messages v) i) eqn:H8; cbn; [|discriminate].
  destruct (subscript_opt (Val.error_positions v) i) eqn:H9; cbn; [|discriminate].
  intros [= <-]. cbn.
  apply subscript_Ok in H1, H2, H3, H4, H5, H6.
  repeat split; try assumption. eauto.
Qed.

Lemma merge_problems_nothing gr vr problems : forall start acc,
  (forall i, (i < length problems)%nat ->
     gr !! Z.of_nat (start + i) = None \/ vr !! Z.of_nat (start + i) = None) ->
  merge_problems gr vr start problems acc = Ok acc.
Proof.
  induction problems as [|p rest IH]; intros start acc Hnone; [reflexivity|].
  cbn [merge_problems]. unfold merge_problem.
  destruct (Hnone 0%nat ltac:(cbn; lia)) as [H|H]; rewrite Nat.add_0_r in H;
    rewrite H.
  - cbn. apply IH. intros i Hi.
    replace (S start + i)%nat with (start + S i)%nat by lia.
    apply Hnone. cbn. lia.
  - destruct (gr !! Z.of_nat start); cbn; apply IH; intros i Hi;
      replace (S start + i)%nat with (start + S i)%nat by lia;
      apply Hnone; cbn; lia.
Qed.

End PositionalFacts.

(** X12.  With a list of verdicts, the candidates merged for a task are
    paired by position: there is one per generated proof, and the [i]-th
    one holds the [i]-th proof text, duration and token counts of the
    generation record and the [i]-th correctness, compiled line count,
    error message and error position of the validation record. *)
Theorem merge_candidates_positional (g : Gen.record) (v : Val.record)
    (lc : list (option bool)) (cs : list candidate) :
  Val.correctness v = Some lc ->
  Organize.merge_candidates g v = Ok cs ->
  length cs = length (Gen.candidates g) /\
  forall i c, cs !! i = Some c ->
    Gen.candidates g !! i = Some (proof c) /\
    (exists b, lc !! i = Some b /\ is_correct c = Some b) /\
    Gen.durations g !! i = Some (duration c) /\
    Gen.prompt_tokens g !! i = Some (prompt_tokens c) /\
    Gen.completion_tokens g !! i = Some (completion_tokens c) /\
    Gen.total_tokens g !! i = Some (total_tokens c) /\
    subscript_opt (Val.compiled_line_counts v) i = Ok (compiled_lines c) /\
    subscript_opt (Val.error_messages v) i = Ok (error_message c) /\
    subscript_opt (Val.error_positions v) i = Ok (error_position c).
Proof.
  intros Hlc Hcs. unfold Organize.merge_candidates in Hcs.
  apply for_each_Forall2 in Hcs. split.
  { apply Forall2_length in Hcs. now rewrite length_seq in Hcs. }
  intros i c Hi.
  destruct (Forall2_lookup_r _ _ _ _ _ Hcs Hi) as (j & Hj & Hmk).
  apply lookup_seq in Hj as [-> _]. cbn in Hmk.
  exact (make_candidate_list_Ok g v i c lc Hlc Hmk).
Qed.

Lemma merge_candidates_positional_witness :
  exists cs,
    Organize.merge_candidates MergeSamples.gen_one MergeSamples.val_two = Ok cs /\
    length cs = 1%nat.
Proof.
  eexists. split; [reflexivity|].
  exact (proj1 (merge_candidates_positional MergeSamples.gen_one
                  MergeSamples.val_two _ _ eq_refl eq_refl)).
Defined.

(** X13.  When no task index is present in both dictionaries,
    [combine_files] still returns a document, with no result in it, and
    the success rate printed after the write raises [ZeroDivisionError]. *)
Theorem combine_files_nothing_in_common
    (problems_data : list task)
    (generation_data : list (Organize.line Gen.record))
    (validation_data : list (Organize.line Val.record))
    (first_gen : Organize.line Gen.record) (first_val : Organize.line Val.record)
    (s s' : experiment_setting) :
  generation_data !! 0%nat = Some first_gen ->
  Organize.line_setting first_gen = Some s ->
  validation_data !! 0%nat = Some first_val ->
  Organize.line_setting first_val = Some s' ->
  (forall idx, (idx < length problems_data)%nat ->
     Organize.index_results Gen.statement_idx generation_data !! Z.of_nat idx
     = None \/
     Organize.index_results Val.statement_idx validation_data !! Z.of_nat idx
     = None) ->
  Organize.combine_files problems_data generation_data validation_data
  = Ok {| Organize.combined_setting := s; Organize.results := ∅ |} /\
  Organize.success_rate
    {| Organize.combined_setting := s; Organize.results := ∅ |}
  = Raise ZeroDivisionError.
Proof.
  intros Hg Hs Hv Hs' Hnone. split; [|reflexivity].
  unfold Organize.combine_files, subscript. rewrite Hg, Hv. cbn.
  rewrite Hs, Hs'. cbn.
  rewrite merge_problems_nothing by exact Hnone. reflexivity.
Qed.

Lemma combine_files_nothing_in_common_witness :
  Organize.combine_files [MergeSamples.problem]
    [MergeSamples.setting_line; MergeSamples.results_line [MergeSamples.gen_one]]
    [MergeSamples.setting_line; MergeSamples.results_line []]
  = Ok {| Organize.combined_setting := MergeSamples.setting;
          Organize.results := ∅ |}.
Proof.
  refine (proj1 (combine_files_nothing_in_common
                   [MergeSamples.problem]
                   [MergeSamples.setting_line;
                    MergeSamples.results_line [MergeSamples.gen_one]]
                   [MergeSamples.setting_line; MergeSamples.results_line []]
                   MergeSamples.setting_line MergeSamples.setting_line
                   MergeSamples.setting MergeSamples.setting
                   eq_refl eq_refl eq_refl eq_refl _)).
  intros idx Hidx. right. destruct idx; [reflexivity|cbn in Hidx; lia].
Defined.

(** ** [check_context_proofs]: shape of the result *)

Section CheckMore.
Import Validate.

Lemma check_proofs_raises server t stmt env0 proofs : forall call acc i p e,
  proofs !! i = Some p ->
  check_proof stmt p
    (server (call + i)%nat (proof_command stmt p env0) (Some t)) = Raise e ->
  exists e', check_proofs server t stmt env0 call proofs acc = Raise e'.
Proof.
  induction proofs as [|q rest IH]; intros call acc i p e Hi He; [discriminate|].
  cbn [check_proofs]. destruct i as [|i]; cbn in Hi.
  - injection Hi as ->. rewrite Nat.add_0_r in He. rewrite He. cbn. eauto.
  - destruct (check_proof stmt q _); cbn; [|eauto].
    apply (IH (S call) _ i p e Hi).
    now replace (S call + i)%nat with (call + S i)%nat by lia.
Qed.

Lemma check_proof_correct stmt p reply o :
  check_proof stmt p reply = Ok o ->
  (o_correctness o = Some true <->
   exists r, reply = Lean.RunResponse r /\ Lean.lean_code_is_valid r = true) /\
  (o_correctness o = Some true ->
   o_error_message o = None /\ o_error_position o = None /\
   o_compiled_lines o = Some (Z.of_nat (length (Str.splitlines p)))).
Proof.
  unfold check_proof. destruct reply as [e|m|r].
  - destruct (caught_in_check e); [|discriminate]. intros [= <-]. cbn.
    split; [|discriminate]. split; [discriminate|].
    intros (r & Hr & _). discriminate.
  - intros [= <-]. cbn. split; [|discriminate]. split; [discriminate|].
    intros (r & Hr & _). discriminate.
  - destruct (Lean.lean_code_is_valid r) eqn:Hvalid.
    + intros [= <-]. cbn. split; [|intros _; repeat split].
      split; [eauto|reflexivity].
    + destruct (subscript (Lean.messages r) 0); cbn; [|discriminate].
      intros [= <-]. cbn. split; [|discriminate]. split; [discriminate|].
      intros (r' & [= <-] & Hr'). congruence.
Qed.

End CheckMore.

(** X14.  When [check_context_proofs] returns, it returns the index it
    was given and four lists with exactly one entry per proof. *)
Theorem check_context_proofs_parallel_lists
    (server : Lean.LeanServer) (idx timeout_per_proof : Z)
    (context_code theorem_statement : string) (proofs : list string)
    (idx' : Z) (out : Validate.outcomes) :
  Validate.check_context_proofs server idx timeout_per_proof context_code
    theorem_statement proofs = Ok (idx', out) ->
  idx' = idx /\
  length (Validate.correctness out) = length proofs /\
  length (Validate.error_messages out) = length proofs /\
  length (Validate.error_positions out) = length proofs /\
  length (Validate.compiled_line_counts out) = length proofs.
Proof.
  intros H. apply check_context_proofs_Ok in H
    as (-> & r & os & _ & Hlen & -> & -> & -> & -> & _).
  rewrite !length_map. repeat split; exact Hlen.
Qed.

Lemma check_context_proofs_parallel_lists_witness :
  exists out,
    Validate.check_context_proofs CheckSamples.times_out_later 0 10
      "import Mathlib" "theorem t : True" ["trivial"; "by simp"]
    = Ok (0, out) /\
    length (Validate.correctness out) = 2%nat.
Proof.
  eexists. split; [reflexivity|].
  exact (proj1 (proj2 (check_context_proofs_parallel_lists
                         CheckSamples.times_out_later 0 10 "import Mathlib"
                         "theorem t : True" ["trivial"; "by simp"] _ _
                         eq_refl))).
Defined.

(** X15.  In a returned result, a candidate is recorded as correct exactly
    when the checker answered its command with a response that is not an
    error and passes [lean_code_is_valid(allow_sorry=False)]; its error
    message and position are then [None] and its compiled line count is
    the number of lines of the proof text. *)
Theorem correct_iff_valid_response
    (server : Lean.LeanServer) (idx timeout_per_proof : Z)
    (context_code theorem_statement : string) (proofs : list string)
    (idx' : Z) (out : Validate.outcomes) (context_res : Lean.Response)
    (i : nat) (p : string) :
  Validate.check_context_proofs server idx timeout_per_proof context_code
    theorem_statement proofs = Ok (idx', out) ->
  server 0%nat {| Lean.cmd := context_code; Lean.cmd_env := None |} None
  = Lean.RunResponse context_res ->
  proofs !! i = Some p ->
  let reply :=
    server (S i)
      (Validate.proof_command theorem_statement p (Lean.env context_res))
      (Some timeout_per_proof) in
  (Validate.correctness out !! i = Some (Some true) <->
   exists r, reply = Lean.RunResponse r /\ Lean.lean_code_is_valid r = true) /\
  (Validate.correctness out !! i = Some (Some true) ->
   Validate.error_messages out !! i = Some None /\
   Validate.error_positions out !! i = Some None /\
   Validate.compiled_line_counts out !! i
   = Some (Some (Z.of_nat (length (Str.splitlines p))))).
Proof.
  intros H Hctx Hi reply. apply check_context_proofs_Ok in H
    as (_ & r' & os & Hctx' & _ & Hc & Hm & Hp & Hl & Hos).
  rewrite Hctx in Hctx'. injection Hctx' as <-.
  destruct (Hos i p Hi) as (o & Ho & Hcheck). fold reply in Hcheck.
  destruct (check_proof_correct _ _ _ _ Hcheck) as [Hiff Hrest].
  rewrite Hc, Hm, Hp, Hl, !list_lookup_fmap, Ho. cbn. split.
  - rewrite <- Hiff. split; [now intros [= ->]|now intros ->].
  - intros [= Ht]. destruct (Hrest Ht) as (-> & -> & ->). repeat split.
Qed.

Lemma correct_iff_valid_response_witness :
  exists out,
    Validate.check_context_proofs CheckSamples.times_out_later 0 10
      "import Mathlib" "theorem t : True" ["trivial"; "by simp"]
    = Ok (0, out) /\
    (Validate.correctness out !! 0%nat = Some (Some true) <->
     exists r,
       CheckSamples.times_out_later 1%nat
         (Validate.proof_command "theorem t : True" "trivial" 0) (Some 10)
       = Lean.RunResponse r /\ Lean.lean_code_is_valid r = true).
Proof.
  eexists. split; [reflexivity|].
  exact (proj1 (correct_iff_valid_response CheckSamples.times_out_later 0 10
                  "import Mathlib" "theorem t : True" ["trivial"; "by simp"]
                  _ _ CheckSamples.context_ok 0 "trivial"
                  eq_refl eq_refl eq_refl)).
Defined.

(** X16.  The outcomes of a task are all or nothing: when the call for one
    candidate raises an exception other than the three caught ones, or is
    answered by a response that is not valid and carries no message,
    [check_context_proofs] raises and returns no outcome for any
    candidate; it raises [AssertionError] when the context is answered by
    an error. *)
Theorem check_context_proofs_all_or_nothing
    (server : Lean.LeanServer) (idx timeout_per_proof : Z)
    (context_code theorem_statement : string) (proofs : list string) :
  (forall message,
     server 0%nat {| Lean.cmd := context_code; Lean.cmd_env := None |} None
     = Lean.RunLeanError message ->
     Validate.check_context_proofs server idx timeout_per_proof context_code
       theorem_statement proofs = Raise AssertionError) /\
  (forall context_res i p,
     server 0%nat {| Lean.cmd := context_code; Lean.cmd_env := None |} None
     = Lean.RunResponse context_res ->
     proofs !! i = Some p ->
     let reply :=
       server (S i)
         (Validate.proof_command theorem_statement p (Lean.env context_res))
         (Some timeout_per_proof) in
     (exists e, reply = Lean.RunRaises e /\ Validate.caught_in_check e = false) \/
     (exists r, reply = Lean.RunResponse r /\
                Lean.lean_code_is_valid r = false /\ Lean.messages r = []) ->
     exists e,
       Validate.check_context_proofs server idx timeout_per_proof context_code
         theorem_statement proofs = Raise e).
Proof.
  split.
  - intros message Hctx. unfold Validate.check_context_proofs. now rewrite Hctx.
  - intros context_res i p Hctx Hi reply Hreply.
    unfold Validate.check_context_proofs. rewrite Hctx.
    assert (Hraise : exists e,
              Validate.check_proof theorem_statement p reply = Raise e).
    { destruct Hreply as [(e & -> & He)|(r & -> & Hv & Hm)]; cbn.
      - rewrite He. eauto.
      - rewrite Hv, Hm. cbn. eauto. }
    destruct Hraise as [e He].
    destruct (check_proofs_raises server timeout_per_proof theorem_statement
                (Lean.env context_res) proofs 1 Validate.no_outcomes i p e Hi He)
      as [e' ->].
    cbn. eauto.
Qed.

(** ** The retry loops: first success, shape of the records *)

Section RetryMore.
Import Validate.

(** The record a loop ends with is the one it started from or the one
    built from an attempt that returned. *)
Lemma retry_loop_result max attempt : forall fuel vr n r m,
  retry_loop fuel max attempt vr n = Some (r, m) ->
  r = vr \/ exists j idx' o, attempt j = Ok (idx', o) /\ r = record_of idx' o.
Proof.
  induction fuel as [|fuel IH]; intros vr n r m H; cbn [retry_loop] in H.
  - destruct (_ && _); [discriminate|]. injection H as <- <-. now left.
  - destruct (_ && _).
    + destruct (attempt n) as [[idx' o]|e] eqn:Ha.
      * apply IH in H as [->|H]; [|right; exact H]. right. eauto.
      * exact (IH _ _ _ _ H).
    + injection H as <- <-. now left.
Qed.

Lemma task_record_shaped fuel max ss idx tmo ctx stmt proofs r m :
  retry_loop fuel max
    (fun n => check_context_proofs (ss n) idx tmo ctx stmt proofs)
    (all_none idx) 0 = Some (r, m) ->
  Shaped.shaped (length proofs) idx r.
Proof.
  intros H. apply retry_loop_result in H as [->|(j & idx' & o & Hj & ->)].
  - now left.
  - right. apply check_context_proofs_Ok in Hj
      as (-> & cr & os & _ & Hlen & Hc & Hm & Hp & Hl & _).
    exists o. rewrite Hc, Hm, Hp, Hl, !length_map. repeat split; exact Hlen.
Qed.

End RetryMore.

(** X17.  Both retry loops stop at the first attempt that returns: when
    the first [k] processes of a task fail and the next one returns, with
    [k] below the bound, the task's record is the one built from that
    attempt, [k + 1] attempts were made and no later process is used, even
    if the returned lists hold indeterminate entries. *)
Theorem retry_stops_at_first_return
    (ss : Validate.sessions) (idx : nat) (t : task) (g : Gen.record)
    (k : nat) (o o' : Validate.outcomes) :
  (forall n, (n < k)%nat ->
     (exists e, Validate.check_context_proofs (ss n) (Z.of_nat idx) 10
                  (srcContext t) (theoremStatement t) (Gen.candidates g)
                = Raise e) /\
     (exists e, Validate.check_context_proofs (ss n) (Z.of_nat idx) 90
                  (srcContext t) (theoremStatement t) (Gen.candidates g)
                = Raise e)) ->
  Validate.check_context_proofs (ss k) (Z.of_nat idx) 10
    (srcContext t) (theoremStatement t) (Gen.candidates g)
  = Ok (Z.of_nat idx, o) ->
  Validate.check_context_proofs (ss k) (Z.of_nat idx) 90
    (srcContext t) (theoremStatement t) (Gen.candidates g)
  = Ok (Z.of_nat idx, o') ->
  ((k < 3)%nat ->
   Validate.validate_task 3 ss idx t g
   = Some (Validate.record_of (Z.of_nat idx) o, S k)) /\
  ((k < 5)%nat ->
   Revalidate.revalidate_task 5 ss idx t g
   = Some (Validate.record_of (Z.of_nat idx) o', S k)).
Proof.
  intros Hraise Hok Hok'. split; intros Hk.
  - unfold Validate.validate_task.
    apply (retry_loop_until_success _ _ _ _ _ k 3 0);
      [unfold Validate.max_tries; lia|lia| |exact Hok].
    intros m Hm. apply Hraise. lia.
  - unfold Revalidate.revalidate_task.
    apply (retry_loop_until_success _ _ _ _ _ k 5 0);
      [unfold Revalidate.max_tries; lia|lia| |exact Hok'].
    intros m Hm. apply Hraise. lia.
Qed.

Lemma retry_stops_at_first_return_witness :
  Validate.validate_task 3 CheckSamples2.recovers 0 CheckSamples.sample_task
    CheckSamples.sample_generation
  = Some (Validate.record_of 0
            {| Validate.correctness := [Some true; None];
               Validate.error_messages := [None; None];
               Validate.error_positions := [None; None];
               Validate.compiled_line_counts := [Some 1; None] |}, 2%nat).
Proof.
  refine (proj1 (retry_stops_at_first_return CheckSamples2.recovers 0
                   CheckSamples.sample_task CheckSamples.sample_generation
                   1 _ _ _ eq_refl eq_refl) _); [|lia].
  intros n Hn. assert (n = 0%nat) as -> by lia.
  split; exists RuntimeError; reflexivity.
Defined.

(** X18.  The first-pass run returns a result exactly when there are as
    many generation records as tasks (an [AssertionError] otherwise, with
    no process started); it then holds one record per task, in task order,
    and the record of task [idx] carries [statement_idx = idx] and is
    either all-[None] or made of four lists with one entry per candidate
    of that task. *)
Theorem validate_records_shaped (world : nat -> Validate.sessions)
    (tasks : list task) (generations : list Gen.record) :
  (length tasks <> length generations ->
   Validate.validate 3 world tasks generations = Some (Raise AssertionError)) /\
  (length tasks = length generations ->
   exists rs,
     Validate.validate 3 world tasks generations = Some (Ok rs) /\
     length rs = length tasks /\
     forall idx r g,
       rs !! idx = Some r -> generations !! idx = Some g ->
       Val.statement_idx r = Z.of_nat idx /\
       Shaped.shaped (length (Gen.candidates g)) (Z.of_nat idx) r).
Proof.
  unfold Validate.validate. split.
  - intros Hne. destruct (Nat.eqb_spec (length tasks) (length generations));
      [contradiction|reflexivity].
  - intros Hlen. rewrite Hlen, Nat.eqb_refl.
    destruct (validate_tasks_total world tasks generations
                (seq 0 (length generations)) [])
      as (rs & Hrs & Hlenrs & Hall).
    { intros i Hi. apply in_seq in Hi. lia. }
    rewrite length_seq in Hlenrs.
    exists rs. split; [exact Hrs|]. split; [lia|].
    intros idx r g Hr Hg.
    destruct (Hall idx idx) as (t' & g' & r' & n & Ht' & Hg' & Hloop & Hr').
    { apply lookup_seq. split; [reflexivity|].
      apply lookup_lt_Some in Hr. lia. }
    rewrite Hg in Hg'. injection Hg' as <-.
    rewrite Hr in Hr'. injection Hr' as <-.
    unfold Validate.validate_task in Hloop.
    pose proof (task_record_shaped _ _ _ _ _ _ _ _ _ _ Hloop) as Hshape.
    split; [|exact Hshape].
    destruct Hshape as [->|(o & -> & _)]; reflexivity.
Qed.

(** X19.  A record left by a retry loop for a task with [n] candidates is
    passed over by the selection loop of the repair pass exactly when
    [n = 6] and its correctness list holds no [None]: all-[None] records,
    records with an indeterminate entry and every record of a task that
    does not have six candidates are selected again. *)
Theorem shaped_record_selected (n : nat) (idx : Z) (r : Val.record) :
  Shaped.shaped n idx r ->
  (Revalidate.selected r = false <->
   n = 6%nat /\
   exists lc, Val.correctness r = Some lc /\ ~ In None lc).
Proof.
  intros [->|(o & -> & Hc & Hm & Hp & Hl)].
  - cbn. split; [discriminate|]. intros (_ & lc & Hlc & _). discriminate.
  - unfold Revalidate.selected, Validate.record_of. cbn. rewrite Hc, Hm, Hp.
    destruct (Nat.eqb_spec n Revalidate.expected_len) as [Hn|Hn]; cbn.
    + split.
      * intros Hex. split; [exact Hn|]. exists (Validate.correctness o).
        split; [reflexivity|]. rewrite <- existsb_is_None. congruence.
      * intros (_ & lc & [= <-] & Hnone).
        destruct (existsb _ _) eqn:Hex; [|reflexivity].
        apply existsb_is_None in Hex. contradiction.
    + split; [discriminate|]. intros [Hn' _]. contradiction.
Qed.

Lemma shaped_record_selected_witness :
  Revalidate.selected
    (Validate.record_of 0
       {| Validate.correctness := [Some true; None];
          Validate.error_messages := [None; None];
          Validate.error_positions := [None; None];
          Validate.compiled_line_counts := [Some 1; None] |}) = true.
Proof.
  destruct (Revalidate.selected _) eqn:Hs; [reflexivity|].
  apply (shaped_record_selected 2 0) in Hs as [Hn _]; [discriminate|].
  right. eexists. split; [reflexivity|]. repeat split.
Defined.

(** ** The repair pass: order of the selection, bounds *)

Section RepairMore.
Import Revalidate.

Lemma select_app validations : forall i0 acc,
  select i0 validations acc = acc ++ select i0 validations [].
Proof.
  induction validations as [|r rest IH]; intros i0 acc; cbn [select].
  - now rewrite app_nil_r.
  - rewrite IH. rewrite (IH _ (if selected r then [] ++ [i0] else [])).
    destruct (selected r); [|reflexivity]. now rewrite <- app_assoc.
Qed.

Lemma select_cons r rest i0 :
  select i0 (r :: rest) []
  = (if selected r then [i0] else []) ++ select (S i0) rest [].
Proof.
  cbn [select]. rewrite select_app. now destruct (selected r).
Qed.

Lemma select_bounds validations : forall i0 i,
  In i (select i0 validations []) ->
  (i0 <= i < i0 + length validations)%nat.
Proof.
  intros i0 i Hi. apply select_In in Hi as [[]|(j & r & -> & Hj & _)].
  apply lookup_lt_Some in Hj. lia.
Qed.

Lemma select_sorted validations : forall i0,
  StronglySorted lt (select i0 validations []).
Proof.
  induction validations as [|r rest IH]; intros i0; [constructor|].
  rewrite select_cons. destruct (selected r); cbn [app]; [|apply IH].
  constructor; [apply IH|].
  apply List.Forall_forall. intros i Hi. apply select_bounds in Hi. lia.
Qed.

(** A selected index outside the task or generation list stops the pass
    with an [IndexError]. *)
Lemma repair_out_of_range world tasks gens : forall revalidate validations,
  (forall idx, In idx revalidate -> (idx < length validations)%nat) ->
  (exists idx, In idx revalidate /\
     ((length tasks <= idx)%nat \/ (length gens <= idx)%nat)) ->
  repair max_tries world tasks gens revalidate validations
  = Some (Raise IndexError).
Proof.
  induction revalidate as [|idx rest IH]; intros validations Hin (bad & Hbad & Hout);
    [destruct Hbad|].
  cbn [repair].
  destruct (Nat.lt_ge_cases idx (length tasks)) as [Ht|Ht].
  2:{ now rewrite (subscript_ge tasks idx Ht). }
  destruct (subscript_lt tasks idx Ht) as (t & _ & ->).
  destruct (Nat.lt_ge_cases idx (length gens)) as [Hg|Hg].
  2:{ now rewrite (subscript_ge gens idx Hg). }
  destruct (subscript_lt gens idx Hg) as (g & _ & ->).
  destruct (retry_loop_total max_tries
              (fun n => Validate.check_context_proofs (world idx n)
                          (Z.of_nat idx) timeout_per_proof (srcContext t)
                          (theoremStatement t) (Gen.candidates g))
              max_tries (Validate.all_none (Z.of_nat idx)) 0%nat ltac:(lia))
    as (r & n & Hr & _).
  unfold revalidate_task at 1. rewrite Hr. unfold setitem.
  destruct (Nat.ltb_spec idx (length validations)) as [_|Hv];
    [|specialize (Hin idx (or_introl eq_refl)); lia].
  apply IH.
  - intros i Hi. rewrite length_insert. apply Hin. now right.
  - exists bad. split; [|exact Hout].
    destruct Hbad as [<-|Hbad]; [lia|exact Hbad].
Qed.

End RepairMore.

(** X20.  The selection loop lists the selected indices in strictly
    increasing order, all below the number of stored records: each
    selected task is run again once, in file order. *)
Theorem select_increasing (validations : list Val.record) :
  StronglySorted lt (Revalidate.select 0 validations []) /\
  (forall i, In i (Revalidate.select 0 validations []) ->
     (i < length validations)%nat).
Proof.
  split; [apply select_sorted|].
  intros i Hi. apply select_bounds in Hi. lia.
Qed.

(** X21.  When a selected record sits at an index that the task list or
    the generation list does not have, the repair pass raises
    [IndexError] and writes nothing back, whatever the other records
    are. *)
Theorem repair_raises_out_of_range (world : nat -> Validate.sessions)
    (tasks : list task) (generations : list Gen.record)
    (validations : list Val.record) (i : nat) (r : Val.record) :
  validations !! i = Some r ->
  Revalidate.selected r = true ->
  (length tasks <= i)%nat \/ (length generations <= i)%nat ->
  Revalidate.revalidate_file 5 world tasks generations validations
  = Some (Raise IndexError).
Proof.
  intros Hi Hs Hout. unfold Revalidate.revalidate_file.
  apply repair_out_of_range.
  - intros idx Hidx. apply select_bounds in Hidx. lia.
  - exists i. split; [|exact Hout]. apply select_In. right.
    exists i, r. repeat split; assumption.
Qed.

Lemma repair_raises_out_of_range_witness :
  Revalidate.revalidate_file 5 (fun _ _ => CheckSamples.crashed)
    [CheckSamples.sample_task] [CheckSamples.sample_generation]
    RepairSamples.too_long
  = Some (Raise IndexError).
Proof.
  apply (repair_raises_out_of_range _ _ _ _ 1 (Validate.all_none 1));
    [reflexivity|reflexivity|left; cbn; lia].
Defined.

(** ** [extract_proof_from_response] *)

Section FenceFacts.
Import Str.

Lemma string_app_nil_r (s : string) : (s ++ "")%string = s.
Proof.
  induction s as [|c s IH]; [reflexivity|].
  change (String c s ++ "")%string with (String c (s ++ "")%string).
  now f_equal.
Qed.

Lemma string_app_assoc (a b c : string) :
  ((a ++ b) ++ c)%string = (a ++ b ++ c)%string.
Proof.
  induction a as [|x a IH]; [reflexivity|].
  change ((String x a ++ b) ++ c)%string
    with (String x ((a ++ b) ++ c)%string).
  change (String x a ++ b ++ c)%string with (String x (a ++ b ++ c)%string).
  now f_equal.
Qed.

Lemma is_lf_char c : is_lf c = true -> c = ascii_of_N 10.
Proof.
  unfold is_lf, code. intros H. apply N.eqb_eq in H.
  rewrite <- (ascii_N_embedding c). now rewrite H.
Qed.

Lemma split_from_nonempty s : forall cur, split_from cur s <> [].
Proof.
  induction s as [|c s IH]; intros cur; cbn [split_from]; [discriminate|].
  destruct (is_lf c); [discriminate|apply IH].
Qed.

Lemma join_cons x l :
  l <> [] ->
  join_newline (x :: l) = (x ++ Fence.newline ++ join_newline l)%string.
Proof. destruct l; [contradiction|reflexivity]. Qed.

(** Joining the pieces gives the text back. *)
Lemma join_split_from s : forall cur,
  join_newline (split_from cur s) = (cur ++ s)%string.
Proof.
  induction s as [|c s IH]; intros cur; cbn [split_from].
  - now rewrite string_app_nil_r.
  - destruct (is_lf c) eqn:Hc.
    + rewrite join_cons by apply split_from_nonempty. rewrite IH.
      apply is_lf_char in Hc. subst c. reflexivity.
    + rewrite IH. unfold snoc. now rewrite string_app_assoc.
Qed.

Lemma split_from_app a b : forall cur,
  split_from cur (a ++ Fence.newline ++ b)
  = split_from cur a ++ split_from "" b.
Proof.
  induction a as [|c a IH]; intros cur.
  - reflexivity.
  - change (String c a ++ Fence.newline ++ b)%string
      with (String c (a ++ Fence.newline ++ b)%string).
    cbn [split_from]. destruct (is_lf c).
    + now rewrite IH.
    + apply IH.
Qed.

Lemma split_from_no_newline s : forall cur,
  Fence.has_newline s = false -> split_from cur s = [(cur ++ s)%string].
Proof.
  induction s as [|c s IH]; intros cur Hs; cbn [split_from].
  - now rewrite string_app_nil_r.
  - cbn [Fence.has_newline] in Hs. apply orb_false_iff in Hs as [-> Hs].
    rewrite IH by exact Hs. unfold snoc. now rewrite string_app_assoc.
Qed.

(** The lines of a response whose first line is a fence line. *)
Lemma split_fence_line lang rest :
  Fence.has_newline lang = false ->
  split_newline (Generate.fence ++ lang ++ Fence.newline ++ rest)
  = (Generate.fence ++ lang)%string :: split_newline rest.
Proof.
  intros Hlang. unfold split_newline.
  rewrite <- string_app_assoc, split_from_app.
  rewrite split_from_no_newline; [reflexivity|].
  cbn. exact Hlang.
Qed.

Lemma startswith_app (p s : string) : startswith (p ++ s) p = true.
Proof.
  unfold startswith. induction p as [|a p IH]; [now destruct s|].
  change (String a p ++ s)%string with (String a (p ++ s)%string).
  cbn [String.prefix]. destruct (Ascii.ascii_dec a a); [exact IH|contradiction].
Qed.

Lemma removelast_snoc {A} (l : list A) x : removelast (l ++ [x]) = l.
Proof. apply removelast_last. Qed.

End FenceFacts.

Lemma extract_proof_unfold (response : string) :
  Generate.extract_proof_from_response response
  = Fence.unprefixed
      (if Str.startswith response Generate.fence then
         let lines := Str.split_newline response in
         if (1 <? length lines)%nat then
           if String.eqb (Str.strip (Generate.last_line lines)) Generate.fence
           then Str.join_newline (removelast (tail lines))
           else Str.join_newline (tail lines)
         else response
       else response).
Proof. reflexivity. Qed.

Lemma split_newline_closing (body : string) :
  Str.split_newline (body ++ Fence.newline ++ Generate.fence)
  = Str.split_newline body ++ [Generate.fence].
Proof. unfold Str.split_newline. now rewrite split_from_app. Qed.

Lemma split_newline_closing_newline (body : string) :
  Str.split_newline
    (body ++ Fence.newline ++ Generate.fence ++ Fence.newline)
  = Str.split_newline body ++ [Generate.fence; ""%string].
Proof. unfold Str.split_newline. now rewrite split_from_app. Qed.

Lemma join_split_newline (s : string) :
  Str.join_newline (Str.split_newline s) = s.
Proof. unfold Str.split_newline. now rewrite join_split_from. Qed.

Lemma split_newline_length (s : string) :
  (1 <= length (Str.split_newline s))%nat.
Proof.
  pose proof (split_from_nonempty s "") as H. unfold Str.split_newline.
  destruct (Str.split_from "" s); [contradiction|cbn [length]; lia].
Qed.

(** X22.  For a response made of an opening fence line (three backquotes
    and a language tag), a body and a closing fence, the proof extracted
    is the body, whatever lines it has; a body starting with [":= "] loses
    these three characters and its surrounding whitespace. *)
Theorem extract_fenced_body (lang body : string) :
  Fence.has_newline lang = false ->
  Generate.extract_proof_from_response (Fence.fenced lang body)
  = Fence.unprefixed body.
Proof.
  intros Hlang. rewrite extract_proof_unfold. f_equal.
  unfold Fence.fenced. rewrite startswith_app. cbv zeta.
  rewrite split_fence_line by exact Hlang.
  rewrite split_newline_closing.
  pose proof (split_newline_length body) as Hlen.
  destruct (Nat.ltb_spec 1
              (length ((Generate.fence ++ lang)%string
                       :: Str.split_newline body ++ [Generate.fence])))
    as [_|Hle]; [|cbn [length] in Hle; rewrite length_app in Hle; lia].
  unfold Generate.last_line.
  rewrite app_comm_cons, last_last.
  replace (String.eqb (Str.strip Generate.fence) Generate.fence) with true
    by reflexivity.
  rewrite <- app_comm_cons. cbn [tail].
  now rewrite removelast_snoc, join_split_newline.
Qed.

Lemma extract_fenced_body_witness :
  Generate.extract_proof_from_response
    (Fence.fenced "lean" (":= by" ++ Fence.newline ++ "  simp"))
  = ("by" ++ Fence.newline ++ "  simp")%string.
Proof.
  exact (extract_fenced_body "lean" (":= by" ++ Fence.newline ++ "  simp")
           eq_refl).
Defined.

(** X23.  A newline after the closing fence defeats the removal of that
    fence: the last line is then empty, only the opening fence line is
    dropped, and the closing fence stays in the proof text. *)
Theorem extract_keeps_fence_before_final_newline (lang body : string) :
  Fence.has_newline lang = false ->
  Generate.extract_proof_from_response (Fence.fenced lang body ++ Fence.newline)
  = Fence.unprefixed (body ++ Fence.newline ++ Generate.fence ++ Fence.newline).
Proof.
  intros Hlang. rewrite extract_proof_unfold. f_equal.
  unfold Fence.fenced. rewrite !string_app_assoc.
  rewrite startswith_app. cbv zeta.
  rewrite split_fence_line by exact Hlang.
  set (rest := (body ++ Fence.newline ++ Generate.fence ++ Fence.newline)%string).
  pose proof (split_newline_length rest) as Hlen.
  destruct (Nat.ltb_spec 1
              (length ((Generate.fence ++ lang)%string :: Str.split_newline rest)))
    as [_|Hle]; [|cbn [length] in Hle; lia].
  replace (Generate.last_line
             ((Generate.fence ++ lang)%string :: Str.split_newline rest))
    with ""%string.
  2:{ unfold Generate.last_line, rest. rewrite split_newline_closing_newline.
      replace ((Generate.fence ++ lang)%string
               :: Str.split_newline body ++ [Generate.fence; ""%string])
        with (((Generate.fence ++ lang)%string
               :: Str.split_newline body ++ [Generate.fence]) ++ [""%string])
        by (cbn [app]; now rewrite <- app_assoc).
      now rewrite last_last. }
  replace (String.eqb (Str.strip "") Generate.fence) with false by reflexivity.
  cbn [tail]. apply join_split_newline.
Qed.

Lemma extract_keeps_fence_before_final_newline_witness :
  Generate.extract_proof_from_response
    (Fence.fenced "lean" "by simp" ++ Fence.newline)
  = ("by simp" ++ Fence.newline ++ Generate.fence ++ Fence.newline)%string.
Proof.
  exact (extract_keeps_fence_before_final_newline "lean" "by simp" eq_refl).
Defined.

(** ** [generate]: what it returns for every configuration *)

Section GenerateMore.
Import Generate.

Lemma range3_nonzero start stop step :
  step <> 0 -> exists starts, range3 start stop step = Ok starts.
Proof.
  intros Hs. unfold range3. destruct (Z.eqb_spec step 0); [contradiction|].
  eauto.
Qed.

Lemma range3_backwards stop step :
  0 <= stop -> step < 0 -> range3 0 stop step = Ok [].
Proof.
  intros Hstop Hstep. unfold range3.
  destruct (Z.eqb_spec step 0); [lia|].
  destruct (Z.ltb_spec 0 step); [lia|].
  destruct (Z.ltb_spec stop 0); [lia|]. reflexivity.
Qed.

Lemma classify_raises r e :
  classify r = Raise e ->
  r = GatheredCancelled \/
  exists completion d,
    r = GatheredDict (inr completion) d true /\
    (choices completion = [] \/
     exists text others,
       choices completion = Some text :: others /\ usage completion = None).
Proof.
  destruct r as [e0| |[e0|completion] d success]; cbn; try discriminate.
  - intros _. now left.
  - destruct success; cbn; [|discriminate].
    destruct (choices completion) as [|[text|] others] eqn:Hc; cbn.
    + intros _. right. exists completion, d. split; [reflexivity|now left].
    + destruct (usage completion) eqn:Hu; cbn; [discriminate|].
      intros _. right. exists completion, d. split; [reflexivity|].
      right. eauto.
    + discriminate.
Qed.

Lemma for_each_raises_inv {A B} (f : A -> result B) xs e :
  Organize.for_each f xs = Raise e -> exists x, In x xs /\ f x = Raise e.
Proof.
  induction xs as [|x xs IH]; cbn [Organize.for_each]; [discriminate|].
  destruct (f x) eqn:Hfx; cbn.
  - destruct (Organize.for_each f xs) eqn:Hrest; cbn; [discriminate|].
    intros [= <-]. destruct (IH eq_refl) as (x' & Hx' & Hf).
    exists x'. split; [now right|exact Hf].
  - intros [= <-]. exists x. split; [now left|exact Hfx].
Qed.

End GenerateMore.

(** X24.  [generate] raises only for a zero batch size, where it raises
    [ValueError] before any request; for every other configuration and
    every provider it returns five arrays of one same length, which are
    empty when the batch size is negative and [n_candidates >= 0]. *)
Theorem generate_returns_parallel_arrays (p : Generate.provider)
    (cfg : Generate.gen_config) :
  let bs := default 3 (Generate.cfg_batch_size cfg) in
  (bs = 0 -> Generate.generate p cfg = Raise ValueError) /\
  (bs <> 0 ->
   exists out,
     Generate.generate p cfg = Ok out /\
     length (Generate.durations out) = length (Generate.candidates out) /\
     length (Generate.g_prompt_tokens out) = length (Generate.candidates out) /\
     length (Generate.g_completion_tokens out)
     = length (Generate.candidates out) /\
     length (Generate.g_total_tokens out) = length (Generate.candidates out)) /\
  (bs < 0 -> 0 <= Generate.cfg_n_candidates cfg ->
   Generate.generate p cfg = Ok Generate.nothing_generated).
Proof.
  intros bs. unfold Generate.generate. fold bs. split; [|split].
  - intros ->. reflexivity.
  - intros Hbs.
    destruct (range3_nonzero 0 (Generate.cfg_n_candidates cfg) bs Hbs)
      as [starts ->].
    cbn [mbind result_mbind result_bind]. eexists. split; [reflexivity|].
    destruct (fold_extend p (Generate.cfg_n_candidates cfg) bs starts
                Generate.nothing_generated) as (-> & -> & -> & -> & ->).
    cbn [Generate.nothing_generated Generate.candidates Generate.durations
         Generate.g_prompt_tokens Generate.g_completion_tokens
         Generate.g_total_tokens app].
    rewrite !length_map. repeat split.
  - intros Hbs Hn. now rewrite range3_backwards.
Qed.

(** X25.  The results that make the classification of a batch raise are
    exactly the [CancelledError] object of a cancelled request (a
    [TypeError]), a successful response without any choice (an
    [IndexError]) and a successful response with content and no usage
    block (an [AttributeError]).  One such result among the results of a
    batch, like an exception raised by the gathering itself, empties the
    slots of all requests of the batch, also those of the requests that
    succeeded; without any, every slot is the classification of its own
    result. *)
Theorem batch_degraded_iff (p : Generate.provider) (n_candidates batch_size i : Z) :
  let current_batch_size := Z.min batch_size (n_candidates - i) in
  let no_choice r :=
    exists completion d,
      r = Generate.GatheredDict (inr completion) d true /\
      Generate.choices completion = [] in
  let no_usage r :=
    exists completion d text others,
      r = Generate.GatheredDict (inr completion) d true /\
      Generate.choices completion = Some text :: others /\
      Generate.usage completion = None in
  let breaks r := r = Generate.GatheredCancelled \/ no_choice r \/ no_usage r in
  (forall r e, Generate.classify r = Raise e <->
     (r = Generate.GatheredCancelled /\ e = TypeError) \/
     (no_choice r /\ e = IndexError) \/
     (no_usage r /\ e = AttributeError)) /\
  (is_Some (Generate.gather_raises p i) \/
   (exists j, (j < Generate.count current_batch_size)%nat /\
              breaks (Generate.gather p i j)) ->
   Generate.batch p n_candidates batch_size i
   = replicate (Generate.count current_batch_size) Generate.empty_slot) /\
  (Generate.gather_raises p i = None ->
   (forall j, (j < Generate.count current_batch_size)%nat ->
              ~ breaks (Generate.gather p i j)) ->
   length (Generate.batch p n_candidates batch_size i)
   = Generate.count current_batch_size /\
   forall j, (j < Generate.count current_batch_size)%nat ->
     exists s, Generate.classify (Generate.gather p i j) = Ok s /\
               Generate.batch p n_candidates batch_size i !! j = Some s).
Proof.
  intros cbs no_choice no_usage breaks.
  assert (Hclass : forall r e, Generate.classify r = Raise e <->
            (r = Generate.GatheredCancelled /\ e = TypeError) \/
            (no_choice r /\ e = IndexError) \/
            (no_usage r /\ e = AttributeError)).
  { intros r e. split.
    - intros He.
      destruct (classify_raises r e He)
        as [->|(c & d & -> & [Hc|(text & others & Hc & Hu)])].
      + left. split; [reflexivity|]. cbn in He. congruence.
      + right; left. split; [exists c, d; auto|].
        cbn in He. rewrite Hc in He. cbn in He. congruence.
      + right; right. split; [exists c, d, text, others; auto|].
        cbn in He. rewrite Hc in He. cbn in He. rewrite Hu in He.
        cbn in He. congruence.
    - intros [[-> ->]|[[(c & d & -> & Hc) ->]|[(c & d & text & others & -> & Hc & Hu) ->]]];
        cbn; [reflexivity| |]; rewrite Hc; cbn; [reflexivity|].
      rewrite Hu. reflexivity. }
  assert (Hbreaks : forall r, breaks r <-> exists e, Generate.classify r = Raise e).
  { intros r. split.
    - intros [H|[H|H]]; [exists TypeError|exists IndexError|exists AttributeError];
        apply Hclass; auto.
    - intros [e He]. apply Hclass in He as [[H _]|[[H _]|[H _]]];
        [left|right; left|right; right]; exact H. }
  split; [exact Hclass|]. split.
  - intros Hdeg. unfold Generate.batch. fold cbs.
    assert (Hraise : exists e, Generate.try_batch p i cbs = Raise e).
    { unfold Generate.try_batch.
      destruct Hdeg as [[e0 ->]|(j & Hj & Hb)]; [eauto|].
      destruct (Generate.gather_raises p i); [eauto|].
      apply Hbreaks in Hb as [e He].
      apply (for_each_raises _ _ j e); [|exact He]. apply in_seq. lia. }
    destruct Hraise as [e ->]. reflexivity.
  - intros Hgather Hnone. split; [apply batch_length|].
    intros j Hj.
    destruct (Generate.try_batch p i cbs) as [slots|e] eqn:Htry.
    + now apply (batch_returned p n_candidates batch_size i slots).
    + exfalso. unfold Generate.try_batch in Htry. rewrite Hgather in Htry.
      apply for_each_raises_inv in Htry as (j' & Hj' & Hc).
      apply in_seq in Hj'. apply (Hnone j'); [lia|].
      apply Hbreaks. eauto.
Qed.

Lemma batch_degraded_iff_witness :
  Generate.classify (Generate.gather GenerateSamples2.cancels_second 0 0)
  = Ok {| Generate.slot_candidate := "by rfl"; Generate.slot_duration := 1;
          Generate.slot_prompt_tokens := 4;
          Generate.slot_completion_tokens := 3;
          Generate.slot_total_tokens := 7 |} /\
  Generate.batch GenerateSamples2.cancels_second 3 3 0
  = [Generate.empty_slot; Generate.empty_slot; Generate.empty_slot].
Proof.
  split; [reflexivity|].
  refine (proj1 (proj2 (batch_degraded_iff GenerateSamples2.cancels_second
                          3 3 0)) _).
  right. exists 1%nat. split; [vm_compute; lia|]. left. reflexivity.
Defined.

(** ** [extract_unique_false_proofs] *)

Section FalseFacts.
Import FalseAttempts.

Lemma checked_Ok {A} (v : option (list A)) n l :
  checked v n = Ok l <-> v = Some l /\ length l = n.
Proof.
  unfold checked. destruct v as [l'|]; [|split; [discriminate|intros [? _]; discriminate]].
  destruct (Nat.eqb_spec (length l') n) as [Hn|Hn]; split.
  - intros [= <-]. auto.
  - intros [[= <-] _]. reflexivity.
  - discriminate.
  - intros [[= <-] Hl]. contradiction.
Qed.

Lemma mem_In key (d : unique) : mem key d = true <-> In key (map fst d).
Proof.
  unfold mem. rewrite existsb_exists, in_map_iff. split.
  - intros ([k v] & Hin & Hk). apply String.eqb_eq in Hk. cbn in Hk. subst.
    exists (key, v). auto.
  - intros ([k v] & Hk & Hin). cbn in Hk. subst. exists (key, v).
    split; [exact Hin|apply String.eqb_refl].
Qed.

Lemma step_collected nsl cands corr msgs poss m d d' :
  Failed.collected nsl cands corr msgs poss m d ->
  step nsl cands corr msgs poss d m = Ok d' ->
  Failed.collected nsl cands corr msgs poss (S m) d'.
Proof.
  intros (Hnd & Hfrom & Hall). unfold step.
  destruct (subscript cands m) as [c|] eqn:Hc; cbn; [|discriminate].
  destruct (subscript corr m) as [b|] eqn:Hb; cbn; [|discriminate].
  destruct (subscript msgs m) as [msg|] eqn:Hm; cbn; [|discriminate].
  destruct (subscript poss m) as [opos|] eqn:Hp; cbn; [|discriminate].
  apply subscript_Ok in Hc, Hb, Hm, Hp.
  assert (Hkeep : forall dd, dd = d ->
            (forall k msg' pos', Failed.failed_at nsl cands corr msgs poss m k msg' pos' ->
               In k (map fst d)) ->
            Failed.collected nsl cands corr msgs poss (S m) dd).
  { intros dd -> Hm'. split; [exact Hnd|]. split.
    - intros k msg' pos' Hin. destruct (Hfrom k msg' pos' Hin) as (i & Hi & Hf).
      exists i. split; [lia|exact Hf].
    - intros i k msg' pos' Hi Hf. destruct (Nat.eq_dec i m) as [->|Hne].
      + now apply (Hm' k msg' pos').
      + apply (Hall i k msg' pos'); [lia|exact Hf]. }
  destruct opos as [pos|].
  2:{ intros [= <-]. apply Hkeep; [reflexivity|].
      intros k msg' pos' (c' & b' & _ & _ & _ & _ & Hp' & _). congruence. }
  destruct (PassAtK.truthy b) eqn:Htruthy.
  { intros [= <-]. apply Hkeep; [reflexivity|].
    intros k msg' pos' (c' & b' & _ & Hb' & Ht & _). congruence. }
  destruct (mem (truncate nsl c pos) d) eqn:Hmem.
  { intros [= <-]. apply Hkeep; [reflexivity|].
    intros k msg' pos' (c' & b' & Hc' & _ & _ & _ & Hp' & ->).
    apply mem_In. congruence. }
  intros [= <-].
  assert (Hfresh : ~ In (truncate nsl c pos) (map fst d)).
  { intros Hin. apply mem_In in Hin. congruence. }
  assert (Hnew : Failed.failed_at nsl cands corr msgs poss m
                   (truncate nsl c pos) msg pos).
  { exists c, b. repeat split; assumption. }
  split; [|split].
  - rewrite map_app. cbn. apply NoDup_app. split; [exact Hnd|]. split.
    + intros x Hx Hx'. apply list_elem_of_In in Hx.
      apply list_elem_of_In in Hx'. destruct Hx' as [<-|[]]. contradiction.
    + apply NoDup_singleton.
  - intros k msg' pos' Hin. apply in_app_or in Hin as [Hin|[[= <- <- <-]|[]]].
    + destruct (Hfrom k msg' pos' Hin) as (i & Hi & Hf).
      exists i. split; [lia|exact Hf].
    + exists m. split; [lia|]. split; [exact Hnew|].
      intros j msg' pos' Hj Hf. apply Hfresh.
      now apply (Hall j _ msg' pos').
  - intros i k msg' pos' Hi Hf. rewrite map_app. apply in_or_app.
    destruct (Nat.eq_dec i m) as [->|Hne].
    + right. destruct Hf as (c' & b' & Hc' & _ & _ & _ & Hp' & ->).
      left. cbn. congruence.
    + left. apply (Hall i k msg' pos'); [lia|exact Hf].
Qed.

Lemma steps_collected nsl cands corr msgs poss n : forall a d d',
  Failed.collected nsl cands corr msgs poss a d ->
  steps (step nsl cands corr msgs poss) (seq a n) d = Ok d' ->
  Failed.collected nsl cands corr msgs poss (a + n) d'.
Proof.
  induction n as [|n IH]; intros a d d' Hd H; cbn [seq steps] in H.
  - injection H as <-. now rewrite Nat.add_0_r.
  - destruct (step nsl cands corr msgs poss d a) as [d1|] eqn:Hs; cbn in H;
      [|discriminate].
    replace (a + S n)%nat with (S a + n)%nat by lia.
    apply (IH (S a) d1 d'); [|exact H].
    now apply (step_collected _ _ _ _ _ a d).
Qed.

(** What a returned entry was computed from. *)
Lemma process_Ok task_data vmap g e :
  process task_data vmap g = Ok e ->
  exists t v lc lm lp d,
    py_getitem task_data (Gen.statement_idx g) = Ok t /\
    vmap !! Gen.statement_idx g = Some v /\
    Val.correctness v = Some lc /\ length lc = length (Gen.candidates g) /\
    Val.error_messages v = Some lm /\ length lm = length (Gen.candidates g) /\
    Val.error_positions v = Some lp /\ length lp = length (Gen.candidates g) /\
    Failed.collected (Analyze.count_newlines (theoremStatement t) + 1)
      (Gen.candidates g) lc lm lp (length (Gen.candidates g)) d /\
    e = {| statement_idx := Gen.statement_idx g;
           false_attempts :=
             map (fun kv => {| fa_proof := kv.1; fa_error_message := kv.2.1;
                               fa_error_position := kv.2.2 |}) d |}.
Proof.
  unfold process.
  destruct (py_getitem task_data _) as [t|] eqn:Ht; cbn; [|discriminate].
  destruct (vmap !! _) as [v|] eqn:Hv; cbn; [|discriminate].
  destruct (checked (Val.correctness v) _) as [lc|] eqn:Hlc; cbn; [|discriminate].
  destruct (checked (Val.error_messages v) _) as [lm|] eqn:Hlm; cbn; [|discriminate].
  destruct (checked (Val.error_positions v) _) as [lp|] eqn:Hlp; cbn; [|discriminate].
  destruct (steps _ _ _) as [d|] eqn:Hd; cbn; [|discriminate].
  intros [= <-].
  apply checked_Ok in Hlc as [Hlc Hlc'], Hlm as [Hlm Hlm'], Hlp as [Hlp Hlp'].
  exists t, v, lc, lm, lp, d. do 8 (split; [first [reflexivity|assumption]|]).
  split; [|reflexivity].
  apply (steps_collected _ _ _ _ _ (length (Gen.candidates g)) 0%nat [] d);
    [|exact Hd].
  split; [constructor|]. split; [intros k msg pos []|intros i k msg pos Hi; lia].
Qed.

End FalseFacts.

(** X26.  For a generation record whose task and validation record
    exist and whose correctness, error_messages and error_positions are
    lists, a length other than the number of candidates, shorter or
    longer, makes the extraction raise [ValueError] for that record, and
    the whole extraction raise. *)
Theorem false_attempts_length_check
    (generation_data : option experiment_setting * list Gen.record)
    (validation_data : option experiment_setting * list Val.record)
    (task_data : list task) (g : Gen.record) (t : task) (v : Val.record)
    (lc : list (option bool)) (lm : list (option string))
    (lp : list (option position_pair)) :
  In g generation_data.2 ->
  FalseAttempts.py_getitem task_data (Gen.statement_idx g) = Ok t ->
  FalseAttempts.validation_map validation_data.2 !! Gen.statement_idx g
  = Some v ->
  Val.correctness v = Some lc ->
  Val.error_messages v = Some lm ->
  Val.error_positions v = Some lp ->
  length lc <> length (Gen.candidates g) \/
  length lm <> length (Gen.candidates g) \/
  length lp <> length (Gen.candidates g) ->
  FalseAttempts.process task_data
    (FalseAttempts.validation_map validation_data.2) g = Raise ValueError /\
  exists e,
    FalseAttempts.extract_unique_false_proofs generation_data validation_data
      task_data = Raise e.
Proof.
  intros Hin Ht Hv Hlc Hlm Hlp Hlen.
  assert (Hp : FalseAttempts.process task_data
                 (FalseAttempts.validation_map validation_data.2) g
               = Raise ValueError).
  { unfold FalseAttempts.process. rewrite Ht. cbn. rewrite Hv. cbn.
    rewrite Hlc, Hlm, Hlp. unfold FalseAttempts.checked.
    destruct (Nat.eqb_spec (length lc) (length (Gen.candidates g))); cbn;
      [|reflexivity].
    destruct (Nat.eqb_spec (length lm) (length (Gen.candidates g))); cbn;
      [|reflexivity].
    destruct (Nat.eqb_spec (length lp) (length (Gen.candidates g))); cbn;
      [|reflexivity].
    exfalso. destruct Hlen as [H|[H|H]]; contradiction. }
  split; [exact Hp|].
  unfold FalseAttempts.extract_unique_false_proofs.
  apply (for_each_raises _ _ g ValueError Hin Hp).
Qed.

Lemma false_attempts_length_check_witness :
  FalseAttempts.extract_unique_false_proofs (None, [FalseSamples.generation])
    (None, [FalseSamples.validation_long]) [FalseSamples.problem]
  = Raise ValueError.
Proof.
  destruct (false_attempts_length_check (None, [FalseSamples.generation])
              (None, [FalseSamples.validation_long]) [FalseSamples.problem]
              FalseSamples.generation FalseSamples.problem
              FalseSamples.validation_long _ _ _
              (or_introl eq_refl) eq_refl eq_refl eq_refl eq_refl eq_refl)
    as [_ _]; [left; cbn; lia|].
  reflexivity.
Defined.

(** X27.  In a returned entry the false attempts have pairwise distinct
    proof texts; each one was recorded from a candidate that is not
    correct and has an error position, with that candidate's message and
    position and its text cut after the line of the error, and from the
    first candidate giving that text; and the text of every such candidate
    is among them. *)
Theorem false_attempts_unique (task_data : list task)
    (vmap : gmap Z Val.record) (g : Gen.record) (e : FalseAttempts.entry) :
  FalseAttempts.process task_data vmap g = Ok e ->
  exists t v lc lm lp,
    FalseAttempts.py_getitem task_data (Gen.statement_idx g) = Ok t /\
    vmap !! Gen.statement_idx g = Some v /\
    Val.correctness v = Some lc /\
    Val.error_messages v = Some lm /\
    Val.error_positions v = Some lp /\
    let failed_at :=
      Failed.failed_at (Analyze.count_newlines (theoremStatement t) + 1)
        (Gen.candidates g) lc lm lp in
    NoDup (map FalseAttempts.fa_proof (FalseAttempts.false_attempts e)) /\
    (forall fa, In fa (FalseAttempts.false_attempts e) ->
       exists i,
         failed_at i (FalseAttempts.fa_proof fa)
           (FalseAttempts.fa_error_message fa)
           (FalseAttempts.fa_error_position fa) /\
         forall j msg pos, (j < i)%nat ->
           ~ failed_at j (FalseAttempts.fa_proof fa) msg pos) /\
    (forall i text msg pos, failed_at i text msg pos ->
       exists fa, In fa (FalseAttempts.false_attempts e) /\
                  FalseAttempts.fa_proof fa = text).
Proof.
  intros H. apply process_Ok in H
    as (t & v & lc & lm & lp & d & Ht & Hv & Hlc & Hlc' & Hlm & _ & Hlp & _
        & (Hnd & Hfrom & Hall) & ->).
  exists t, v, lc, lm, lp. repeat (split; [assumption|]).
  cbn [FalseAttempts.false_attempts]. split; [|split].
  - rewrite map_map. cbn. exact Hnd.
  - intros fa Hfa. apply in_map_iff in Hfa as ([k [msg pos]] & <- & Hin).
    cbn. destruct (Hfrom k msg pos Hin) as (i & _ & Hf & Hfirst). eauto.
  - intros i text msg pos Hf.
    assert (Hi : (i < length (Gen.candidates g))%nat).
    { destruct Hf as (c & b & Hc & _). now apply lookup_lt_Some in Hc. }
    specialize (Hall i text msg pos Hi Hf).
    apply in_map_iff in Hall as ([k [msg' pos']] & Hk & Hin). cbn in Hk. subst k.
    eexists. split; [apply in_map_iff; exists (text, (msg', pos')); eauto|].
    reflexivity.
Qed.

Lemma false_attempts_unique_witness :
  exists e,
    FalseAttempts.process [FalseSamples.problem]
      {[ 0 := FalseSamples.validation ]} FalseSamples.generation = Ok e /\
    NoDup (map FalseAttempts.fa_proof (FalseAttempts.false_attempts e)).
Proof.
  eexists. split; [reflexivity|].
  lazymatch goal with
  | |- NoDup (map _ (FalseAttempts.false_attempts ?e)) =>
    assert (Hp : FalseAttempts.process [FalseSamples.problem]
                   {[ 0 := FalseSamples.validation ]} FalseSamples.generation
                 = Ok e) by (vm_compute; reflexivity);
    destruct (false_attempts_unique [FalseSamples.problem]
                {[ 0 := FalseSamples.validation ]} FalseSamples.generation
                e Hp)
      as (t & v & lc & lm & lp & _ & _ & _ & _ & _ & Hnd & _)
  end.
  exact Hnd.
Defined.

(** X28.  A returned extraction holds one entry per generation record, in
    the same order and with the same statement index, also for a task
    without any failed candidate, whose list of false attempts is then
    empty. *)
Theorem false_attempts_one_entry_per_record
    (generation_data : option experiment_setting * list Gen.record)
    (validation_data : option experiment_setting * list Val.record)
    (task_data : list task) (out : list FalseAttempts.entry) :
  FalseAttempts.extract_unique_false_proofs generation_data validation_data
    task_data = Ok out ->
  length out = length generation_data.2 /\
  forall i g e,
    generation_data.2 !! i = Some g -> out !! i = Some e ->
    FalseAttempts.statement_idx e = Gen.statement_idx g /\
    (length (FalseAttempts.false_attempts e) <= length (Gen.candidates g))%nat /\
    ((forall v lc, FalseAttempts.validation_map validation_data.2
                   !! Gen.statement_idx g = Some v ->
                   Val.correctness v = Some lc ->
                   forall b, In b lc -> PassAtK.truthy b = true) ->
     FalseAttempts.false_attempts e = []).
Proof.
  unfold FalseAttempts.extract_unique_false_proofs. intros H.
  apply for_each_Forall2 in H. split.
  { apply Forall2_length in H. now symmetry. }
  intros i g e Hg He.
  destruct (Forall2_lookup_l _ _ _ _ _ H Hg) as (e' & He' & Hp).
  rewrite He in He'. injection He' as <-.
  apply process_Ok in Hp
    as (t & v & lc & lm & lp & d & Ht & Hv & Hlc & Hlc' & Hlm & _ & Hlp & _
        & (Hnd & Hfrom & Hall) & ->).
  cbn [FalseAttempts.statement_idx FalseAttempts.false_attempts].
  split; [reflexivity|]. split.
  - rewrite length_map.
    (* distinct keys, each from a distinct index below the count *)
    assert (Hinj : forall k, In k (map fst d) ->
              exists i0, (i0 < length (Gen.candidates g))%nat /\
                exists c pos, Gen.candidates g !! i0 = Some c /\
                  lp !! i0 = Some (Some pos) /\
                  k = FalseAttempts.truncate
                        (Analyze.count_newlines (theoremStatement t) + 1) c pos).
    { intros k Hk. apply in_map_iff in Hk as ([k' [msg pos]] & <- & Hin).
      destruct (Hfrom k' msg pos Hin)
        as (i0 & Hi0 & (c & b & Hc & _ & _ & _ & Hp & Hk) & _).
      exists i0. split; [exact Hi0|]. exists c, pos. auto. }
    rewrite <- (length_map fst d).
    clear Hfrom Hall. revert Hnd Hinj.
    generalize (map fst d). intros keys Hnd Hinj.
    set (text_at := fun i0 : nat =>
           match Gen.candidates g !! i0, lp !! i0 with
           | Some c, Some (Some pos) =>
             Some (FalseAttempts.truncate
                     (Analyze.count_newlines (theoremStatement t) + 1) c pos)
           | _, _ => None
           end).
    assert (Hsub : forall k, In k keys ->
              In (Some k) (map text_at (seq 0 (length (Gen.candidates g))))).
    { intros k Hk. destruct (Hinj k Hk) as (i0 & Hi0 & c & pos & Hc & Hp & ->).
      apply in_map_iff. exists i0. split; [|apply in_seq; lia].
      unfold text_at. now rewrite Hc, Hp. }
    assert (Hle : (length (map Some keys)
                   <= length (map text_at (seq 0 (length (Gen.candidates g)))))%nat).
    { apply NoDup_incl_length.
      - apply NoDup_ListNoDup, NoDup_fmap_2; [intros ? ? [=]; assumption|exact Hnd].
      - intros x Hx. apply in_map_iff in Hx as (k & <- & Hk). now apply Hsub. }
    now rewrite !length_map, length_seq in Hle.
  - intros Hcorrect. destruct d as [|[k [msg pos]] d']; [reflexivity|exfalso].
    destruct (Hfrom k msg pos (or_introl eq_refl))
      as (i0 & _ & (c & b & _ & Hb & Htruthy & _) & _).
    rewrite (Hcorrect v lc Hv Hlc b) in Htruthy; [discriminate|].
    apply list_elem_of_In, list_elem_of_lookup. eauto.
Qed.

Lemma false_attempts_one_entry_per_record_witness :
  exists out,
    FalseAttempts.extract_unique_false_proofs (None, [FalseSamples.generation])
      (None, [FalseSamples.validation]) [FalseSamples.problem] = Ok out /\
    length out = 1%nat.
Proof.
  eexists. split; [reflexivity|].
  exact (proj1 (false_attempts_one_entry_per_record
                  (None, [FalseSamples.generation])
                  (None, [FalseSamples.validation]) [FalseSamples.problem]
                  _ eq_refl)).
Defined.

(** ** The compiled ratio of accepted candidates *)

Section RatioFacts.
Import Analyze.

Lemma splitlines_from_le s : forall cur,
  Accepted.only_newline_breaks s = true ->
  Z.of_nat (length (Str.splitlines_from cur s)) <= count_newlines s + 1.
Proof.
  unfold Accepted.only_newline_breaks.
  induction s as [|c s IH]; intros cur Hs; cbn [Str.splitlines_from].
  - cbn [count_newlines]. destruct (String.eqb cur ""); cbn [length]; lia.
  - cbn [list_ascii_of_string forallb] in Hs.
    apply andb_true_iff in Hs as [Hc Hs]. cbn [count_newlines].
    assert (Hcr : Str.is_cr c = false).
    { unfold Str.is_cr, Str.is_line_boundary, Str.is_lf in *.
      destruct (N.eqb_spec (Str.code c) 13) as [E|]; [|reflexivity].
      rewrite E in Hc. discriminate. }
    rewrite Hcr. destruct (Str.is_line_boundary c) eqn:Hb.
    + cbn [negb orb] in Hc. rewrite Hc. cbn [length].
      specialize (IH "" Hs). lia.
    + specialize (IH (Str.snoc cur c) Hs).
      destruct (Str.is_lf c); lia.
Qed.

Lemma count_newlines_nonneg s : 0 <= count_newlines s.
Proof.
  induction s as [|c s IH]; cbn [count_newlines]; [lia|].
  destruct (Str.is_lf c); lia.
Qed.

Lemma count_lines_bounds cands : forall acc,
  (forall c, In c cands -> Accepted.counted c) ->
  0 <= acc.1 <= acc.2 ->
  0 <= (fold_left count_lines cands acc).1 <= (fold_left count_lines cands acc).2.
Proof.
  induction cands as [|c cands IH]; intros acc Hall Hacc; [exact Hacc|].
  cbn [fold_left]. apply IH; [intros c' Hc'; apply Hall; now right|].
  unfold count_lines. cbn [fst snd].
  destruct (Hall c (or_introl eq_refl)) as [->|[-> Hbreaks]]; [lia|].
  pose proof (splitlines_from_le (proof c) "" Hbreaks) as Hle.
  unfold Str.splitlines. lia.
Qed.

Lemma Zratio_bounds (a b : Z) :
  0 <= a <= b -> 0 < b -> (0 <= inject_Z a / inject_Z b <= 1)%Q.
Proof.
  intros Hab Hb. split.
  - apply Qle_shift_div_l; [unfold Qlt; cbn; lia|].
    rewrite Qmult_0_l. unfold Qle. cbn. lia.
  - apply Qle_shift_div_r; [unfold Qlt; cbn; lia|].
    rewrite Qmult_1_l. unfold Qle. cbn. lia.
Qed.

End RatioFacts.

(** X29.  For a theorem whose candidates either have no compiled line
    count or were accepted by the checker (their count is the number of
    lines of the proof) with newline as only line break, the compiled
    ratio lies between 0 and 1: the lines counted as compiled never exceed
    the lines counted as written. *)
Theorem compiled_ratio_of_accepted (r : Analyze.theorem_result) :
  (forall c, In c (Analyze.candidates r) -> Accepted.counted c) ->
  (0 <= Analyze.compiled_ratio r <= 1)%Q.
Proof.
  intros Hall. unfold Analyze.compiled_ratio.
  pose proof (count_lines_bounds (Analyze.candidates r) (0, 0) Hall
                ltac:(cbn; lia)) as Hb.
  destruct (fold_left Analyze.count_lines (Analyze.candidates r) (0, 0))
    as [compiled total]. cbn [fst snd] in Hb.
  destruct (Z.ltb_spec 0 total); [|split; discriminate].
  now apply Zratio_bounds.
Qed.

Lemma compiled_ratio_of_accepted_witness :
  (0 <= Analyze.compiled_ratio RatioSamples.solved <= 1)%Q /\
  (Analyze.compiled_ratio RatioSamples.solved == 2 # 3)%Q.
Proof.
  split; [|reflexivity].
  apply compiled_ratio_of_accepted.
  intros c [<-|[<-|[]]]; [right; split; reflexivity|left; reflexivity].
Defined.

(** ** [extract_category] *)

Section CategoryFacts.
Import Categories.

Lemma prefix_cons a p s :
  String.prefix (String a p) s = true ->
  exists s', s = String a s' /\ String.prefix p s' = true.
Proof.
  destruct s as [|b s]; cbn [String.prefix]; [discriminate|].
  destruct (Ascii.ascii_dec a b) as [->|]; [eauto|discriminate].
Qed.

End CategoryFacts.

Ltac peel_prefix :=
  repeat match goal with
  | H : String.prefix (String _ _) ?s = true |- _ =>
    let s' := fresh "s" in
    let E := fresh "E" in
    apply prefix_cons in H as (s' & E & H);
    first [ subst s | discriminate E | (injection E as E; subst) ]
  end.

(** X30.  [extract_category] depends on the prefix of the name alone and
    not on the order of its tests: the eight prefixes exclude one another,
    a name is given a category exactly when it starts with that
    category's prefix (["amc"] for ["amc12"]), and ["unknown"] exactly
    when it starts with none of them. *)
Theorem extract_category_by_prefix (theorem_name : string) :
  let starts p := Str.startswith theorem_name p = true in
  (Categories.extract_category theorem_name = "imo" <-> starts "imo") /\
  (Categories.extract_category theorem_name = "amc12" <-> starts "amc") /\
  (Categories.extract_category theorem_name = "aime" <-> starts "aime") /\
  (Categories.extract_category theorem_name = "mathd_numbertheory"
   <-> starts "mathd_numbertheory") /\
  (Categories.extract_category theorem_name = "mathd_algebra"
   <-> starts "mathd_algebra") /\
  (Categories.extract_category theorem_name = "algebra" <-> starts "algebra") /\
  (Categories.extract_category theorem_name = "numbertheory"
   <-> starts "numbertheory") /\
  (Categories.extract_category theorem_name = "induction"
   <-> starts "induction") /\
  (Categories.extract_category theorem_name = "unknown" <->
   ~ (starts "imo" \/ starts "amc" \/ starts "aime" \/
      starts "mathd_numbertheory" \/ starts "mathd_algebra" \/
      starts "algebra" \/ starts "numbertheory" \/ starts "induction")).
Proof.
  cbv zeta. unfold Categories.extract_category, Str.startswith.
  destruct (String.prefix "imo" theorem_name) eqn:H1;
    [|destruct (String.prefix "amc" theorem_name) eqn:H2;
      [|destruct (String.prefix "aime" theorem_name) eqn:H3;
        [|destruct (String.prefix "mathd_numbertheory" theorem_name) eqn:H4;
          [|destruct (String.prefix "mathd_algebra" theorem_name) eqn:H5;
            [|destruct (String.prefix "algebra" theorem_name) eqn:H6;
              [|destruct (String.prefix "numbertheory" theorem_name) eqn:H7;
                [|destruct (String.prefix "induction" theorem_name) eqn:H8]]]]]]];
    repeat split; intros H; try reflexivity; try discriminate H;
    try solve [exfalso; peel_prefix];
    try solve [intuition discriminate];
    try solve [exfalso; apply H; tauto].
Qed.

(** ** Worked cases *)

(** A second candidate rejected without a message: the verdict of the
    first, accepted, candidate is lost with the [IndexError]. *)
Example silent_rejection_raises :
  Validate.check_context_proofs CheckSamples2.rejects_silently 0 10
    "import Mathlib" "theorem t : True" ["trivial"; "by simp"]
  = Raise IndexError.
Proof. reflexivity. Qed.

(** One response without usage among three empties the three slots. *)
Example missing_usage_empties_batch :
  Generate.generate GenerateSamples2.forgets_usage
    {| Generate.cfg_n_candidates := 3; Generate.cfg_batch_size := None |}
  = Ok {| Generate.candidates := [""; ""; ""];
          Generate.durations := [0%Q; 0%Q; 0%Q];
          Generate.g_prompt_tokens := [0; 0; 0];
          Generate.g_completion_tokens := [0; 0; 0];
          Generate.g_total_tokens := [0; 0; 0] |}.
Proof. reflexivity. Qed.

Example zero_batch_size_raises :
  Generate.generate GenerateSamples.flaky GenerateSamples2.zero_batch
  = Raise ValueError.
Proof. reflexivity. Qed.

(** An accepted proof ending with a newline counts as two lines compiled
    out of three written. *)
Example trailing_newline_ratio :
  (Analyze.compiled_ratio RatioSamples.solved == 2 # 3)%Q.
Proof. reflexivity. Qed.
